(** * JerryScript arithmetic opcodes and the BigUInt engine

    A shallow embedding of [jerry-core/vm/opcodes-ecma-arithmetics.c]
    (the handlers [do_number_arithmetic], [opfunc_addition] and
    [opfunc_unary_operation]) and of the macros of [ecma-big-uint.h],
    followed by the properties of the arithmetic core.

    The file has two parts: the definitions (numbers, the BigUInt layer,
    the virtual machine state and the three handlers), then the lemmas and
    the theorems about them. *)

From Stdlib Require Import ZArith Lia Bool.
From Stdlib Require Import Floats.SpecFloat.
From stdpp Require Import base option list gmap strings pretty.

Local Open Scope Z_scope.

(* ===================================================================== *)
(** * Part I: definitions                                                 *)
(* ===================================================================== *)

(** ** ECMA numbers: IEEE-754 binary64 *)

Module Number.

(** [ecma_number_t] is a C [double]. It is modelled by the standard
    library's specification of IEEE-754 floats at the binary64 format. *)
Definition ecma_number_t : Type := spec_float.

Definition prec : Z := 53.
Definition emax : Z := 1024.

Definition ECMA_NUMBER_ZERO : ecma_number_t := S754_zero false.
Definition ecma_number_make_nan : ecma_number_t := S754_nan.
Definition ecma_number_make_infinity (sign : bool) : ecma_number_t :=
  S754_infinity sign.

(** The double nearest to an integer, for writing literals. *)
Definition ecma_number_of_Z (z : Z) : ecma_number_t :=
  binary_normalize prec emax z 0 false.

(** C's [a + b], [a - b], [a * b], [a / b] and [-a] on doubles. *)
Definition number_add : ecma_number_t -> ecma_number_t -> ecma_number_t :=
  SFadd prec emax.
Definition number_sub : ecma_number_t -> ecma_number_t -> ecma_number_t :=
  SFsub prec emax.
Definition number_mul : ecma_number_t -> ecma_number_t -> ecma_number_t :=
  SFmul prec emax.
Definition number_div : ecma_number_t -> ecma_number_t -> ecma_number_t :=
  SFdiv prec emax.
Definition number_neg : ecma_number_t -> ecma_number_t := SFopp.

(** Modelled from the spec: [ecma_op_number_remainder] is defined in
    ecma-number-arithmetic.c, which is not among the sources. The spec
    gives it remainder semantics where the sign of the result follows the
    dividend and the result is NaN if the divisor is 0 or the dividend is
    infinite. The remainder of two finite numbers is exact: both are
    integer multiples of [2 ^ e] for the smaller exponent [e]. *)
Definition ecma_op_number_remainder (left_num right_num : ecma_number_t)
  : ecma_number_t :=
  match left_num, right_num with
  | S754_nan, _ | _, S754_nan => ecma_number_make_nan
  | S754_infinity _, _ => ecma_number_make_nan
  | _, S754_zero _ => ecma_number_make_nan
  | _, S754_infinity _ => left_num
  | S754_zero _, _ => left_num
  | S754_finite sl ml el, S754_finite _ mr er =>
      let e := Z.min el er in
      let x := Z.pos ml * 2 ^ (el - e) in
      let y := Z.pos mr * 2 ^ (er - e) in
      binary_normalize prec emax (cond_Zopp sl (Z.rem x y)) e sl
  end.

End Number.

(** ** The BigUInt layer: macros of ecma-big-uint.h *)

Module BigUInt.

(** Limit of BigUInt memory allocation in JerryScript. *)
Definition ECMA_BIGINT_MAX_SIZE : Z := 0x10000.

(** Modelled from the spec: [sizeof (ecma_bigint_digit_t)] (the type is
    declared in ecma-globals.h, which is missing). A digit is a fixed-width
    unsigned limb, half of the 64-bit [ecma_bigint_two_digits_t] that holds
    two digits: a [uint32_t]. *)
Definition sizeof_ecma_bigint_digit_t : Z := 4.

(** Shift used by left/right shifting of a value. *)
Definition ECMA_BIGINT_DIGIT_SHIFT : Z := 5.

(** Number of bits of a digit, and the digit base. *)
Definition digit_bits : Z := 8 * sizeof_ecma_bigint_digit_t.
Definition digit_base : Z := 2 ^ digit_bits.

(** [ECMA_BIGINT_SIZE_IS_ODD (size)] is
    [(((size) & sizeof (ecma_bigint_digit_t)) != 0)]. *)
Definition ECMA_BIGINT_SIZE_IS_ODD (size : Z) : bool :=
  negb (Z.land size sizeof_ecma_bigint_digit_t =? 0).

(** [ECMA_BIGINT_HIGH_DIGIT (digit)]: the digit moved to the high half of
    a 64-bit two-digit value. *)
Definition ECMA_BIGINT_HIGH_DIGIT (digit : Z) : Z :=
  Z.shiftl digit (8 * sizeof_ecma_bigint_digit_t) mod 2 ^ 64.

(** A magnitude: the digits of a BigUInt, least significant first. The
    byte size is the number of digits times the digit width. *)
Definition magnitude : Type := list Z.

Definition byte_size (digits : magnitude) : Z :=
  sizeof_ecma_bigint_digit_t * Z.of_nat (length digits).

(** [ECMA_BIGINT_GET_LAST_DIGIT (value_p, size)]: the digit stored at
    byte offset [size - sizeof (ecma_bigint_digit_t)], for a size of at
    least one digit. Below that the macro reads the header of the
    primitive, before the first digit; the digit list has no header, and
    nothing here is stated about such a size. *)
Definition ECMA_BIGINT_GET_LAST_DIGIT (digits : magnitude) (size : Z) : Z :=
  nth (Z.to_nat (size / sizeof_ecma_bigint_digit_t - 1)) digits 0.

(** [ECMA_BIGINT_GET_DIGITS (value_p, offset)]: a pointer to the digits of
    the value, [offset] bytes past the first one. What it points to is the
    rest of the digit array from there on. *)
Definition ECMA_BIGINT_GET_DIGITS (digits : magnitude) (offset : Z) : magnitude :=
  drop (Z.to_nat (offset / sizeof_ecma_bigint_digit_t)) digits.

(** The unsigned integer a magnitude stands for. *)
Fixpoint to_Z (digits : magnitude) : Z :=
  match digits with
  | [] => 0
  | d :: ds => d + digit_base * to_Z ds
  end.

(** Every digit fits the digit type. *)
Definition digits_ok (digits : magnitude) : Prop :=
  Forall (fun d => 0 <= d < digit_base) digits.

(** *** The engine's operations

    ecma-big-uint.h declares the operations of the engine; their bodies
    (ecma-big-uint.c) are not among the sources. *)

(** The two ways an operation of the engine fails. *)
Inductive big_uint_error : Type :=
| BIG_UINT_RESOURCE_ERROR
| BIG_UINT_ARITHMETIC_ERROR.

Inductive big_uint_result : Type :=
| BigUIntOk (digits : magnitude)
| BigUIntError (error : big_uint_error).

Definition and_then (r : big_uint_result)
    (k : magnitude -> big_uint_result) : big_uint_result :=
  match r with
  | BigUIntOk digits => k digits
  | BigUIntError error => BigUIntError error
  end.

(** Modelled from the spec: [ecma_bigint_create] (ecma-big-uint.c is
    missing). It allocates a zero-initialized magnitude of [size] bytes and
    fails with a resource error if [size > MAX_SIZE]. The allocator running
    out of memory, its other cause of failure, depends on the state of
    the engine's heap and is left out: it adds failures and no result. *)
Definition ecma_bigint_create (size : Z) : big_uint_result :=
  if ECMA_BIGINT_MAX_SIZE <? size
  then BigUIntError BIG_UINT_RESOURCE_ERROR
  else BigUIntOk (replicate (Z.to_nat (size / sizeof_ecma_bigint_digit_t)) 0).

(** Modelled from the spec: a result is built in the magnitude that was
    created for it. Digits are written into the buffer from its first digit
    on: the buffer keeps its size, and a digit beyond its end is not
    written. *)
Fixpoint store (buffer digits : magnitude) : magnitude :=
  match buffer, digits with
  | [], _ => []
  | b :: buffer', [] => b :: store buffer' []
  | _ :: buffer', d :: digits' => d :: store buffer' digits'
  end.

(** Modelled from the spec: canonical form has no most significant zero
    digit; the value 0 is the magnitude of length zero. *)
Fixpoint canonicalize (digits : magnitude) : magnitude :=
  match digits with
  | [] => []
  | d :: ds =>
      match canonicalize ds with
      | [] => if d =? 0 then [] else [d]
      | ds' => d :: ds'
      end
  end.

(** Modelled from the spec: [ecma_big_uint_extend] returns a new magnitude
    one digit larger than [value], with [digit] as the new most
    significant digit. *)
Definition ecma_big_uint_extend (value : magnitude) (digit : Z)
  : big_uint_result :=
  and_then (ecma_bigint_create (byte_size value + sizeof_ecma_bigint_digit_t))
    (fun buffer => BigUIntOk (store buffer (value ++ [digit]))).

(** Modelled from the spec: an operation whose result may overflow the
    input width by exactly one digit returns the digits in the buffer,
    extended by the carry if there is one. *)
Definition with_carry (buffer digits : magnitude) (carry : Z)
  : big_uint_result :=
  if carry =? 0 then BigUIntOk (store buffer digits)
  else ecma_big_uint_extend (store buffer digits) carry.

(** Modelled from the spec: [ecma_big_uint_compare] is the three-way
    comparison of unsigned magnitudes in canonical form: the longer one is
    larger, and equal sizes compare from the most significant digit. *)
Fixpoint compare_digits (left right : magnitude) : comparison :=
  match left, right with
  | x :: left', y :: right' =>
      match compare_digits left' right' with
      | Eq => x ?= y
      | c => c
      end
  | _, _ => Eq
  end.

Definition ecma_big_uint_compare (left right : magnitude) : Z :=
  match Nat.compare (length left) (length right) with
  | Lt => -1
  | Gt => 1
  | Eq =>
      match compare_digits left right with
      | Lt => -1
      | Eq => 0
      | Gt => 1
      end
  end.

(** Modelled from the spec: [ecma_big_uint_mul_digit] multiplies every
    digit of [value] by [mul], the carry of the two-digit product going to
    the next digit, then adds [add] into the least significant digit with
    its own carry propagation; the result may be one digit wider. *)
Fixpoint mul_digit_pass (value : magnitude) (mul carry : Z) : magnitude * Z :=
  match value with
  | [] => ([], carry)
  | d :: ds =>
      let two_digits := mul * d + carry in
      let '(rest, carry_out) := mul_digit_pass ds mul (two_digits / digit_base) in
      (two_digits mod digit_base :: rest, carry_out)
  end.

Fixpoint add_digit_pass (value : magnitude) (carry : Z) : magnitude * Z :=
  match value with
  | [] => ([], carry)
  | d :: ds =>
      let two_digits := d + carry in
      let '(rest, carry_out) := add_digit_pass ds (two_digits / digit_base) in
      (two_digits mod digit_base :: rest, carry_out)
  end.

Definition ecma_big_uint_mul_digit (value : magnitude) (mul add : Z)
  : big_uint_result :=
  and_then (ecma_bigint_create (byte_size value))
    (fun buffer =>
       let '(product, carry_mul) := mul_digit_pass value mul 0 in
       let '(sum, carry_add) := add_digit_pass product add in
       with_carry buffer sum (carry_mul + carry_add)).

(** Modelled from the spec: [ecma_big_uint_add] adds digit by digit with
    carry propagation, over the longer operand; a carry out of the last
    digit extends the result by one digit. *)
Fixpoint add_digits (long short : magnitude) (carry : Z) : magnitude * Z :=
  match long with
  | [] => ([], carry)
  | x :: long' =>
      let two_digits := x + hd 0 short + carry in
      let '(rest, carry_out) :=
        add_digits long' (tl short) (two_digits / digit_base) in
      (two_digits mod digit_base :: rest, carry_out)
  end.

Definition ecma_big_uint_add (left_value right_value : magnitude)
  : big_uint_result :=
  let '(long, short) :=
    if (length left_value <? length right_value)%nat
    then (right_value, left_value) else (left_value, right_value) in
  and_then (ecma_bigint_create (byte_size long))
    (fun buffer =>
       let '(sum, carry) := add_digits long short 0 in
       with_carry buffer sum carry).

(** Modelled from the spec: [ecma_big_uint_sub] subtracts digit by digit
    with borrow propagation; it requires [left >= right] and
    canonicalizes its result. *)
Fixpoint sub_digits (left right : magnitude) (borrow : Z) : magnitude :=
  match left with
  | [] => []
  | x :: left' =>
      let difference := x - hd 0 right - borrow in
      difference mod digit_base
        :: sub_digits left' (tl right) (if difference <? 0 then 1 else 0)
  end.

Definition ecma_big_uint_sub (left_value right_value : magnitude)
  : big_uint_result :=
  and_then (ecma_bigint_create (byte_size left_value))
    (fun buffer =>
       BigUIntOk (canonicalize (store buffer (sub_digits left_value right_value 0)))).

(** Modelled from the spec: [ecma_big_uint_mul] is the schoolbook
    multiplication: one row [left * digit] per digit of [right],
    accumulated one digit higher each time; the result is up to
    [size left + size right] bytes wide and canonicalized. *)
Fixpoint mul_accumulate (left : magnitude) (mul : Z) (acc : magnitude)
    (carry : Z) : magnitude :=
  match left with
  | [] => fst (add_digit_pass acc carry)
  | x :: left' =>
      let two_digits := mul * x + hd 0 acc + carry in
      two_digits mod digit_base
        :: mul_accumulate left' mul (tl acc) (two_digits / digit_base)
  end.

Fixpoint mul_digits (left right : magnitude) : magnitude :=
  match right with
  | [] => replicate (length left) 0
  | y :: right' => mul_accumulate left y (0 :: mul_digits left right') 0
  end.

Definition ecma_big_uint_mul (left_value right_value : magnitude)
  : big_uint_result :=
  and_then (ecma_bigint_create (byte_size left_value + byte_size right_value))
    (fun buffer =>
       BigUIntOk (canonicalize (store buffer (mul_digits left_value right_value)))).

(** Modelled from the spec: [ecma_big_uint_div_mod] is a long division from
    the most significant digit of the dividend down, giving the quotient
    or, with [is_mod], the remainder; it fails with an arithmetic error
    if the divisor is the zero magnitude. The running remainder is kept
    as an integer. *)
Fixpoint digits_of_Z (n : nat) (z : Z) : magnitude :=
  match n with
  | O => []
  | S n' => z mod digit_base :: digits_of_Z n' (z / digit_base)
  end.

Fixpoint div_digits (dividend : magnitude) (divisor : Z) : magnitude * Z :=
  match dividend with
  | [] => ([], 0)
  | d :: ds =>
      let '(quotient, remainder) := div_digits ds divisor in
      let current := remainder * digit_base + d in
      (current / divisor :: quotient, current mod divisor)
  end.

Definition ecma_big_uint_div_mod (dividend_value divisor_value : magnitude)
    (is_mod : bool) : big_uint_result :=
  if to_Z divisor_value =? 0 then BigUIntError BIG_UINT_ARITHMETIC_ERROR
  else
    let '(quotient, remainder) :=
      div_digits dividend_value (to_Z divisor_value) in
    if is_mod then
      and_then (ecma_bigint_create (byte_size divisor_value))
        (fun buffer =>
           BigUIntOk (canonicalize
             (store buffer (digits_of_Z (length divisor_value) remainder))))
    else
      and_then (ecma_bigint_create (byte_size dividend_value))
        (fun buffer => BigUIntOk (canonicalize (store buffer quotient))).

(** Modelled from the spec: [ecma_big_uint_shift_left] shifts by whole
    digits ([right_value >> ECMA_BIGINT_DIGIT_SHIFT] zero digits below) and
    by the remaining bits, the bits leaving a digit entering the next one;
    the result may be one digit wider. *)
Fixpoint shift_left_digits (value : magnitude) (shift carry : Z)
  : magnitude * Z :=
  match value with
  | [] => ([], carry)
  | d :: ds =>
      let two_digits := Z.shiftl d shift + carry in
      let '(rest, carry_out) :=
        shift_left_digits ds shift (Z.shiftr two_digits digit_bits) in
      (two_digits mod digit_base :: rest, carry_out)
  end.

Definition ecma_big_uint_shift_left (left_value : magnitude) (right_value : Z)
  : big_uint_result :=
  let zero_digits := Z.shiftr right_value ECMA_BIGINT_DIGIT_SHIFT in
  let shift := Z.land right_value (digit_bits - 1) in
  and_then
    (ecma_bigint_create
       (byte_size left_value + zero_digits * sizeof_ecma_bigint_digit_t))
    (fun buffer =>
       let '(shifted, carry) := shift_left_digits left_value shift 0 in
       with_carry buffer (replicate (Z.to_nat zero_digits) 0 ++ shifted) carry).

(** Modelled from the spec: [ecma_big_uint_shift_right] drops whole digits
    and shifts the rest by the remaining bits, each digit taking the low
    bits of the next one; the result is canonicalized, down to the zero
    magnitude. *)
Fixpoint shift_right_digits (value : magnitude) (shift : Z) : magnitude :=
  match value with
  | [] => []
  | d :: ds =>
      (Z.shiftr d shift + Z.shiftl (hd 0 ds) (digit_bits - shift)) mod digit_base
        :: shift_right_digits ds shift
  end.

Definition ecma_big_uint_shift_right (left_value : magnitude) (right_value : Z)
  : big_uint_result :=
  let zero_digits := Z.shiftr right_value ECMA_BIGINT_DIGIT_SHIFT in
  let shift := Z.land right_value (digit_bits - 1) in
  let kept := drop (Z.to_nat zero_digits) left_value in
  and_then (ecma_bigint_create (byte_size kept))
    (fun buffer =>
       BigUIntOk (canonicalize (store buffer (shift_right_digits kept shift)))).

(** *** What the size bound asks of the operations *)

(** The first integer too large for a magnitude of [ECMA_BIGINT_MAX_SIZE]
    bytes. *)
Definition max_magnitude : Z :=
  digit_base ^ (ECMA_BIGINT_MAX_SIZE / sizeof_ecma_bigint_digit_t).

(** A magnitude that an operation returns is within the size bound. *)
Definition within_max_size (result : big_uint_result) : Prop :=
  match result with
  | BigUIntOk digits => byte_size digits <= ECMA_BIGINT_MAX_SIZE
  | BigUIntError _ => True
  end.

(** The result of an operation that may grow a magnitude, when the integer
    it computes is [exact]: a magnitude it returns is within the size bound,
    has proper digits and stands for [exact], so nothing wrapped and
    nothing was cut off; it fails with the resource error only; and it does
    fail when [exact] is too large for [ECMA_BIGINT_MAX_SIZE] bytes. *)
Definition grows_to (result : big_uint_result) (exact : Z) : Prop :=
  match result with
  | BigUIntOk digits =>
      digits_ok digits
      /\ byte_size digits <= ECMA_BIGINT_MAX_SIZE
      /\ to_Z digits = exact
  | BigUIntError error => error = BIG_UINT_RESOURCE_ERROR
  end
  /\ (max_magnitude <= exact -> result = BigUIntError BIG_UINT_RESOURCE_ERROR).

End BigUInt.

(** ** Values, the runtime state and the call log *)

Module Vm.
Export Number.

(** Modelled from the spec: the types of values (ecma-globals.h is
    missing). A runtime value is a tagged union over Number, String,
    BigInt, Object, Boolean, Undefined, Null and the error signal. Objects,
    symbols and BigInt primitives live on the engine's heap; a value names
    them by reference. *)
Definition ecma_object_t : Type := N.
Definition ecma_extended_primitive_ptr : Type := N.

(** [ecma_value_t]: the tagged value of the engine. [ECMA_VALUE_EMPTY]
    and [ECMA_VALUE_ERROR] are the two simple values the handlers use as
    "no result yet" and as the error signal. *)
Inductive ecma_value_t : Type :=
| ECMA_VALUE_EMPTY
| ECMA_VALUE_ERROR
| ECMA_VALUE_UNDEFINED
| ECMA_VALUE_NULL
| ECMA_VALUE_FALSE
| ECMA_VALUE_TRUE
| ecma_make_number_value (num : ecma_number_t)
| ecma_make_string_value (string_p : string)
| ecma_make_symbol_value (symbol_p : N)
| ecma_make_bigint_value (value_p : ecma_extended_primitive_ptr)
| ecma_make_object_value (obj_p : ecma_object_t).

Definition ECMA_IS_VALUE_ERROR (value : ecma_value_t) : bool :=
  match value with ECMA_VALUE_ERROR => true | _ => false end.
Definition ecma_is_value_object (value : ecma_value_t) : bool :=
  match value with ecma_make_object_value _ => true | _ => false end.
Definition ecma_is_value_string (value : ecma_value_t) : bool :=
  match value with ecma_make_string_value _ => true | _ => false end.
Definition ecma_is_value_bigint (value : ecma_value_t) : bool :=
  match value with ecma_make_bigint_value _ => true | _ => false end.

(** [ecma_get_object_from_value] and
    [ecma_get_extended_primitive_from_value] give the reference a value
    holds. The engine asserts that the value has the right type; the
    handlers call them on such values only, and the reference 0 stands
    for the result on any other value. *)
Definition ecma_get_object_from_value (value : ecma_value_t) : ecma_object_t :=
  match value with ecma_make_object_value obj_p => obj_p | _ => 0%N end.
Definition ecma_get_extended_primitive_from_value (value : ecma_value_t)
  : ecma_extended_primitive_ptr :=
  match value with ecma_make_bigint_value value_p => value_p | _ => 0%N end.

(** The language's primitive values: everything a to-primitive coercion
    can produce. *)
Definition ecma_is_value_primitive (value : ecma_value_t) : bool :=
  match value with
  | ECMA_VALUE_EMPTY | ECMA_VALUE_ERROR | ecma_make_object_value _ => false
  | _ => true
  end.

(** Modelled from the spec: [number_arithmetic_op] (opcodes.h is missing),
    the five binary operations of [do_number_arithmetic]. *)
Inductive number_arithmetic_op : Type :=
| NUMBER_ARITHMETIC_SUBTRACTION
| NUMBER_ARITHMETIC_MULTIPLICATION
| NUMBER_ARITHMETIC_DIVISION
| NUMBER_ARITHMETIC_REMAINDER
| NUMBER_ARITHMETIC_EXPONENTIATION.

(** Modelled from the spec: the hint of the to-primitive coercion, none or
    Number for the handlers. *)
Inductive ecma_preferred_type_hint_t : Type :=
| ECMA_PREFERRED_TYPE_NO
| ECMA_PREFERRED_TYPE_NUMBER
| ECMA_PREFERRED_TYPE_STRING.

(** Modelled from the spec: the classes of the engine's errors
    (ecma-exceptions.h is missing); the common class is the plain Error of
    the language. *)
Inductive ecma_standard_error_t : Type :=
| ECMA_ERROR_COMMON
| ECMA_ERROR_EVAL
| ECMA_ERROR_RANGE
| ECMA_ERROR_REFERENCE
| ECMA_ERROR_SYNTAX
| ECMA_ERROR_TYPE
| ECMA_ERROR_URI.

(** The pending exception of the context: an error object of a standard
    class built by the engine, or any value thrown by script code. *)
Inductive ecma_exception_t : Type :=
| ecma_standard_error (error_type : ecma_standard_error_t) (msg : string)
| ecma_thrown_value (value : ecma_value_t).

(** Modelled from the spec: a BigInt primitive on the heap
    ([ecma_extended_primitive_t] of ecma-globals.h, missing) has a
    reference counter, a sign and the digits of its magnitude, whose
    number gives the byte size. *)
Record ecma_extended_primitive_t : Type := {
  refs : Z;
  bigint_sign : bool;
  bigint_digits : BigUInt.magnitude
}.

Definition ECMA_BIGINT_GET_SIZE (value : ecma_extended_primitive_t) : Z :=
  BigUInt.byte_size (bigint_digits value).

(** The part of the state the external collaborators see and change:
    their own world [W] (objects, script code), the heap of BigInt
    primitives and the pending exception. *)
Record runtime (W : Type) : Type := {
  rt_world : W;
  rt_heap : gmap N ecma_extended_primitive_t;
  rt_error : option ecma_exception_t
}.
Arguments rt_world {W} _.
Arguments rt_heap {W} _.
Arguments rt_error {W} _.

(** The call log: what the handlers asked of their collaborators, in
    order. Only the handlers write it. *)
Inductive event : Type :=
| EvDefaultValue (obj_p : ecma_object_t) (hint : ecma_preferred_type_hint_t)
                 (result : ecma_value_t)
| EvToNumber (value : ecma_value_t)
| EvToString (value : ecma_value_t) (result : option string)
| EvConcatStrings (string1 string2 : string)
| EvDerefString (string_p : string)
| EvFreeValue (value : ecma_value_t)
| EvRefExtendedPrimitive (value_p : ecma_extended_primitive_ptr)
| EvBigintAddSub (left_value right_value : ecma_value_t) (is_add : bool)
| EvBigintMul (left_value right_value : ecma_value_t)
| EvBigintDivMod (left_value right_value : ecma_value_t) (is_mod : bool)
| EvBigintNegate (value_p : ecma_extended_primitive_ptr).

Record vm_state (W : Type) : Type := {
  vm_rt : runtime W;
  vm_trace : list event
}.
Arguments vm_rt {W} _.
Arguments vm_trace {W} _.

(** *** A state monad with early return

    A C function body either falls through to its next statement with a
    value, or leaves the function with [return value]. *)
Inductive outcome (A : Type) : Type :=
| Next (a : A)
| Return (value : ecma_value_t).
Arguments Next {A} _.
Arguments Return {A} _.

Definition vm (W A : Type) : Type := vm_state W -> outcome A * vm_state W.

Definition ret {W A} (a : A) : vm W A := fun s => (Next a, s).

Definition bind {W A B} (m : vm W A) (k : A -> vm W B) : vm W B :=
  fun s =>
    match m s with
    | (Next a, s') => k a s'
    | (Return value, s') => (Return value, s')
    end.

(** [return value;] *)
Definition return_ {W A} (value : ecma_value_t) : vm W A :=
  fun s => (Return value, s).

(** A whole function body: its result is the value it returned or fell
    through with. *)
Definition function_body {W} (body : vm W ecma_value_t)
  : vm_state W -> ecma_value_t * vm_state W :=
  fun s =>
    match body s with
    | (Next value, s') | (Return value, s') => (value, s')
    end.

(** [if (flag) { statement; }] *)
Definition when {W} (flag : bool) (statement : vm W unit) : vm W unit :=
  if flag then statement else ret tt.

Definition log {W} (ev : event) : vm W unit :=
  fun s => (Next tt, {| vm_rt := vm_rt s; vm_trace := vm_trace s ++ [ev] |}).

(** A call of a collaborator that works on the runtime. *)
Definition lift {W A} (f : runtime W -> A * runtime W) : vm W A :=
  fun s =>
    let '(a, rt) := f (vm_rt s) in
    (Next a, {| vm_rt := rt; vm_trace := vm_trace s |}).

End Vm.

Declare Scope vm_scope.
Delimit Scope vm_scope with vm.
Notation "'let*' x ':=' m 'in' k" := (Vm.bind m (fun x => k))
  (at level 10, x pattern, m at level 100, k at level 200) : vm_scope.
Notation "m ;; k" := (Vm.bind m (fun _ => k))
  (at level 100, k at level 200, right associativity) : vm_scope.

(** ** The collaborators and the three handlers *)

Module Opcodes.
Export Vm.
Local Open Scope vm_scope.

(** The functions the handlers call that belong to other parts of the
    engine: the object model ([ecma_op_object_default_value], which runs
    script code), the textual conversions, the power function and the
    signed BigInt operations of ecma-bigint.c. They work on the runtime;
    none of them sees the call log. *)
Class Collaborators (W : Type) : Type := {
  object_default_value :
    ecma_object_t -> ecma_preferred_type_hint_t ->
    runtime W -> ecma_value_t * runtime W;
  ecma_utf8_string_to_number : string -> ecma_number_t;
  ecma_number_to_string : ecma_number_t -> string;
  ecma_number_pow : ecma_number_t -> ecma_number_t -> ecma_number_t;
  bigint_to_string :
    ecma_extended_primitive_ptr -> runtime W -> option string * runtime W;
  bigint_add_sub :
    ecma_value_t -> ecma_value_t -> bool -> runtime W -> ecma_value_t * runtime W;
  bigint_mul :
    ecma_value_t -> ecma_value_t -> runtime W -> ecma_value_t * runtime W;
  bigint_div_mod :
    ecma_value_t -> ecma_value_t -> bool -> runtime W -> ecma_value_t * runtime W
}.

Section Handlers.
Context {W : Type} `{!Collaborators W}.

(** The contract of [ecma_op_object_default_value]: it gives a primitive
    value or the error signal, never an Object. *)
Definition default_value_gives_primitive : Prop :=
  forall obj_p hint rt,
    ecma_is_value_object (object_default_value obj_p hint rt).1 = false.

Definition set_heap (heap : gmap N ecma_extended_primitive_t)
    (rt : runtime W) : runtime W :=
  {| rt_world := rt_world rt; rt_heap := heap; rt_error := rt_error rt |}.

Definition set_error (error : ecma_exception_t) (rt : runtime W) : runtime W :=
  {| rt_world := rt_world rt; rt_heap := rt_heap rt; rt_error := Some error |}.

(** *** Errors: ecma-exceptions.c

    Modelled from the spec: the error constructors build a propagable
    error of the given class with a message, leave it as the pending
    exception and give back the error signal. *)
Definition raise_standard_error_rt (error_type : ecma_standard_error_t)
    (msg : string) (rt : runtime W) : runtime W :=
  set_error (ecma_standard_error error_type msg) rt.

Definition ecma_raise_standard_error (error_type : ecma_standard_error_t)
    (msg : string) : vm W ecma_value_t :=
  lift (fun rt => (ECMA_VALUE_ERROR, raise_standard_error_rt error_type msg rt)).

Definition ecma_raise_common_error : string -> vm W ecma_value_t :=
  ecma_raise_standard_error ECMA_ERROR_COMMON.
Definition ecma_raise_type_error : string -> vm W ecma_value_t :=
  ecma_raise_standard_error ECMA_ERROR_TYPE.
Definition ecma_raise_range_error : string -> vm W ecma_value_t :=
  ecma_raise_standard_error ECMA_ERROR_RANGE.

(** *** References: ecma-helpers.c

    Modelled from the spec: the value model shares a magnitude by
    reference counting (ecma-helpers.c is missing). A BigInt value owns
    one reference of its primitive. Taking a reference increments the
    counter; [ecma_free_value] gives one back and frees the primitive with
    its last reference. Numbers and strings are held by value here:
    releasing them shows in the call log only. A BigInt value always names
    a primitive of the heap; reading any other reference gives the zero
    magnitude. *)
Definition heap_get (value_p : ecma_extended_primitive_ptr) (rt : runtime W)
  : ecma_extended_primitive_t :=
  default {| refs := 0; bigint_sign := false; bigint_digits := [] |}
          (rt_heap rt !! value_p).

Definition add_refs (delta : Z) (value : ecma_extended_primitive_t)
  : ecma_extended_primitive_t :=
  {| refs := refs value + delta;
     bigint_sign := bigint_sign value;
     bigint_digits := bigint_digits value |}.

Definition ref_extended_primitive_rt (value_p : ecma_extended_primitive_ptr)
    (rt : runtime W) : runtime W :=
  set_heap (alter (add_refs 1) value_p (rt_heap rt)) rt.

Definition ecma_ref_extended_primitive (value_p : ecma_extended_primitive_ptr)
  : vm W unit :=
  lift (fun rt => (tt, ref_extended_primitive_rt value_p rt)) ;;
  log (EvRefExtendedPrimitive value_p).

Definition ecma_deref_bigint (value_p : ecma_extended_primitive_ptr)
    (rt : runtime W) : runtime W :=
  match rt_heap rt !! value_p with
  | Some value =>
      if refs value <=? 1
      then set_heap (delete value_p (rt_heap rt)) rt
      else set_heap (<[value_p := add_refs (-1) value]> (rt_heap rt)) rt
  | None => rt
  end.

Definition free_value_rt (value : ecma_value_t) (rt : runtime W) : runtime W :=
  match value with
  | ecma_make_bigint_value value_p => ecma_deref_bigint value_p rt
  | _ => rt
  end.

Definition ecma_free_value (value : ecma_value_t) : vm W unit :=
  lift (fun rt => (tt, free_value_rt value rt)) ;;
  log (EvFreeValue value).

Definition ecma_deref_ecma_string (string_p : string) : vm W unit :=
  log (EvDerefString string_p).

(** Modelled from the spec: [ecma_concat_ecma_strings] (ecma-helpers-string.c
    is missing) gives the concatenation as a new String; it takes over the
    reference of its first argument. *)
Definition ecma_concat_ecma_strings (string1_p string2_p : string)
  : vm W string :=
  log (EvConcatStrings string1_p string2_p) ;;
  ret (string1_p +:+ string2_p).

(** *** Calls of the collaborators, each entered in the call log *)

Definition ecma_op_object_default_value (obj_p : ecma_object_t)
    (hint : ecma_preferred_type_hint_t) : vm W ecma_value_t :=
  let* value := lift (object_default_value obj_p hint) in
  log (EvDefaultValue obj_p hint value) ;;
  ret value.

Definition ecma_bigint_add_sub (left_value right_value : ecma_value_t)
    (is_add : bool) : vm W ecma_value_t :=
  log (EvBigintAddSub left_value right_value is_add) ;;
  lift (bigint_add_sub left_value right_value is_add).

Definition ecma_bigint_mul (left_value right_value : ecma_value_t)
  : vm W ecma_value_t :=
  log (EvBigintMul left_value right_value) ;;
  lift (bigint_mul left_value right_value).

Definition ecma_bigint_div_mod (left_value right_value : ecma_value_t)
    (is_mod : bool) : vm W ecma_value_t :=
  log (EvBigintDivMod left_value right_value is_mod) ;;
  lift (bigint_div_mod left_value right_value is_mod).

(** Modelled from the spec: [ecma_bigint_negate] (ecma-bigint.c is
    missing) returns a new magnitude with flipped sign and identical
    digits; it fails with a range error if the magnitude cannot be
    created. *)
Definition bigint_negate_rt (value_p : ecma_extended_primitive_ptr)
    (rt : runtime W) : ecma_value_t * runtime W :=
  let value := heap_get value_p rt in
  match BigUInt.ecma_bigint_create (ECMA_BIGINT_GET_SIZE value) with
  | BigUInt.BigUIntError _ =>
      (ECMA_VALUE_ERROR,
       raise_standard_error_rt ECMA_ERROR_RANGE
         "Cannot allocate memory for a BigInt value" rt)
  | BigUInt.BigUIntOk buffer =>
      let result_p := fresh (dom (rt_heap rt)) in
      let result :=
        {| refs := 1;
           bigint_sign := negb (bigint_sign value);
           bigint_digits := BigUInt.store buffer (bigint_digits value) |} in
      (ecma_make_bigint_value result_p,
       set_heap (<[result_p := result]> (rt_heap rt)) rt)
  end.

Definition ecma_bigint_negate (value_p : ecma_extended_primitive_ptr)
  : vm W ecma_value_t :=
  log (EvBigintNegate value_p) ;;
  lift (bigint_negate_rt value_p).

(** *** Conversions: ecma-conversion.c

    Modelled from the spec: the to-number coercion takes a primitive
    and gives a double or an error signal. A Number is its own value; a
    BigInt has no implicit conversion to a Number and a Symbol has
    none either: both are type errors. An Object never comes here: the
    handlers have replaced it by its default value. *)
Definition to_number_rt (value : ecma_value_t) (rt : runtime W)
  : option ecma_number_t * runtime W :=
  match value with
  | ecma_make_number_value num => (Some num, rt)
  | ECMA_VALUE_UNDEFINED => (Some ecma_number_make_nan, rt)
  | ECMA_VALUE_NULL => (Some ECMA_NUMBER_ZERO, rt)
  | ECMA_VALUE_FALSE => (Some ECMA_NUMBER_ZERO, rt)
  | ECMA_VALUE_TRUE => (Some (ecma_number_of_Z 1), rt)
  | ecma_make_string_value string_p =>
      (Some (ecma_utf8_string_to_number string_p), rt)
  | ecma_make_symbol_value _ =>
      (None, raise_standard_error_rt ECMA_ERROR_TYPE
               "Cannot convert a Symbol value to a number" rt)
  | ecma_make_bigint_value _ =>
      (None, raise_standard_error_rt ECMA_ERROR_TYPE
               "Cannot convert a BigInt value to a number" rt)
  | ecma_make_object_value _ | ECMA_VALUE_EMPTY | ECMA_VALUE_ERROR =>
      (None, raise_standard_error_rt ECMA_ERROR_TYPE
               "Cannot convert the value to a number" rt)
  end.

Definition ecma_op_to_number (value : ecma_value_t)
  : vm W (option ecma_number_t) :=
  log (EvToNumber value) ;;
  lift (to_number_rt value).

(** Modelled from the spec: the to-string coercion takes a primitive and
    gives a string or an error signal ([NULL]); it fails on a Symbol. *)
Definition to_string_rt (value : ecma_value_t) (rt : runtime W)
  : option string * runtime W :=
  match value with
  | ecma_make_string_value string_p => (Some string_p, rt)
  | ECMA_VALUE_UNDEFINED => (Some "undefined"%string, rt)
  | ECMA_VALUE_NULL => (Some "null"%string, rt)
  | ECMA_VALUE_FALSE => (Some "false"%string, rt)
  | ECMA_VALUE_TRUE => (Some "true"%string, rt)
  | ecma_make_number_value num => (Some (ecma_number_to_string num), rt)
  | ecma_make_bigint_value value_p => bigint_to_string value_p rt
  | ecma_make_symbol_value _ =>
      (None, raise_standard_error_rt ECMA_ERROR_TYPE
               "Cannot convert a Symbol value to a string" rt)
  | ecma_make_object_value _ | ECMA_VALUE_EMPTY | ECMA_VALUE_ERROR =>
      (None, raise_standard_error_rt ECMA_ERROR_TYPE
               "Cannot convert the value to a string" rt)
  end.

Definition ecma_op_to_string (value : ecma_value_t) : vm W (option string) :=
  let* result := lift (to_string_rt value) in
  log (EvToString value result) ;;
  ret result.

(** Modelled from the spec: the macros of ecma-try-catch-macro.h.
    [ECMA_OP_TO_NUMBER_TRY_CATCH (num_var, value, return_value)] converts
    [value]; the statements up to the matching
    [ECMA_OP_TO_NUMBER_FINALIZE] run with the number if the conversion
    succeeded, else [return_value] is the error signal. *)
Definition ECMA_OP_TO_NUMBER_TRY_CATCH (value : ecma_value_t)
    (block : ecma_number_t -> vm W ecma_value_t) : vm W ecma_value_t :=
  let* converted := ecma_op_to_number value in
  match converted with
  | Some num_var => block num_var
  | None => ret ECMA_VALUE_ERROR
  end.

(** The double arithmetic of an operation: the [switch (op)] of the Number
    path of [do_number_arithmetic]. *)
Definition number_arithmetic (op : number_arithmetic_op)
    (num_left num_right : ecma_number_t) : ecma_number_t :=
  match op with
  | NUMBER_ARITHMETIC_SUBTRACTION => number_sub num_left num_right
  | NUMBER_ARITHMETIC_MULTIPLICATION => number_mul num_left num_right
  | NUMBER_ARITHMETIC_DIVISION => number_div num_left num_right
  | NUMBER_ARITHMETIC_REMAINDER => ecma_op_number_remainder num_left num_right
  | NUMBER_ARITHMETIC_EXPONENTIATION => ecma_number_pow num_left num_right
  end.

(** *** [do_number_arithmetic] *)
Definition do_number_arithmetic (op : number_arithmetic_op)
    (left_value right_value : ecma_value_t)
  : vm_state W -> ecma_value_t * vm_state W :=
  function_body (
    let* (left_value, free_left_value) :=
      if ecma_is_value_object left_value then
        let obj_p := ecma_get_object_from_value left_value in
        let* left_value :=
          ecma_op_object_default_value obj_p ECMA_PREFERRED_TYPE_NUMBER in
        if ECMA_IS_VALUE_ERROR left_value then return_ left_value
        else ret (left_value, true)
      else ret (left_value, false) in
    let* (right_value, free_right_value) :=
      if ecma_is_value_object right_value then
        let obj_p := ecma_get_object_from_value right_value in
        let* right_value :=
          ecma_op_object_default_value obj_p ECMA_PREFERRED_TYPE_NUMBER in
        if ECMA_IS_VALUE_ERROR right_value then
          when free_left_value (ecma_free_value left_value) ;;
          return_ right_value
        else ret (right_value, true)
      else ret (right_value, false) in
    let* ret_value :=
      (if negb (ecma_is_value_bigint left_value)
          || negb (ecma_is_value_bigint right_value)
       then
         ECMA_OP_TO_NUMBER_TRY_CATCH left_value (fun num_left =>
         ECMA_OP_TO_NUMBER_TRY_CATCH right_value (fun num_right =>
           let result := number_arithmetic op num_left num_right in
           ret (ecma_make_number_value result)))
       else
         match op with
         | NUMBER_ARITHMETIC_SUBTRACTION =>
             ecma_bigint_add_sub left_value right_value false
         | NUMBER_ARITHMETIC_MULTIPLICATION =>
             ecma_bigint_mul left_value right_value
         | NUMBER_ARITHMETIC_DIVISION =>
             ecma_bigint_div_mod left_value right_value false
         | NUMBER_ARITHMETIC_REMAINDER =>
             ecma_bigint_div_mod left_value right_value true
         | _ => ecma_raise_common_error "Not supported BigInt operation"
         end) in
    when free_left_value (ecma_free_value left_value) ;;
    when free_right_value (ecma_free_value right_value) ;;
    ret ret_value).

(** *** [opfunc_addition]: the 'Addition' opcode handler *)
Definition opfunc_addition (left_value right_value : ecma_value_t)
  : vm_state W -> ecma_value_t * vm_state W :=
  function_body (
    let* (left_value, free_left_value) :=
      if ecma_is_value_object left_value then
        let obj_p := ecma_get_object_from_value left_value in
        let* left_value :=
          ecma_op_object_default_value obj_p ECMA_PREFERRED_TYPE_NO in
        if ECMA_IS_VALUE_ERROR left_value then return_ left_value
        else ret (left_value, true)
      else ret (left_value, false) in
    let* (right_value, free_right_value) :=
      if ecma_is_value_object right_value then
        let obj_p := ecma_get_object_from_value right_value in
        let* right_value :=
          ecma_op_object_default_value obj_p ECMA_PREFERRED_TYPE_NO in
        if ECMA_IS_VALUE_ERROR right_value then
          when free_left_value (ecma_free_value left_value) ;;
          return_ right_value
        else ret (right_value, true)
      else ret (right_value, false) in
    let* ret_value :=
      (if ecma_is_value_string left_value
          || ecma_is_value_string right_value
       then
         let* string1_p := ecma_op_to_string left_value in
         match string1_p with
         | None =>
             when free_left_value (ecma_free_value left_value) ;;
             when free_right_value (ecma_free_value right_value) ;;
             return_ ECMA_VALUE_ERROR
         | Some string1_p =>
             let* string2_p := ecma_op_to_string right_value in
             match string2_p with
             | None =>
                 when free_right_value (ecma_free_value right_value) ;;
                 when free_left_value (ecma_free_value left_value) ;;
                 ecma_deref_ecma_string string1_p ;;
                 return_ ECMA_VALUE_ERROR
             | Some string2_p =>
                 let* string1_p :=
                   ecma_concat_ecma_strings string1_p string2_p in
                 let ret_value := ecma_make_string_value string1_p in
                 ecma_deref_ecma_string string2_p ;;
                 ret ret_value
             end
         end
       else if ecma_is_value_bigint left_value
               && ecma_is_value_bigint right_value
       then ecma_bigint_add_sub left_value right_value true
       else
         ECMA_OP_TO_NUMBER_TRY_CATCH left_value (fun num_left =>
         ECMA_OP_TO_NUMBER_TRY_CATCH right_value (fun num_right =>
           ret (ecma_make_number_value (number_add num_left num_right))))) in
    when free_left_value (ecma_free_value left_value) ;;
    when free_right_value (ecma_free_value right_value) ;;
    ret ret_value).

(** *** [opfunc_unary_operation]: the unary operation opcode handler *)
Definition opfunc_unary_operation (left_value : ecma_value_t) (is_plus : bool)
  : vm_state W -> ecma_value_t * vm_state W :=
  function_body (
    let* (left_value, free_left_value) :=
      if ecma_is_value_object left_value then
        let obj_p := ecma_get_object_from_value left_value in
        let* left_value :=
          ecma_op_object_default_value obj_p ECMA_PREFERRED_TYPE_NUMBER in
        if ECMA_IS_VALUE_ERROR left_value then return_ left_value
        else ret (left_value, true)
      else ret (left_value, false) in
    let* ret_value :=
      (if negb (ecma_is_value_bigint left_value) then
         ECMA_OP_TO_NUMBER_TRY_CATCH left_value (fun num_var_value =>
           ret (ecma_make_number_value
                  (if is_plus then num_var_value
                   else number_neg num_var_value)))
       else
         if is_plus then
           ecma_raise_type_error
             "Unary operation plus is not allowed for BigInt numbers"
         else
           let left_p := ecma_get_extended_primitive_from_value left_value in
           let* size :=
             lift (fun rt => (ECMA_BIGINT_GET_SIZE (heap_get left_p rt), rt)) in
           if size =? 0 then
             ecma_ref_extended_primitive left_p ;;
             ret left_value
           else ecma_bigint_negate left_p) in
    when free_left_value (ecma_free_value left_value) ;;
    ret ret_value).

(** *** Reading a run of a handler

    The operand a handler works with after its to-primitive step, the
    runtime then, and what the step and the release of its result leave
    in the call log. *)
Definition coerced (hint : ecma_preferred_type_hint_t) (value : ecma_value_t)
    (rt : runtime W) : ecma_value_t * runtime W :=
  if ecma_is_value_object value
  then object_default_value (ecma_get_object_from_value value) hint rt
  else (value, rt).

Definition coercion_events (hint : ecma_preferred_type_hint_t)
    (value coerced_value : ecma_value_t) : list event :=
  if ecma_is_value_object value
  then [EvDefaultValue (ecma_get_object_from_value value) hint coerced_value]
  else [].

Definition release (value coerced_value : ecma_value_t) (rt : runtime W)
  : runtime W :=
  if ecma_is_value_object value then free_value_rt coerced_value rt else rt.

Definition release_events (value coerced_value : ecma_value_t) : list event :=
  if ecma_is_value_object value then [EvFreeValue coerced_value] else [].

(** The intermediates that to-primitive steps produced, and the values
    that were released, in the order of the call log. *)
Definition coerced_values (events : list event) : list ecma_value_t :=
  omap (fun ev =>
          match ev with
          | EvDefaultValue _ _ value =>
              if ECMA_IS_VALUE_ERROR value then None else Some value
          | _ => None
          end) events.

Definition freed_values (events : list event) : list ecma_value_t :=
  omap (fun ev =>
          match ev with
          | EvFreeValue value => Some value
          | _ => None
          end) events.

(** The conversions of a call log were all asked of values that are not
    Objects. *)
Definition conversions_of_primitives (events : list event) : Prop :=
  Forall (fun ev =>
            match ev with
            | EvToNumber value | EvToString value _ =>
                ecma_is_value_object value = false
            | _ => True
            end) events.

Definition state (rt : runtime W) (trace : list event) : vm_state W :=
  {| vm_rt := rt; vm_trace := trace |}.

(** How a handler ends that started with the call log [trace], coerced
    its operands to [left] and [right], went on with [events] to the
    result [result] and the runtime [rt], and released the coerced
    operands on its way out. *)
Definition finished (hint : ecma_preferred_type_hint_t)
    (left_value right_value left right : ecma_value_t)
    (trace events : list event) (result : ecma_value_t) (rt : runtime W)
  : ecma_value_t * vm_state W :=
  (result,
   state (release right_value right (release left_value left rt))
     (trace
      ++ coercion_events hint left_value left
      ++ coercion_events hint right_value right
      ++ events
      ++ release_events left_value left
      ++ release_events right_value right)).

(** A run released what its to-primitive steps produced: the values
    released since [before] are those intermediates, each one once. *)
Definition releases_what_it_coerced (before : vm_state W)
    (run : ecma_value_t * vm_state W) : Prop :=
  exists events,
    vm_trace run.2 = vm_trace before ++ events
    /\ freed_values events ≡ₚ coerced_values events.

(** The pending exception a run ends with. *)
Definition pending_error (run : ecma_value_t * vm_state W)
  : option ecma_exception_t :=
  rt_error (vm_rt run.2).

(** The calls of the signed BigInt operations in a call log, each with its
    two operands, and the hints of the to-primitive steps. *)
Definition engine_operands (ev : event) : option (ecma_value_t * ecma_value_t) :=
  match ev with
  | EvBigintAddSub left_value right_value _
  | EvBigintMul left_value right_value
  | EvBigintDivMod left_value right_value _ => Some (left_value, right_value)
  | _ => None
  end.

Definition engine_calls (events : list event)
  : list (ecma_value_t * ecma_value_t) :=
  omap engine_operands events.

Definition coercion_hints (events : list event)
  : list ecma_preferred_type_hint_t :=
  omap (fun ev =>
          match ev with
          | EvDefaultValue _ hint _ => Some hint
          | _ => None
          end) events.

(** The values that were converted to Number, in the order of the call
    log. *)
Definition converted_to_number (events : list event) : list ecma_value_t :=
  omap (fun ev =>
          match ev with
          | EvToNumber value => Some value
          | _ => None
          end) events.

(** What a call log says about the engine: at most one call, on two BigInt
    values, and never beside a conversion to Number. *)
Definition engine_called_properly (events : list event) : Prop :=
  (length (engine_calls events) <= 1)%nat
  /\ Forall (fun operands =>
               ecma_is_value_bigint operands.1 = true
               /\ ecma_is_value_bigint operands.2 = true)
            (engine_calls events)
  /\ (engine_calls events = [] \/ converted_to_number events = []).

End Handlers.

End Opcodes.

(** ** A small runtime to run the handlers on

    An instance of the collaborators, used to evaluate the handlers on
    concrete operands. Its objects have a fixed default value or throw; its
    signed BigInt operations follow the sign rules of the dispatcher's
    contract over the BigUInt engine; its textual conversions cover decimal
    integers only. *)

Module SampleRuntime.
Import Opcodes.

(** What asking an object for its default value does. *)
Inductive object_behaviour : Type :=
| GivesPrimitive (value : ecma_value_t)
| Throws (value : ecma_value_t).

(** The world: the objects and how many times script code has run. *)
Record world : Type := {
  objects : gmap N object_behaviour;
  script_calls : nat
}.

Definition script_called (rt : runtime world) : runtime world :=
  {| rt_world := {| objects := objects (rt_world rt);
                    script_calls := S (script_calls (rt_world rt)) |};
     rt_heap := rt_heap rt;
     rt_error := rt_error rt |}.

Definition sample_default_value (obj_p : ecma_object_t)
    (hint : ecma_preferred_type_hint_t) (rt : runtime world)
  : ecma_value_t * runtime world :=
  let rt := script_called rt in
  match objects (rt_world rt) !! obj_p with
  | Some (GivesPrimitive value) =>
      if ecma_is_value_primitive value then
        (value,
         match value with
         | ecma_make_bigint_value value_p =>
             set_heap (alter (add_refs 1) value_p (rt_heap rt)) rt
         | _ => rt
         end)
      else
        (ECMA_VALUE_ERROR,
         set_error (ecma_standard_error ECMA_ERROR_TYPE
                      "Cannot convert object to primitive value") rt)
  | Some (Throws value) =>
      (ECMA_VALUE_ERROR, set_error (ecma_thrown_value value) rt)
  | None =>
      (ECMA_VALUE_ERROR,
       set_error (ecma_standard_error ECMA_ERROR_TYPE
                    "Cannot convert object to primitive value") rt)
  end.

(** Decimal digits to a number; any other text is NaN. *)
Definition digit_of_ascii (c : Ascii.ascii) : option Z :=
  let n := Z.of_nat (Ascii.nat_of_ascii c) in
  if (48 <=? n) && (n <=? 57) then Some (n - 48) else None.

Fixpoint decimal_value (acc : Z) (text : string) : option Z :=
  match text with
  | EmptyString => Some acc
  | String c rest =>
      match digit_of_ascii c with
      | Some d => decimal_value (10 * acc + d) rest
      | None => None
      end
  end.

Definition sample_string_to_number (text : string) : ecma_number_t :=
  match decimal_value 0 text with
  | Some z => ecma_number_of_Z z
  | None => ecma_number_make_nan
  end.

(** Numbers print as their integral part, in decimal. *)
Definition sample_number_to_string (num : ecma_number_t) : string :=
  match num with
  | S754_nan => "NaN"
  | S754_infinity false => "Infinity"
  | S754_infinity true => "-Infinity"
  | S754_zero _ => "0"
  | S754_finite sign m e =>
      pretty (cond_Zopp sign (Z.shiftl (Z.pos m) e))
  end.

(** Powers with a natural exponent, by repeated multiplication. *)
Fixpoint power (base : ecma_number_t) (n : nat) : ecma_number_t :=
  match n with
  | O => ecma_number_of_Z 1
  | S n' => number_mul base (power base n')
  end.

Definition sample_number_pow (base exponent : ecma_number_t) : ecma_number_t :=
  match exponent with
  | S754_zero _ => ecma_number_of_Z 1
  | S754_finite false m e =>
      if 0 <=? e then power base (Z.to_nat (Z.shiftl (Z.pos m) e))
      else if Z.pos m mod 2 ^ (- e) =? 0
           then power base (Z.to_nat (Z.shiftl (Z.pos m) e))
           else ecma_number_make_nan
  | _ => ecma_number_make_nan
  end.

Definition sample_bigint_to_string (value_p : ecma_extended_primitive_ptr)
    (rt : runtime world) : option string * runtime world :=
  let value := heap_get value_p rt in
  (Some (pretty (cond_Zopp (bigint_sign value)
                   (BigUInt.to_Z (bigint_digits value)))), rt).

(** A new BigInt primitive for the result of the engine, or the error the
    engine failed with. The zero magnitude has no sign. *)
Definition make_bigint (sign : bool) (result : BigUInt.big_uint_result)
    (rt : runtime world) : ecma_value_t * runtime world :=
  match result with
  | BigUInt.BigUIntOk digits =>
      let result_p := fresh (dom (rt_heap rt)) in
      (ecma_make_bigint_value result_p,
       set_heap
         (<[result_p := {| refs := 1;
                           bigint_sign :=
                             match digits with [] => false | _ => sign end;
                           bigint_digits := digits |}]> (rt_heap rt)) rt)
  | BigUInt.BigUIntError BigUInt.BIG_UINT_RESOURCE_ERROR =>
      (ECMA_VALUE_ERROR,
       set_error (ecma_standard_error ECMA_ERROR_RANGE
                    "Cannot allocate memory for a BigInt value") rt)
  | BigUInt.BigUIntError BigUInt.BIG_UINT_ARITHMETIC_ERROR =>
      (ECMA_VALUE_ERROR,
       set_error (ecma_standard_error ECMA_ERROR_RANGE
                    "BigInt division by zero") rt)
  end.

Definition not_bigint (rt : runtime world) : ecma_value_t * runtime world :=
  (ECMA_VALUE_ERROR,
   set_error (ecma_standard_error ECMA_ERROR_TYPE "BigInt value expected") rt).

(** Signed addition and subtraction: equal signs add the magnitudes;
    different signs subtract the smaller magnitude from the larger, whose
    sign the result takes. *)
Definition sample_bigint_add_sub (left_value right_value : ecma_value_t)
    (is_add : bool) (rt : runtime world) : ecma_value_t * runtime world :=
  match left_value, right_value with
  | ecma_make_bigint_value left_p, ecma_make_bigint_value right_p =>
      let a := heap_get left_p rt in
      let b := heap_get right_p rt in
      let sign_b := if is_add then bigint_sign b else negb (bigint_sign b) in
      if eqb (bigint_sign a) sign_b then
        make_bigint (bigint_sign a)
          (BigUInt.ecma_big_uint_add (bigint_digits a) (bigint_digits b)) rt
      else if 0 <=? BigUInt.ecma_big_uint_compare (bigint_digits a) (bigint_digits b)
      then make_bigint (bigint_sign a)
             (BigUInt.ecma_big_uint_sub (bigint_digits a) (bigint_digits b)) rt
      else make_bigint sign_b
             (BigUInt.ecma_big_uint_sub (bigint_digits b) (bigint_digits a)) rt
  | _, _ => not_bigint rt
  end.

(** The sign of a product or of a quotient is the XOR of the operands'
    signs; the sign of a remainder is the sign of the dividend. *)
Definition sample_bigint_mul (left_value right_value : ecma_value_t)
    (rt : runtime world) : ecma_value_t * runtime world :=
  match left_value, right_value with
  | ecma_make_bigint_value left_p, ecma_make_bigint_value right_p =>
      let a := heap_get left_p rt in
      let b := heap_get right_p rt in
      make_bigint (xorb (bigint_sign a) (bigint_sign b))
        (BigUInt.ecma_big_uint_mul (bigint_digits a) (bigint_digits b)) rt
  | _, _ => not_bigint rt
  end.

Definition sample_bigint_div_mod (left_value right_value : ecma_value_t)
    (is_mod : bool) (rt : runtime world) : ecma_value_t * runtime world :=
  match left_value, right_value with
  | ecma_make_bigint_value left_p, ecma_make_bigint_value right_p =>
      let a := heap_get left_p rt in
      let b := heap_get right_p rt in
      make_bigint
        (if is_mod then bigint_sign a else xorb (bigint_sign a) (bigint_sign b))
        (BigUInt.ecma_big_uint_div_mod (bigint_digits a) (bigint_digits b) is_mod)
        rt
  | _, _ => not_bigint rt
  end.

#[export] Instance sample_collaborators : Collaborators world := {|
  object_default_value := sample_default_value;
  ecma_utf8_string_to_number := sample_string_to_number;
  ecma_number_to_string := sample_number_to_string;
  ecma_number_pow := sample_number_pow;
  bigint_to_string := sample_bigint_to_string;
  bigint_add_sub := sample_bigint_add_sub;
  bigint_mul := sample_bigint_mul;
  bigint_div_mod := sample_bigint_div_mod
|}.

(** A state with four objects and three BigInt primitives: object 0
    gives the number 7, object 1 throws, object 2 gives the BigInt 0n
    and object 3 gives a symbol; primitive 0 is 0n, primitive 1 is 5n and
    primitive 2 is -7n. *)
Definition sample_objects : gmap N object_behaviour :=
  <[0%N := GivesPrimitive (ecma_make_number_value (ecma_number_of_Z 7))]>
  (<[1%N := Throws (ecma_make_string_value "thrown")]>
  (<[2%N := GivesPrimitive (ecma_make_bigint_value 0%N)]>
  (<[3%N := GivesPrimitive (ecma_make_symbol_value 0%N)]> ∅))).

Definition sample_heap : gmap N ecma_extended_primitive_t :=
  <[0%N := {| refs := 1; bigint_sign := false; bigint_digits := [] |}]>
  (<[1%N := {| refs := 1; bigint_sign := false; bigint_digits := [5] |}]>
  (<[2%N := {| refs := 1; bigint_sign := true; bigint_digits := [7] |}]> ∅)).

Definition sample_state : vm_state world :=
  {| vm_rt := {| rt_world := {| objects := sample_objects; script_calls := 0 |};
                 rt_heap := sample_heap;
                 rt_error := None |};
     vm_trace := [] |}.

End SampleRuntime.

(* ===================================================================== *)
(** * Part II: lemmas and theorems                                        *)
(* ===================================================================== *)

Module BigUIntFacts.
Import BigUInt.

Lemma size_is_odd_testbit (size : Z) :
  ECMA_BIGINT_SIZE_IS_ODD size = Z.testbit size 2.
Proof.
  unfold ECMA_BIGINT_SIZE_IS_ODD, sizeof_ecma_bigint_digit_t.
  change 4 with (2 ^ 2).
  destruct (Z.testbit size 2) eqn:Hb.
  - apply negb_true_iff, Z.eqb_neq. intros H0.
    assert (Ht : Z.testbit (Z.land size (2 ^ 2)) 2 = true).
    { rewrite Z.land_spec, Hb, Z.pow2_bits_true by lia. reflexivity. }
    rewrite H0 in Ht. rewrite Z.bits_0 in Ht. discriminate.
  - apply negb_false_iff, Z.eqb_eq. apply Z.bits_inj'. intros n Hn.
    rewrite Z.land_spec, Z.bits_0.
    destruct (Z.eq_dec n 2) as [-> | Hne].
    + rewrite Hb. reflexivity.
    + rewrite Z.pow2_bits_false by lia. apply andb_false_r.
Qed.

Lemma digit_base_eq : digit_base = 4294967296.
Proof. reflexivity. Qed.

Lemma byte_size_length (digits : magnitude) :
  byte_size digits / sizeof_ecma_bigint_digit_t = Z.of_nat (length digits).
Proof.
  unfold byte_size, sizeof_ecma_bigint_digit_t.
  rewrite Z.mul_comm. apply Z.div_mul. lia.
Qed.



Lemma length_store (buffer digits : magnitude) :
  length (store buffer digits) = length buffer.
Proof.
  revert digits. induction buffer as [| b buffer IH]; intros digits.
  - reflexivity.
  - destruct digits; simpl; rewrite IH; reflexivity.
Qed.

(** Digits stored in a buffer of their own length are all there. *)
Lemma store_same_length (buffer digits : magnitude) :
  length buffer = length digits -> store buffer digits = digits.
Proof.
  revert digits. induction buffer as [| b buffer IH]; intros digits Hlen.
  - destruct digits; [reflexivity | discriminate].
  - destruct digits as [| d digits]; [discriminate |].
    simpl. f_equal. apply IH. simpl in Hlen. lia.
Qed.

(** *** Magnitudes as integers *)

Lemma digit_base_pos : 0 < digit_base.
Proof. reflexivity. Qed.

Lemma to_Z_app (low high : magnitude) :
  to_Z (low ++ high)
  = to_Z low + digit_base ^ Z.of_nat (length low) * to_Z high.
Proof.
  induction low as [| d low IH].
  - cbn [app to_Z length]. change (Z.of_nat 0) with 0. rewrite Z.pow_0_r. lia.
  - cbn [app to_Z length]. rewrite IH, Nat2Z.inj_succ, Z.pow_succ_r by lia. lia.
Qed.

Lemma to_Z_replicate_zero (n : nat) : to_Z (replicate n 0) = 0.
Proof. induction n as [| n IH]; cbn [replicate to_Z]; [| rewrite IH]; lia. Qed.

Lemma to_Z_hd_tl (digits : magnitude) :
  to_Z digits = hd 0 digits + digit_base * to_Z (tl digits).
Proof. destruct digits; cbn [to_Z hd tl]; lia. Qed.

Lemma digits_ok_hd (digits : magnitude) :
  digits_ok digits -> 0 <= hd 0 digits < digit_base.
Proof.
  intros Hok. destruct digits as [| d ds]; cbn [hd].
  - pose proof digit_base_pos. lia.
  - apply Forall_inv in Hok. exact Hok.
Qed.

Lemma digits_ok_tl (digits : magnitude) : digits_ok digits -> digits_ok (tl digits).
Proof.
  intros Hok. destruct digits as [| d ds]; cbn [tl]; [exact Hok |].
  apply Forall_inv_tail in Hok. exact Hok.
Qed.

Lemma digits_ok_replicate_zero (n : nat) : digits_ok (replicate n 0).
Proof.
  apply Forall_replicate. pose proof digit_base_pos. lia.
Qed.

(** A magnitude with proper digits is below the power of the base that its
    length gives. *)
Lemma to_Z_bounds (digits : magnitude) :
  digits_ok digits ->
  0 <= to_Z digits < digit_base ^ Z.of_nat (length digits).
Proof.
  pose proof digit_base_pos as Hbase.
  induction digits as [| d ds IH]; intros Hok.
  - cbn [to_Z length]. change (Z.of_nat 0) with 0. rewrite Z.pow_0_r. lia.
  - pose proof (Forall_inv Hok) as Hd. cbn beta in Hd.
    specialize (IH (Forall_inv_tail Hok)).
    cbn [to_Z length]. rewrite Nat2Z.inj_succ, Z.pow_succ_r by lia. nia.
Qed.

(** A magnitude within the size bound is below [max_magnitude]. *)
Lemma to_Z_below_max (digits : magnitude) :
  digits_ok digits ->
  byte_size digits <= ECMA_BIGINT_MAX_SIZE ->
  to_Z digits < max_magnitude.
Proof.
  intros Hok Hsize. pose proof (to_Z_bounds digits Hok) as Hbound.
  pose proof digit_base_pos as Hbase.
  unfold max_magnitude.
  eapply Z.lt_le_trans; [apply Hbound |].
  apply Z.pow_le_mono_r; [lia |].
  apply Z.div_le_lower_bound; [reflexivity |].
  unfold byte_size in Hsize. exact Hsize.
Qed.

(** *** Allocation *)

Lemma create_inv (size : Z) (buffer : magnitude) :
  ecma_bigint_create size = BigUIntOk buffer ->
  size <= ECMA_BIGINT_MAX_SIZE
  /\ buffer = replicate (Z.to_nat (size / sizeof_ecma_bigint_digit_t)) 0.
Proof.
  unfold ecma_bigint_create.
  destruct (ECMA_BIGINT_MAX_SIZE <? size) eqn:Hlt; [discriminate |].
  apply Z.ltb_ge in Hlt. intros [= <-]. split; [exact Hlt | reflexivity].
Qed.

Lemma create_error (size : Z) (error : big_uint_error) :
  ecma_bigint_create size = BigUIntError error ->
  error = BIG_UINT_RESOURCE_ERROR.
Proof.
  unfold ecma_bigint_create.
  destruct (ECMA_BIGINT_MAX_SIZE <? size); [| discriminate].
  intros [= <-]. reflexivity.
Qed.

Lemma create_within_max_size (size : Z) (buffer : magnitude) :
  ecma_bigint_create size = BigUIntOk buffer ->
  byte_size buffer <= ECMA_BIGINT_MAX_SIZE.
Proof.
  intros Hcreate. apply create_inv in Hcreate as [Hsize ->].
  unfold byte_size. rewrite length_replicate.
  unfold sizeof_ecma_bigint_digit_t, ECMA_BIGINT_MAX_SIZE in *.
  pose proof (Z.mul_div_le size 4). lia.
Qed.

(** The buffer created for the size of a magnitude has its length. *)
Lemma create_for_length (n : nat) (buffer : magnitude) :
  ecma_bigint_create (sizeof_ecma_bigint_digit_t * Z.of_nat n) = BigUIntOk buffer ->
  buffer = replicate n 0.
Proof.
  intros Hcreate. apply create_inv in Hcreate as [_ ->].
  rewrite Z.mul_comm, Z.div_mul by (unfold sizeof_ecma_bigint_digit_t; lia).
  rewrite Nat2Z.id. reflexivity.
Qed.

(** *** Canonical form *)

Lemma length_canonicalize (digits : magnitude) :
  (length (canonicalize digits) <= length digits)%nat.
Proof.
  induction digits as [| d ds IH]; cbn [canonicalize length]; [lia |].
  destruct (canonicalize ds) as [| d' ds'].
  - destruct (d =? 0); cbn [length]; lia.
  - cbn [length] in *. lia.
Qed.

Lemma to_Z_canonicalize (digits : magnitude) :
  to_Z (canonicalize digits) = to_Z digits.
Proof.
  induction digits as [| d ds IH]; cbn [canonicalize to_Z]; [reflexivity |].
  destruct (canonicalize ds) as [| d' ds'].
  - cbn [to_Z] in IH. rewrite <- IH.
    destruct (d =? 0) eqn:Hd; cbn [to_Z]; [apply Z.eqb_eq in Hd |]; lia.
  - cbn [to_Z] in *. lia.
Qed.

Lemma digits_ok_canonicalize (digits : magnitude) :
  digits_ok digits -> digits_ok (canonicalize digits).
Proof.
  unfold digits_ok.
  induction digits as [| d ds IH]; cbn [canonicalize]; intros Hok; [exact Hok |].
  pose proof (Forall_inv Hok) as Hd. specialize (IH (Forall_inv_tail Hok)).
  destruct (canonicalize ds) as [| d' ds'].
  - destruct (d =? 0); [constructor | constructor; [exact Hd | constructor]].
  - constructor; assumption.
Qed.

Lemma byte_size_canonicalize_store (buffer digits : magnitude) :
  byte_size buffer <= ECMA_BIGINT_MAX_SIZE ->
  byte_size (canonicalize (store buffer digits)) <= ECMA_BIGINT_MAX_SIZE.
Proof.
  intros Hsize. unfold byte_size in *.
  pose proof (length_canonicalize (store buffer digits)) as Hlen.
  rewrite length_store in Hlen. unfold sizeof_ecma_bigint_digit_t in *. lia.
Qed.

(** *** Results *)

Lemma grows_to_intro (result : big_uint_result) (exact : Z) :
  match result with
  | BigUIntOk digits =>
      digits_ok digits
      /\ byte_size digits <= ECMA_BIGINT_MAX_SIZE
      /\ to_Z digits = exact
  | BigUIntError error => error = BIG_UINT_RESOURCE_ERROR
  end ->
  grows_to result exact.
Proof.
  intros Hresult. split; [exact Hresult |].
  intros Hlarge. destruct result as [digits | error].
  - destruct Hresult as (Hok & Hsize & Hexact).
    pose proof (to_Z_below_max digits Hok Hsize). lia.
  - rewrite Hresult. reflexivity.
Qed.

Lemma within_max_size_and_then (size : Z) (k : magnitude -> big_uint_result) :
  (forall buffer,
      byte_size buffer <= ECMA_BIGINT_MAX_SIZE -> within_max_size (k buffer)) ->
  within_max_size (and_then (ecma_bigint_create size) k).
Proof.
  intros Hk. destruct (ecma_bigint_create size) as [buffer | error] eqn:Hcreate;
    cbn [and_then]; [| exact I].
  apply Hk. eapply create_within_max_size. exact Hcreate.
Qed.

(** *** [ecma_big_uint_extend] *)

Lemma extend_inv (value : magnitude) (digit : Z) (result : magnitude) :
  ecma_big_uint_extend value digit = BigUIntOk result ->
  result = value ++ [digit] /\ byte_size result <= ECMA_BIGINT_MAX_SIZE.
Proof.
  unfold ecma_big_uint_extend.
  destruct (ecma_bigint_create _) as [buffer | error] eqn:Hcreate;
    cbn [and_then]; [| discriminate].
  intros [= <-].
  pose proof (create_within_max_size _ _ Hcreate) as Hsize.
  assert (Hbuffer : buffer = replicate (S (length value)) 0).
  { apply create_for_length. rewrite <- Hcreate. f_equal.
    unfold byte_size. lia. }
  assert (Hstore : store buffer (value ++ [digit]) = value ++ [digit]).
  { apply store_same_length. rewrite Hbuffer, length_replicate, length_app.
    cbn [length]. lia. }
  rewrite Hstore. split; [reflexivity |].
  rewrite <- Hstore. unfold byte_size in *. rewrite length_store. exact Hsize.
Qed.

Lemma extend_error (value : magnitude) (digit : Z) (error : big_uint_error) :
  ecma_big_uint_extend value digit = BigUIntError error ->
  error = BIG_UINT_RESOURCE_ERROR.
Proof.
  unfold ecma_big_uint_extend.
  destruct (ecma_bigint_create _) as [buffer | error'] eqn:Hcreate;
    cbn [and_then]; [discriminate |].
  intros [= <-]. eapply create_error. exact Hcreate.
Qed.

Lemma digits_ok_app (low high : magnitude) :
  digits_ok low -> digits_ok high -> digits_ok (low ++ high).
Proof. unfold digits_ok. intros. apply Forall_app. split; assumption. Qed.

Lemma extend_grows (value : magnitude) (digit : Z) :
  digits_ok value -> 0 <= digit < digit_base ->
  grows_to (ecma_big_uint_extend value digit)
    (to_Z value + digit_base ^ Z.of_nat (length value) * digit).
Proof.
  intros Hok Hdigit. apply grows_to_intro.
  destruct (ecma_big_uint_extend value digit) as [result | error] eqn:Hextend.
  - apply extend_inv in Hextend as [-> Hsize].
    split; [| split; [exact Hsize |]].
    + apply digits_ok_app; [exact Hok |]. constructor; [exact Hdigit | constructor].
    + rewrite to_Z_app. cbn [to_Z]. lia.
  - eapply extend_error. exact Hextend.
Qed.

(** *** Results with a carry *)

Lemma with_carry_within_max_size (buffer digits : magnitude) (carry : Z) :
  byte_size buffer <= ECMA_BIGINT_MAX_SIZE ->
  within_max_size (with_carry buffer digits carry).
Proof.
  intros Hsize. unfold with_carry. destruct (carry =? 0).
  - cbn [within_max_size]. unfold byte_size in *. rewrite length_store. exact Hsize.
  - destruct (ecma_big_uint_extend _ carry) as [result | error] eqn:Hextend;
      [| exact I].
    apply extend_inv in Hextend as [_ Hresult]. exact Hresult.
Qed.

Lemma with_carry_grows (buffer digits : magnitude) (carry : Z) :
  buffer = replicate (length digits) 0 ->
  byte_size buffer <= ECMA_BIGINT_MAX_SIZE ->
  digits_ok digits -> 0 <= carry < digit_base ->
  grows_to (with_carry buffer digits carry)
    (to_Z digits + digit_base ^ Z.of_nat (length digits) * carry).
Proof.
  intros Hbuffer Hsize Hok Hcarry. unfold with_carry.
  assert (Hstore : store buffer digits = digits).
  { apply store_same_length. rewrite Hbuffer. apply length_replicate. }
  rewrite Hstore.
  destruct (carry =? 0) eqn:Hzero.
  - apply Z.eqb_eq in Hzero. subst carry. apply grows_to_intro.
    split; [exact Hok | split; [| lia]].
    rewrite <- Hstore. unfold byte_size in *. rewrite length_store. exact Hsize.
  - apply extend_grows; assumption.
Qed.

(** *** Carry chains *)

(** Splitting a two-digit value into its low digit and its carry. *)
Lemma two_digits_split (two_digits : Z) :
  two_digits mod digit_base + digit_base * (two_digits / digit_base) = two_digits.
Proof.
  pose proof digit_base_pos.
  rewrite (Z.div_mod two_digits digit_base) at 3 by lia. lia.
Qed.

Lemma low_digit_ok (two_digits : Z) : 0 <= two_digits mod digit_base < digit_base.
Proof. apply Z.mod_pos_bound. exact digit_base_pos. Qed.

Lemma add_digits_spec (long short : magnitude) (carry : Z) :
  let '(sum, carry_out) := add_digits long short carry in
  length sum = length long
  /\ digits_ok sum
  /\ to_Z sum + digit_base ^ Z.of_nat (length long) * carry_out
     = to_Z long + to_Z (take (length long) short) + carry.
Proof.
  revert short carry. induction long as [| x long IH]; intros short carry.
  - cbn [add_digits length]. rewrite take_0. cbn [to_Z].
    change (Z.of_nat 0) with 0. rewrite Z.pow_0_r.
    split; [reflexivity | split; [apply Forall_nil_2 | lia]].
  - cbn [add_digits].
    specialize (IH (tl short) ((x + hd 0 short + carry) / digit_base)).
    destruct (add_digits long (tl short) _) as [rest carry_out].
    destruct IH as (Hlen & Hok & Hval).
    cbn [length to_Z]. split; [congruence | split].
    + constructor; [apply low_digit_ok | exact Hok].
    + rewrite Nat2Z.inj_succ, Z.pow_succ_r by lia.
      pose proof (two_digits_split (x + hd 0 short + carry)) as Hsplit.
      assert (Htake : to_Z (take (S (length long)) short)
                      = hd 0 short + digit_base * to_Z (take (length long) (tl short))).
      { destruct short; cbn [take hd tl to_Z]; [rewrite take_nil; cbn [to_Z] |]; lia. }
      rewrite Htake. nia.
Qed.

Lemma add_digits_carry (long short : magnitude) (carry : Z) :
  digits_ok long -> digits_ok short -> 0 <= carry <= 1 ->
  0 <= (add_digits long short carry).2 <= 1.
Proof.
  pose proof digit_base_eq as Hbase.
  revert short carry. induction long as [| x long IH]; intros short carry Hl Hs Hc.
  - cbn [add_digits snd]. exact Hc.
  - cbn [add_digits].
    pose proof (Forall_inv Hl) as Hx. cbn beta in Hx.
    pose proof (digits_ok_hd short Hs) as Hy.
    specialize (IH (tl short) ((x + hd 0 short + carry) / digit_base)
                  (Forall_inv_tail Hl) (digits_ok_tl short Hs)).
    destruct (add_digits long (tl short) _) as [rest carry_out]. cbn [snd] in *.
    apply IH. split.
    + apply Z.div_pos; lia.
    + apply Z.lt_succ_r. apply Z.div_lt_upper_bound; lia.
Qed.

(** *** [ecma_big_uint_add] *)

Lemma add_within_max_size (left_value right_value : magnitude) :
  within_max_size (ecma_big_uint_add left_value right_value).
Proof.
  unfold ecma_big_uint_add.
  destruct (length left_value <? length right_value)%nat.
  all: apply within_max_size_and_then; intros buffer Hsize.
  all: destruct (add_digits _ _ 0) as [sum carry].
  all: apply with_carry_within_max_size; exact Hsize.
Qed.

Lemma add_grows_ordered (long short : magnitude) :
  (length short <= length long)%nat ->
  digits_ok long -> digits_ok short ->
  grows_to
    (and_then (ecma_bigint_create (byte_size long))
       (fun buffer =>
          let '(sum, carry) := add_digits long short 0 in
          with_carry buffer sum carry))
    (to_Z long + to_Z short).
Proof.
  intros Hlen Hl Hs.
  destruct (ecma_bigint_create (byte_size long)) as [buffer | error] eqn:Hcreate;
    cbn [and_then].
  - pose proof (add_digits_spec long short 0) as Hspec.
    pose proof (add_digits_carry long short 0 Hl Hs ltac:(lia)) as Hcarry.
    destruct (add_digits long short 0) as [sum carry]. cbn [snd] in Hcarry.
    destruct Hspec as (Hsum & Hok & Hval).
    rewrite take_ge in Hval by exact Hlen.
    replace (to_Z long + to_Z short)
      with (to_Z sum + digit_base ^ Z.of_nat (length sum) * carry)
      by (rewrite Hsum; lia).
    apply with_carry_grows.
    + rewrite Hsum. apply create_for_length. exact Hcreate.
    + eapply create_within_max_size. exact Hcreate.
    + exact Hok.
    + pose proof digit_base_eq. lia.
  - apply grows_to_intro. eapply create_error. exact Hcreate.
Qed.

Lemma add_grows (left_value right_value : magnitude) :
  digits_ok left_value -> digits_ok right_value ->
  grows_to (ecma_big_uint_add left_value right_value)
    (to_Z left_value + to_Z right_value).
Proof.
  intros Hl Hr. unfold ecma_big_uint_add.
  destruct (length left_value <? length right_value)%nat eqn:Hlt.
  - apply Nat.ltb_lt in Hlt. rewrite Z.add_comm.
    apply add_grows_ordered; [lia | assumption | assumption].
  - apply Nat.ltb_ge in Hlt.
    apply add_grows_ordered; [lia | assumption | assumption].
Qed.

(** *** [ecma_big_uint_mul_digit] *)

Lemma mul_digit_pass_spec (value : magnitude) (mul carry : Z) :
  let '(product, carry_out) := mul_digit_pass value mul carry in
  length product = length value
  /\ digits_ok product
  /\ to_Z product + digit_base ^ Z.of_nat (length value) * carry_out
     = mul * to_Z value + carry.
Proof.
  revert carry. induction value as [| d value IH]; intros carry.
  - cbn [mul_digit_pass length to_Z]. change (Z.of_nat 0) with 0.
    rewrite Z.pow_0_r. split; [reflexivity | split; [apply Forall_nil_2 | lia]].
  - cbn [mul_digit_pass].
    specialize (IH ((mul * d + carry) / digit_base)).
    destruct (mul_digit_pass value mul _) as [rest carry_out].
    destruct IH as (Hlen & Hok & Hval).
    cbn [length to_Z]. split; [congruence | split].
    + constructor; [apply low_digit_ok | exact Hok].
    + rewrite Nat2Z.inj_succ, Z.pow_succ_r by lia.
      pose proof (two_digits_split (mul * d + carry)) as Hsplit. nia.
Qed.

Lemma mul_digit_pass_carry (value : magnitude) (mul carry : Z) :
  digits_ok value -> 0 <= mul < digit_base -> 0 <= carry < digit_base ->
  0 <= (mul_digit_pass value mul carry).2 < digit_base.
Proof.
  pose proof digit_base_pos as Hbase.
  revert carry. induction value as [| d value IH]; intros carry Hv Hm Hc.
  - cbn [mul_digit_pass snd]. exact Hc.
  - cbn [mul_digit_pass].
    pose proof (Forall_inv Hv) as Hd. cbn beta in Hd.
    specialize (IH ((mul * d + carry) / digit_base) (Forall_inv_tail Hv) Hm).
    destruct (mul_digit_pass value mul _) as [rest carry_out]. cbn [snd] in *.
    apply IH. split.
    + apply Z.div_pos; nia.
    + apply Z.div_lt_upper_bound; nia.
Qed.

Lemma add_digit_pass_spec (value : magnitude) (carry : Z) :
  let '(sum, carry_out) := add_digit_pass value carry in
  length sum = length value
  /\ digits_ok sum
  /\ to_Z sum + digit_base ^ Z.of_nat (length value) * carry_out
     = to_Z value + carry.
Proof.
  revert carry. induction value as [| d value IH]; intros carry.
  - cbn [add_digit_pass length to_Z]. change (Z.of_nat 0) with 0.
    rewrite Z.pow_0_r. split; [reflexivity | split; [apply Forall_nil_2 | lia]].
  - cbn [add_digit_pass].
    specialize (IH ((d + carry) / digit_base)).
    destruct (add_digit_pass value _) as [rest carry_out].
    destruct IH as (Hlen & Hok & Hval).
    cbn [length to_Z]. split; [congruence | split].
    + constructor; [apply low_digit_ok | exact Hok].
    + rewrite Nat2Z.inj_succ, Z.pow_succ_r by lia.
      pose proof (two_digits_split (d + carry)) as Hsplit. nia.
Qed.

Lemma add_digit_pass_carry (value : magnitude) (carry : Z) :
  digits_ok value -> 0 <= carry ->
  0 <= (add_digit_pass value carry).2.
Proof.
  pose proof digit_base_pos as Hbase.
  revert carry. induction value as [| d value IH]; intros carry Hv Hc.
  - cbn [add_digit_pass snd]. exact Hc.
  - cbn [add_digit_pass].
    pose proof (Forall_inv Hv) as Hd. cbn beta in Hd.
    specialize (IH ((d + carry) / digit_base) (Forall_inv_tail Hv)).
    destruct (add_digit_pass value _) as [rest carry_out]. cbn [snd] in *.
    apply IH. apply Z.div_pos; lia.
Qed.

Lemma mul_digit_within_max_size (value : magnitude) (mul add : Z) :
  within_max_size (ecma_big_uint_mul_digit value mul add).
Proof.
  unfold ecma_big_uint_mul_digit.
  apply within_max_size_and_then. intros buffer Hsize.
  destruct (mul_digit_pass value mul 0) as [product carry_mul].
  destruct (add_digit_pass product add) as [sum carry_add].
  apply with_carry_within_max_size. exact Hsize.
Qed.

Lemma mul_digit_grows (value : magnitude) (mul add : Z) :
  digits_ok value -> 0 <= mul < digit_base -> 0 <= add < digit_base ->
  grows_to (ecma_big_uint_mul_digit value mul add) (to_Z value * mul + add).
Proof.
  intros Hv Hm Ha. pose proof digit_base_pos as Hbase.
  unfold ecma_big_uint_mul_digit.
  destruct (ecma_bigint_create (byte_size value)) as [buffer | error] eqn:Hcreate;
    cbn [and_then]; [| apply grows_to_intro; eapply create_error; exact Hcreate].
  pose proof (mul_digit_pass_spec value mul 0) as Hmul.
  pose proof (mul_digit_pass_carry value mul 0 Hv Hm ltac:(lia)) as Hc1.
  destruct (mul_digit_pass value mul 0) as [product carry_mul]. cbn [snd] in Hc1.
  destruct Hmul as (Hlen1 & Hok1 & Hval1).
  pose proof (add_digit_pass_spec product add) as Hadd.
  pose proof (add_digit_pass_carry product add Hok1 ltac:(lia)) as Hc2.
  destruct (add_digit_pass product add) as [sum carry_add]. cbn [snd] in Hc2.
  destruct Hadd as (Hlen2 & Hok2 & Hval2).
  rewrite Hlen1 in Hval2.
  pose proof (to_Z_bounds value Hv) as Hvalue.
  pose proof (to_Z_bounds sum Hok2) as Hsum.
  set (power := digit_base ^ Z.of_nat (length value)) in *.
  assert (Hpower : 0 < power) by (apply Z.pow_pos_nonneg; lia).
  replace (to_Z value * mul + add)
    with (to_Z sum + digit_base ^ Z.of_nat (length sum) * (carry_mul + carry_add))
    by (rewrite Hlen2, Hlen1; fold power; lia).
  apply with_carry_grows.
  - rewrite Hlen2, Hlen1. apply create_for_length. exact Hcreate.
  - eapply create_within_max_size. exact Hcreate.
  - exact Hok2.
  - split; [lia |].
    assert (Hprod : mul * to_Z value <= (digit_base - 1) * (power - 1)) by nia.
    assert (Htop : power * (carry_mul + carry_add) <= power * (digit_base - 1))
      by nia.
    apply Z.mul_le_mono_pos_l in Htop; lia.
Qed.

(** *** [ecma_big_uint_mul] *)

Lemma mul_accumulate_spec (left : magnitude) (mul : Z) (acc : magnitude)
    (carry : Z) :
  (length left <= length acc)%nat ->
  digits_ok left -> digits_ok acc ->
  0 <= mul < digit_base -> 0 <= carry < digit_base ->
  let row := mul_accumulate left mul acc carry in
  length row = length acc
  /\ digits_ok row
  /\ exists dropped,
       0 <= dropped
       /\ to_Z row + digit_base ^ Z.of_nat (length acc) * dropped
          = mul * to_Z left + to_Z acc + carry.
Proof.
  pose proof digit_base_pos as Hbase.
  revert acc carry. induction left as [| x left IH];
    intros acc carry Hlen Hl Ha Hm Hc.
  - cbn [mul_accumulate to_Z].
    pose proof (add_digit_pass_spec acc carry) as Hspec.
    pose proof (add_digit_pass_carry acc carry Ha ltac:(lia)) as Hcarry.
    destruct (add_digit_pass acc carry) as [sum carry_out].
    cbn [fst snd] in *. destruct Hspec as (Hsum & Hok & Hval).
    split; [exact Hsum | split; [exact Hok |]].
    exists carry_out. split; [exact Hcarry | lia].
  - destruct acc as [| a acc]; [cbn [length] in Hlen; lia |].
    cbn [mul_accumulate hd tl].
    pose proof (Forall_inv Hl) as Hx. cbn beta in Hx.
    pose proof (Forall_inv Ha) as Hacc. cbn beta in Hacc.
    assert (Hcarry' : 0 <= (mul * x + a + carry) / digit_base < digit_base).
    { split; [apply Z.div_pos; nia | apply Z.div_lt_upper_bound; nia]. }
    destruct (IH acc ((mul * x + a + carry) / digit_base)
                ltac:(cbn [length] in Hlen; lia)
                (Forall_inv_tail Hl) (Forall_inv_tail Ha) Hm Hcarry')
      as (Hrow & Hok & dropped & Hdropped & Hval).
    cbn [length to_Z]. split; [congruence | split].
    + constructor; [apply low_digit_ok | exact Hok].
    + exists dropped. split; [exact Hdropped |].
      rewrite Nat2Z.inj_succ, Z.pow_succ_r by lia.
      pose proof (two_digits_split (mul * x + a + carry)) as Hsplit. nia.
Qed.

Lemma mul_digits_spec (left right : magnitude) :
  digits_ok left -> digits_ok right ->
  length (mul_digits left right) = (length left + length right)%nat
  /\ digits_ok (mul_digits left right)
  /\ to_Z (mul_digits left right) = to_Z left * to_Z right.
Proof.
  pose proof digit_base_pos as Hbase.
  intros Hl. induction right as [| y right IH]; intros Hr.
  - cbn [mul_digits length to_Z]. rewrite length_replicate, to_Z_replicate_zero.
    split; [lia | split; [apply digits_ok_replicate_zero | lia]].
  - cbn [mul_digits].
    pose proof (Forall_inv Hr) as Hy. cbn beta in Hy.
    destruct (IH (Forall_inv_tail Hr)) as (Hlen & Hok & Hval).
    assert (Hacc : digits_ok (0 :: mul_digits left right)).
    { constructor; [lia | exact Hok]. }
    destruct (mul_accumulate_spec left y (0 :: mul_digits left right) 0
                ltac:(cbn [length]; lia) Hl Hacc Hy ltac:(lia))
      as (Hrow & Hrow_ok & dropped & Hdropped & Hexact).
    cbn [length] in Hrow, Hexact. cbn [to_Z] in Hexact. rewrite Hval in Hexact.
    split; [cbn [length]; lia | split; [exact Hrow_ok |]].
    pose proof (to_Z_bounds _ Hrow_ok) as Hrow_bounds.
    pose proof (to_Z_bounds left Hl) as Hleft.
    pose proof (to_Z_bounds (y :: right) Hr) as Hright.
    cbn [to_Z length] in Hright |- *.
    set (product := to_Z left * (y + digit_base * to_Z right)) in *.
    set (power := digit_base ^ Z.of_nat (S (length (mul_digits left right)))) in *.
    assert (Hpower : power
                     = digit_base ^ Z.of_nat (length left)
                       * digit_base ^ Z.of_nat (S (length right))).
    { unfold power. rewrite <- Z.pow_add_r by lia. f_equal. lia. }
    assert (Hproduct : product < power).
    { rewrite Hpower. unfold product.
      apply Z.mul_lt_mono_nonneg; lia. }
    assert (Hzero : dropped = 0) by nia.
    subst dropped. unfold product. lia.
Qed.

Lemma mul_within_max_size (left_value right_value : magnitude) :
  within_max_size (ecma_big_uint_mul left_value right_value).
Proof.
  unfold ecma_big_uint_mul. apply within_max_size_and_then.
  intros buffer Hsize. apply byte_size_canonicalize_store. exact Hsize.
Qed.

Lemma mul_grows (left_value right_value : magnitude) :
  digits_ok left_value -> digits_ok right_value ->
  grows_to (ecma_big_uint_mul left_value right_value)
    (to_Z left_value * to_Z right_value).
Proof.
  intros Hl Hr. apply grows_to_intro. unfold ecma_big_uint_mul.
  destruct (ecma_bigint_create _) as [buffer | error] eqn:Hcreate;
    cbn [and_then]; [| eapply create_error; exact Hcreate].
  destruct (mul_digits_spec left_value right_value Hl Hr) as (Hlen & Hok & Hval).
  assert (Hbuffer : buffer = replicate (length left_value + length right_value) 0).
  { apply create_for_length. rewrite <- Hcreate. f_equal.
    unfold byte_size. lia. }
  assert (Hstore : store buffer (mul_digits left_value right_value)
                   = mul_digits left_value right_value).
  { apply store_same_length. rewrite Hbuffer, length_replicate, Hlen. reflexivity. }
  split; [| split].
  - rewrite Hstore. apply digits_ok_canonicalize. exact Hok.
  - apply byte_size_canonicalize_store.
    eapply create_within_max_size. exact Hcreate.
  - rewrite Hstore, to_Z_canonicalize. exact Hval.
Qed.

(** *** [ecma_big_uint_shift_left] *)

Lemma shift_left_digits_spec (value : magnitude) (shift carry : Z) :
  0 <= shift ->
  let '(shifted, carry_out) := shift_left_digits value shift carry in
  length shifted = length value
  /\ digits_ok shifted
  /\ to_Z shifted + digit_base ^ Z.of_nat (length value) * carry_out
     = 2 ^ shift * to_Z value + carry.
Proof.
  intros Hshift. revert carry. induction value as [| d value IH]; intros carry.
  - cbn [shift_left_digits length to_Z]. change (Z.of_nat 0) with 0.
    rewrite Z.pow_0_r. split; [reflexivity | split; [apply Forall_nil_2 | lia]].
  - cbn [shift_left_digits].
    specialize (IH (Z.shiftr (Z.shiftl d shift + carry) digit_bits)).
    destruct (shift_left_digits value shift _) as [rest carry_out].
    destruct IH as (Hlen & Hok & Hval).
    cbn [length to_Z]. split; [congruence | split].
    + constructor; [apply low_digit_ok | exact Hok].
    + rewrite Nat2Z.inj_succ, Z.pow_succ_r by lia.
      rewrite Z.shiftr_div_pow2 in Hval by discriminate.
      fold digit_base in Hval.
      rewrite Z.shiftl_mul_pow2 in * by exact Hshift.
      pose proof (two_digits_split (d * 2 ^ shift + carry)) as Hsplit. nia.
Qed.

Lemma shift_left_digits_carry (value : magnitude) (shift carry : Z) :
  0 <= shift -> digits_ok value -> 0 <= carry < 2 ^ shift ->
  0 <= (shift_left_digits value shift carry).2 < 2 ^ shift.
Proof.
  intros Hshift. pose proof digit_base_pos as Hbase.
  revert carry. induction value as [| d value IH]; intros carry Hv Hc.
  - cbn [shift_left_digits snd]. exact Hc.
  - cbn [shift_left_digits].
    pose proof (Forall_inv Hv) as Hd. cbn beta in Hd.
    specialize (IH (Z.shiftr (Z.shiftl d shift + carry) digit_bits)
                  (Forall_inv_tail Hv)).
    destruct (shift_left_digits value shift _) as [rest carry_out].
    cbn [snd] in *. apply IH.
    rewrite Z.shiftr_div_pow2 by discriminate.
    fold digit_base. rewrite Z.shiftl_mul_pow2 by exact Hshift.
    split; [apply Z.div_pos; nia | apply Z.div_lt_upper_bound; nia].
Qed.

Lemma shift_left_within_max_size (left_value : magnitude) (right_value : Z) :
  within_max_size (ecma_big_uint_shift_left left_value right_value).
Proof.
  unfold ecma_big_uint_shift_left. apply within_max_size_and_then.
  intros buffer Hsize.
  destruct (shift_left_digits left_value _ 0) as [shifted carry].
  apply with_carry_within_max_size. exact Hsize.
Qed.

Lemma shift_left_grows (left_value : magnitude) (right_value : Z) :
  digits_ok left_value -> 0 <= right_value ->
  grows_to (ecma_big_uint_shift_left left_value right_value)
    (to_Z left_value * 2 ^ right_value).
Proof.
  intros Hv Hbits. pose proof digit_base_pos as Hbase.
  unfold ecma_big_uint_shift_left.
  set (zero_digits := Z.shiftr right_value ECMA_BIGINT_DIGIT_SHIFT).
  set (shift := Z.land right_value (digit_bits - 1)).
  assert (Hzero : zero_digits = right_value / digit_bits).
  { unfold zero_digits. rewrite Z.shiftr_div_pow2 by discriminate. reflexivity. }
  assert (Hshift : shift = right_value mod digit_bits).
  { unfold shift. change (digit_bits - 1) with (Z.ones 5).
    rewrite Z.land_ones by lia. reflexivity. }
  assert (Hshift_range : 0 <= shift < digit_bits).
  { rewrite Hshift. apply Z.mod_pos_bound. reflexivity. }
  assert (Hzero_pos : 0 <= zero_digits).
  { rewrite Hzero. apply Z.div_pos; [exact Hbits | reflexivity]. }
  assert (Hbits_split : right_value = digit_bits * zero_digits + shift).
  { rewrite Hzero, Hshift. apply Z.div_mod. discriminate. }
  destruct (ecma_bigint_create _) as [buffer | error] eqn:Hcreate;
    cbn [and_then]; [| apply grows_to_intro; eapply create_error; exact Hcreate].
  pose proof (shift_left_digits_spec left_value shift 0 ltac:(lia)) as Hspec.
  pose proof (shift_left_digits_carry left_value shift 0 ltac:(lia) Hv) as Hcarry.
  destruct (shift_left_digits left_value shift 0) as [shifted carry].
  cbn [snd] in Hcarry. destruct Hspec as (Hlen & Hok & Hval).
  assert (Hcarry' : 0 <= carry < 2 ^ shift).
  { apply Hcarry. split; [lia |]. apply Z.pow_pos_nonneg; lia. }
  set (digits := replicate (Z.to_nat zero_digits) 0 ++ shifted).
  assert (Hdigits_len : length digits
                        = (length left_value + Z.to_nat zero_digits)%nat).
  { unfold digits. rewrite length_app, length_replicate, Hlen. lia. }
  assert (Hexact : to_Z left_value * 2 ^ right_value
                   = to_Z digits + digit_base ^ Z.of_nat (length digits) * carry).
  { unfold digits at 1. rewrite to_Z_app, to_Z_replicate_zero, length_replicate.
    rewrite Hdigits_len, Nat2Z.inj_add, Z2Nat.id by exact Hzero_pos.
    rewrite Z.pow_add_r by lia.
    assert (Hpow : 2 ^ right_value = digit_base ^ zero_digits * 2 ^ shift).
    { rewrite Hbits_split at 1.
      rewrite Z.pow_add_r by (try apply Z.mul_nonneg_nonneg; lia || discriminate).
      rewrite Z.pow_mul_r by (lia || discriminate). reflexivity. }
    rewrite Hpow.
    transitivity (digit_base ^ zero_digits
                  * (to_Z shifted
                     + digit_base ^ Z.of_nat (length left_value) * carry));
      [rewrite Hval | ]; ring. }
  rewrite Hexact. apply with_carry_grows.
  - apply create_for_length. rewrite <- Hcreate. f_equal.
    rewrite Hdigits_len. unfold byte_size, sizeof_ecma_bigint_digit_t. lia.
  - eapply create_within_max_size. exact Hcreate.
  - unfold digits. apply digits_ok_app;
      [apply digits_ok_replicate_zero | exact Hok].
  - split; [lia |]. eapply Z.lt_le_trans; [apply Hcarry' |].
    unfold digit_base. apply Z.pow_le_mono_r; lia.
Qed.

(** *** The operations that do not grow a magnitude *)

Lemma sub_within_max_size (left_value right_value : magnitude) :
  within_max_size (ecma_big_uint_sub left_value right_value).
Proof.
  unfold ecma_big_uint_sub. apply within_max_size_and_then.
  intros buffer Hsize. apply byte_size_canonicalize_store. exact Hsize.
Qed.

Lemma div_mod_within_max_size (dividend_value divisor_value : magnitude)
    (is_mod : bool) :
  within_max_size (ecma_big_uint_div_mod dividend_value divisor_value is_mod).
Proof.
  unfold ecma_big_uint_div_mod.
  destruct (to_Z divisor_value =? 0); [exact I |].
  destruct (div_digits dividend_value (to_Z divisor_value))
    as [quotient remainder].
  destruct is_mod; apply within_max_size_and_then; intros buffer Hsize;
    apply byte_size_canonicalize_store; exact Hsize.
Qed.

Lemma shift_right_within_max_size (left_value : magnitude) (right_value : Z) :
  within_max_size (ecma_big_uint_shift_right left_value right_value).
Proof.
  unfold ecma_big_uint_shift_right. apply within_max_size_and_then.
  intros buffer Hsize. apply byte_size_canonicalize_store. exact Hsize.
Qed.

Lemma create_within (size : Z) : within_max_size (ecma_bigint_create size).
Proof.
  destruct (ecma_bigint_create size) as [buffer | error] eqn:Hcreate; [| exact I].
  eapply create_within_max_size. exact Hcreate.
Qed.

Lemma extend_within_max_size (value : magnitude) (digit : Z) :
  within_max_size (ecma_big_uint_extend value digit).
Proof.
  destruct (ecma_big_uint_extend value digit) as [result | error] eqn:Hextend;
    [| exact I].
  apply extend_inv in Hextend as [_ Hsize]. exact Hsize.
Qed.

(** At the limit: a carry out of a magnitude of [ECMA_BIGINT_MAX_SIZE] bytes,
    and a shift by as many whole digits as the limit holds. *)
Example add_at_max_size_fails :
  ecma_big_uint_add (replicate (Z.to_nat 16384) 4294967295) [1]
  = BigUIntError BIG_UINT_RESOURCE_ERROR.
Proof. vm_compute. reflexivity. Qed.

Example shift_left_past_max_size_fails :
  ecma_big_uint_shift_left [1] (32 * 16384)
  = BigUIntError BIG_UINT_RESOURCE_ERROR.
Proof. vm_compute. reflexivity. Qed.

Example mul_digit_below_max_size :
  ecma_big_uint_mul_digit [4294967295; 4294967295] 4294967295 4294967295
  = BigUIntOk [0; 0; 4294967295].
Proof. vm_compute. reflexivity. Qed.

End BigUIntFacts.

(** C10. For a byte size that is a multiple of the digit width (4 bytes),
    [ECMA_BIGINT_SIZE_IS_ODD (size)] is true exactly when the number of
    digits [size / 4] is odd; the size itself is then never an odd number,
    so the macro does not test what its comment says. *)
Theorem C10_size_is_odd_counts_digits (size : Z) :
  0 <= size ->
  size mod BigUInt.sizeof_ecma_bigint_digit_t = 0 ->
  BigUInt.ECMA_BIGINT_SIZE_IS_ODD size
    = Z.odd (size / BigUInt.sizeof_ecma_bigint_digit_t)
  /\ Z.odd size = false.
Proof.
  intros Hpos Hmod. unfold BigUInt.sizeof_ecma_bigint_digit_t in *.
  split.
  - rewrite BigUIntFacts.size_is_odd_testbit.
    rewrite <- Z.bit0_odd. change 4 with (2 ^ 2).
    rewrite <- Z.shiftr_div_pow2 by lia.
    rewrite Z.shiftr_spec by lia. reflexivity.
  - rewrite (Z.div_mod size 4) by lia. rewrite Hmod, Z.add_0_r.
    replace (4 * (size / 4)) with (2 * (2 * (size / 4))) by lia.
    apply Z.odd_even.
Qed.

Lemma C10_size_is_odd_counts_digits_witness :
  BigUInt.ECMA_BIGINT_SIZE_IS_ODD 12 = Z.odd (12 / BigUInt.sizeof_ecma_bigint_digit_t)
  /\ Z.odd 12 = false.
Proof.
  apply (C10_size_is_odd_counts_digits 12); [lia | reflexivity].
Defined.

Module OpcodesFacts.
Import Opcodes.

(** Running a handler: unfold the monad and the logged calls down to the
    collaborators' own functions. *)
Ltac vm_unfold :=
  cbv [do_number_arithmetic opfunc_addition opfunc_unary_operation
       function_body bind ret return_ lift log when
       ECMA_OP_TO_NUMBER_TRY_CATCH
       ecma_op_to_number ecma_op_to_string ecma_op_object_default_value
       ecma_bigint_add_sub ecma_bigint_mul ecma_bigint_div_mod
       ecma_bigint_negate ecma_free_value ecma_ref_extended_primitive
       ecma_deref_ecma_string ecma_concat_ecma_strings
       ecma_raise_type_error ecma_raise_common_error ecma_raise_range_error
       ecma_raise_standard_error state vm_rt vm_trace
       release release_events coercion_events coerced finished pending_error].

Ltac vm_name call :=
  let v := fresh "v" in
  let rt := fresh "rt" in
  let E := fresh "E" in
  destruct call as [v rt] eqn:E.

(** One step of a run: a call or a test whose result a hypothesis gives is
    replaced by it; a call of a collaborator that no hypothesis describes
    is named. *)
Ltac vm_step :=
  match goal with
  | H : ?call = (_, _) |- context [?call] => rewrite H
  | H : ?test = true |- context [?test] => rewrite H
  | H : ?test = false |- context [?test] => rewrite H
  | |- context [object_default_value ?o ?h ?rt] =>
      vm_name (object_default_value o h rt)
  | |- context [bigint_add_sub ?l ?r ?b ?rt] => vm_name (bigint_add_sub l r b rt)
  | |- context [bigint_mul ?l ?r ?rt] => vm_name (bigint_mul l r rt)
  | |- context [bigint_div_mod ?l ?r ?b ?rt] => vm_name (bigint_div_mod l r b rt)
  | |- context [bigint_to_string ?p ?rt] => vm_name (bigint_to_string p rt)
  end.

Ltac vm_run_with extra :=
  vm_unfold;
  repeat first
    [ vm_step
    | extra
    | progress cbn [ECMA_IS_VALUE_ERROR ecma_is_value_bigint
                    ecma_is_value_object ecma_is_value_string
                    ecma_get_object_from_value
                    ecma_get_extended_primitive_from_value
                    negb orb andb fst snd app] ];
  rewrite <- ?app_assoc, ?app_nil_r.

Ltac vm_run := vm_run_with fail.

(** The conversions evaluated, on operands that are known values. *)
Ltac vm_eval := vm_run_with ltac:(progress cbn [to_number_rt to_string_rt]).

(** The conversions named and split into success and failure, and every
    test split into its two cases: all the paths of a handler. *)
Ltac vm_path :=
  match goal with
  | |- context [to_number_rt ?v ?rt] =>
      let n := fresh "num" in
      let rt' := fresh "rt" in
      let E := fresh "E" in
      destruct (to_number_rt v rt) as [[n |] rt'] eqn:E
  | |- context [to_string_rt ?v ?rt] =>
      let n := fresh "str" in
      let rt' := fresh "rt" in
      let E := fresh "E" in
      destruct (to_string_rt v rt) as [[n |] rt'] eqn:E
  | |- context [bigint_negate_rt ?p ?rt] => vm_name (bigint_negate_rt p rt)
  | |- context [if ?test then _ else _] =>
      let E := fresh "E" in
      destruct test eqn:E
  | |- context [match ?op with
                | NUMBER_ARITHMETIC_SUBTRACTION => _
                | NUMBER_ARITHMETIC_MULTIPLICATION => _
                | NUMBER_ARITHMETIC_DIVISION => _
                | NUMBER_ARITHMETIC_REMAINDER => _
                | NUMBER_ARITHMETIC_EXPONENTIATION => _
                end] => destruct op
  end.

Ltac vm_paths := vm_run_with ltac:(idtac; vm_path).

(** The two operands of a handler, each an Object or not. *)
Ltac vm_operand H :=
  unfold coerced in H; cbn [vm_rt] in H;
  match type of H with
  | (if ?test then _ else _) = _ =>
      let Ho := fresh "Ho" in
      destruct test eqn:Ho; [| inversion H; subst; clear H]
  end.

Ltac vm_operands Hl Hr := vm_operand Hl; vm_operand Hr.

Section Runs.
Context {W : Type} `{!Collaborators W}.
Implicit Types (s : vm_state W) (rt : runtime W).
Implicit Types (left_value right_value value : ecma_value_t).

(** Releasing a value leaves the pending exception alone. *)
Lemma rt_error_free_value value rt :
  rt_error (free_value_rt value rt) = rt_error rt.
Proof.
  destruct value; try reflexivity. simpl. unfold ecma_deref_bigint.
  destruct (rt_heap rt !! value_p) as [prim |]; [| reflexivity].
  destruct (refs prim <=? 1); reflexivity.
Qed.

Lemma rt_error_release value coerced_value rt :
  rt_error (release value coerced_value rt) = rt_error rt.
Proof.
  unfold release. destruct (ecma_is_value_object value); [| reflexivity].
  apply rt_error_free_value.
Qed.

(** Under the contract of the default value, a coerced operand is never an
    Object. *)
Lemma coerced_not_object hint value rt :
  default_value_gives_primitive ->
  ecma_is_value_object (coerced hint value rt).1 = false.
Proof.
  intros Hcontract.
  unfold coerced. destruct (ecma_is_value_object value) eqn:Ho; [| exact Ho].
  apply Hcontract.
Qed.

(** The shape of the BigInt path of [do_number_arithmetic] and of
    [opfunc_addition]. *)
Lemma do_number_arithmetic_bigint op left_value right_value s
    left_p right_p rt1 rt2 :
  let left := ecma_make_bigint_value left_p in
  let right := ecma_make_bigint_value right_p in
  coerced ECMA_PREFERRED_TYPE_NUMBER left_value (vm_rt s) = (left, rt1) ->
  coerced ECMA_PREFERRED_TYPE_NUMBER right_value rt1 = (right, rt2) ->
  do_number_arithmetic op left_value right_value s
  = match op with
    | NUMBER_ARITHMETIC_SUBTRACTION =>
        let out := bigint_add_sub left right false rt2 in
        finished ECMA_PREFERRED_TYPE_NUMBER left_value right_value left right
          (vm_trace s) [EvBigintAddSub left right false] out.1 out.2
    | NUMBER_ARITHMETIC_MULTIPLICATION =>
        let out := bigint_mul left right rt2 in
        finished ECMA_PREFERRED_TYPE_NUMBER left_value right_value left right
          (vm_trace s) [EvBigintMul left right] out.1 out.2
    | NUMBER_ARITHMETIC_DIVISION =>
        let out := bigint_div_mod left right false rt2 in
        finished ECMA_PREFERRED_TYPE_NUMBER left_value right_value left right
          (vm_trace s) [EvBigintDivMod left right false] out.1 out.2
    | NUMBER_ARITHMETIC_REMAINDER =>
        let out := bigint_div_mod left right true rt2 in
        finished ECMA_PREFERRED_TYPE_NUMBER left_value right_value left right
          (vm_trace s) [EvBigintDivMod left right true] out.1 out.2
    | NUMBER_ARITHMETIC_EXPONENTIATION =>
        finished ECMA_PREFERRED_TYPE_NUMBER left_value right_value left right
          (vm_trace s) [] ECMA_VALUE_ERROR
          (raise_standard_error_rt ECMA_ERROR_COMMON
             "Not supported BigInt operation" rt2)
    end.
Proof.
  intros left right Hl Hr. subst left right. destruct s as [rt0 tr0]; cbn [vm_rt vm_trace] in *.
  vm_operands Hl Hr. all: destruct op; vm_run; reflexivity.
Qed.

Lemma opfunc_addition_bigint left_value right_value s left_p right_p rt1 rt2 :
  let left := ecma_make_bigint_value left_p in
  let right := ecma_make_bigint_value right_p in
  coerced ECMA_PREFERRED_TYPE_NO left_value (vm_rt s) = (left, rt1) ->
  coerced ECMA_PREFERRED_TYPE_NO right_value rt1 = (right, rt2) ->
  opfunc_addition left_value right_value s
  = let out := bigint_add_sub left right true rt2 in
    finished ECMA_PREFERRED_TYPE_NO left_value right_value left right
      (vm_trace s) [EvBigintAddSub left right true] out.1 out.2.
Proof.
  intros left right Hl Hr. subst left right. destruct s as [rt0 tr0]; cbn [vm_rt vm_trace] in *.
  vm_operands Hl Hr. all: vm_run; reflexivity.
Qed.

(** The shape of the Number path of [do_number_arithmetic]. *)
Lemma do_number_arithmetic_number op left_value right_value s
    left right rt1 rt2 num_left num_right rt3 rt4 :
  coerced ECMA_PREFERRED_TYPE_NUMBER left_value (vm_rt s) = (left, rt1) ->
  ECMA_IS_VALUE_ERROR left = false ->
  coerced ECMA_PREFERRED_TYPE_NUMBER right_value rt1 = (right, rt2) ->
  ECMA_IS_VALUE_ERROR right = false ->
  ecma_is_value_bigint left = false ->
  ecma_is_value_bigint right = false ->
  to_number_rt left rt2 = (Some num_left, rt3) ->
  to_number_rt right rt3 = (Some num_right, rt4) ->
  do_number_arithmetic op left_value right_value s
  = finished ECMA_PREFERRED_TYPE_NUMBER left_value right_value left right
      (vm_trace s) [EvToNumber left; EvToNumber right]
      (ecma_make_number_value (number_arithmetic op num_left num_right)) rt4.
Proof.
  intros Hl Hle Hr Hre Hlb Hrb Hnl Hnr. destruct s as [rt0 tr0]; cbn [vm_rt vm_trace] in *.
  vm_operands Hl Hr. all: vm_run; reflexivity.
Qed.

(** Number operands: the conversions change nothing and raise nothing. *)
Lemma do_number_arithmetic_numbers op num_left num_right s :
  do_number_arithmetic op (ecma_make_number_value num_left)
    (ecma_make_number_value num_right) s
  = (ecma_make_number_value (number_arithmetic op num_left num_right),
     state (vm_rt s)
       (vm_trace s ++ [EvToNumber (ecma_make_number_value num_left);
                       EvToNumber (ecma_make_number_value num_right)])).
Proof.
  rewrite (do_number_arithmetic_number op _ _ s
             (ecma_make_number_value num_left)
             (ecma_make_number_value num_right)
             (vm_rt s) (vm_rt s) num_left num_right (vm_rt s) (vm_rt s));
    reflexivity.
Qed.

(** The to-number conversion of a primitive succeeds without changing the
    runtime, or raises a type error; on a BigInt it raises the type
    error. *)
Lemma to_number_rt_primitive value rt :
  ecma_is_value_primitive value = true ->
  (exists num, to_number_rt value rt = (Some num, rt))
  \/ (exists msg,
        to_number_rt value rt
        = (None, raise_standard_error_rt ECMA_ERROR_TYPE msg rt)).
Proof.
  destruct value; try discriminate; intros _; cbn [to_number_rt]; eauto.
Qed.

Lemma to_number_rt_bigint value rt :
  ecma_is_value_bigint value = true ->
  to_number_rt value rt
  = (None,
     raise_standard_error_rt ECMA_ERROR_TYPE
       "Cannot convert a BigInt value to a number" rt).
Proof. destruct value; try discriminate. reflexivity. Qed.

Lemma primitive_not_error value :
  ecma_is_value_primitive value = true -> ECMA_IS_VALUE_ERROR value = false.
Proof. destruct value; try discriminate; reflexivity. Qed.

(** One BigInt operand and one primitive that is not a BigInt: the
    Number path is taken and the conversion of the BigInt, or that of a
    Symbol before it, raises a type error. *)
Lemma do_number_arithmetic_mixed op left_value right_value s left right rt1 rt2 :
  coerced ECMA_PREFERRED_TYPE_NUMBER left_value (vm_rt s) = (left, rt1) ->
  coerced ECMA_PREFERRED_TYPE_NUMBER right_value rt1 = (right, rt2) ->
  ecma_is_value_primitive left = true ->
  ecma_is_value_primitive right = true ->
  xorb (ecma_is_value_bigint left) (ecma_is_value_bigint right) = true ->
  exists msg conversions,
    do_number_arithmetic op left_value right_value s
    = finished ECMA_PREFERRED_TYPE_NUMBER left_value right_value left right
        (vm_trace s) conversions ECMA_VALUE_ERROR
        (raise_standard_error_rt ECMA_ERROR_TYPE msg rt2)
    /\ (conversions = [EvToNumber left]
        \/ conversions = [EvToNumber left; EvToNumber right]).
Proof.
  intros Hl Hr Hlp Hrp Hx.
  pose proof (primitive_not_error left Hlp) as Hle.
  pose proof (primitive_not_error right Hrp) as Hre.
  destruct s as [rt0 tr0]; cbn [vm_rt vm_trace] in *.
  destruct (ecma_is_value_bigint left) eqn:Hlb;
    destruct (ecma_is_value_bigint right) eqn:Hrb; try discriminate Hx.
  - pose proof (to_number_rt_bigint left rt2 Hlb) as Hnl.
    exists "Cannot convert a BigInt value to a number"%string, [EvToNumber left].
    split; [| left; reflexivity].
    vm_operands Hl Hr. all: vm_run; reflexivity.
  - pose proof (to_number_rt_bigint right rt2 Hrb) as Hnr.
    destruct (to_number_rt_primitive left rt2 Hlp) as [[num Hnl] | [msg Hnl]].
    + exists "Cannot convert a BigInt value to a number"%string,
        [EvToNumber left; EvToNumber right].
      split; [| right; reflexivity].
      vm_operands Hl Hr. all: vm_run; reflexivity.
    + exists msg, [EvToNumber left]. split; [| left; reflexivity].
      vm_operands Hl Hr. all: vm_run; reflexivity.
Qed.

(** The shape of the String path of [opfunc_addition]. *)
Lemma opfunc_addition_string left_value right_value s left right rt1 rt2 :
  coerced ECMA_PREFERRED_TYPE_NO left_value (vm_rt s) = (left, rt1) ->
  ECMA_IS_VALUE_ERROR left = false ->
  coerced ECMA_PREFERRED_TYPE_NO right_value rt1 = (right, rt2) ->
  ECMA_IS_VALUE_ERROR right = false ->
  ecma_is_value_string left || ecma_is_value_string right = true ->
  opfunc_addition left_value right_value s
  = match to_string_rt left rt2 with
    | (None, rt3) =>
        (ECMA_VALUE_ERROR,
         state (release right_value right (release left_value left rt3))
           (vm_trace s
            ++ coercion_events ECMA_PREFERRED_TYPE_NO left_value left
            ++ coercion_events ECMA_PREFERRED_TYPE_NO right_value right
            ++ [EvToString left None]
            ++ release_events left_value left
            ++ release_events right_value right))
    | (Some string1, rt3) =>
        match to_string_rt right rt3 with
        | (None, rt4) =>
            (ECMA_VALUE_ERROR,
             state (release left_value left (release right_value right rt4))
               (vm_trace s
                ++ coercion_events ECMA_PREFERRED_TYPE_NO left_value left
                ++ coercion_events ECMA_PREFERRED_TYPE_NO right_value right
                ++ [EvToString left (Some string1); EvToString right None]
                ++ release_events right_value right
                ++ release_events left_value left
                ++ [EvDerefString string1]))
        | (Some string2, rt4) =>
            finished ECMA_PREFERRED_TYPE_NO left_value right_value left right
              (vm_trace s)
              [EvToString left (Some string1);
               EvToString right (Some string2);
               EvConcatStrings string1 string2;
               EvDerefString string2]
              (ecma_make_string_value (string1 +:+ string2)) rt4
        end
    end.
Proof.
  intros Hl Hle Hr Hre Hstr. destruct s as [rt0 tr0]; cbn [vm_rt vm_trace] in *.
  vm_operands Hl Hr.
  all: vm_run.
  all: destruct (to_string_rt left rt2) as [[string1 |] rt3];
    [destruct (to_string_rt right rt3) as [[string2 |] rt4] |].
  all: vm_run; reflexivity.
Qed.

(** *** The to-primitive steps and the release of their results *)

(** The left operand's coercion fails: its error is returned at once. *)
Lemma do_number_arithmetic_left_fails op obj_p right_value s rt1 :
  object_default_value obj_p ECMA_PREFERRED_TYPE_NUMBER (vm_rt s)
    = (ECMA_VALUE_ERROR, rt1) ->
  do_number_arithmetic op (ecma_make_object_value obj_p) right_value s
  = (ECMA_VALUE_ERROR,
     state rt1
       (vm_trace s
        ++ [EvDefaultValue obj_p ECMA_PREFERRED_TYPE_NUMBER ECMA_VALUE_ERROR])).
Proof. intros Hl. destruct s as [rt0 tr0]; cbn [vm_rt vm_trace] in *. vm_run. reflexivity. Qed.

Lemma opfunc_addition_left_fails obj_p right_value s rt1 :
  object_default_value obj_p ECMA_PREFERRED_TYPE_NO (vm_rt s)
    = (ECMA_VALUE_ERROR, rt1) ->
  opfunc_addition (ecma_make_object_value obj_p) right_value s
  = (ECMA_VALUE_ERROR,
     state rt1
       (vm_trace s
        ++ [EvDefaultValue obj_p ECMA_PREFERRED_TYPE_NO ECMA_VALUE_ERROR])).
Proof. intros Hl. destruct s as [rt0 tr0]; cbn [vm_rt vm_trace] in *. vm_run. reflexivity. Qed.

Lemma opfunc_unary_operation_fails obj_p is_plus s rt1 :
  object_default_value obj_p ECMA_PREFERRED_TYPE_NUMBER (vm_rt s)
    = (ECMA_VALUE_ERROR, rt1) ->
  opfunc_unary_operation (ecma_make_object_value obj_p) is_plus s
  = (ECMA_VALUE_ERROR,
     state rt1
       (vm_trace s
        ++ [EvDefaultValue obj_p ECMA_PREFERRED_TYPE_NUMBER ECMA_VALUE_ERROR])).
Proof. intros Hl. destruct s as [rt0 tr0]; cbn [vm_rt vm_trace] in *. vm_run. reflexivity. Qed.

(** The right operand's coercion fails after the left one's succeeded:
    the left intermediate is released, then the error is returned. *)
Lemma do_number_arithmetic_right_fails op left_value obj_p s left rt1 rt2 :
  coerced ECMA_PREFERRED_TYPE_NUMBER left_value (vm_rt s) = (left, rt1) ->
  ECMA_IS_VALUE_ERROR left = false ->
  object_default_value obj_p ECMA_PREFERRED_TYPE_NUMBER rt1
    = (ECMA_VALUE_ERROR, rt2) ->
  do_number_arithmetic op left_value (ecma_make_object_value obj_p) s
  = (ECMA_VALUE_ERROR,
     state (release left_value left rt2)
       (vm_trace s
        ++ coercion_events ECMA_PREFERRED_TYPE_NUMBER left_value left
        ++ [EvDefaultValue obj_p ECMA_PREFERRED_TYPE_NUMBER ECMA_VALUE_ERROR]
        ++ release_events left_value left)).
Proof.
  intros Hl Hle Hr. destruct s as [rt0 tr0]; cbn [vm_rt vm_trace] in *.
  vm_operand Hl. all: vm_run; reflexivity.
Qed.

Lemma opfunc_addition_right_fails left_value obj_p s left rt1 rt2 :
  coerced ECMA_PREFERRED_TYPE_NO left_value (vm_rt s) = (left, rt1) ->
  ECMA_IS_VALUE_ERROR left = false ->
  object_default_value obj_p ECMA_PREFERRED_TYPE_NO rt1
    = (ECMA_VALUE_ERROR, rt2) ->
  opfunc_addition left_value (ecma_make_object_value obj_p) s
  = (ECMA_VALUE_ERROR,
     state (release left_value left rt2)
       (vm_trace s
        ++ coercion_events ECMA_PREFERRED_TYPE_NO left_value left
        ++ [EvDefaultValue obj_p ECMA_PREFERRED_TYPE_NO ECMA_VALUE_ERROR]
        ++ release_events left_value left)).
Proof.
  intros Hl Hle Hr. destruct s as [rt0 tr0]; cbn [vm_rt vm_trace] in *.
  vm_operand Hl. all: vm_run; reflexivity.
Qed.

(** On every path through a handler, the values released are the
    intermediates its to-primitive steps produced, each one once. *)
Ltac vm_released :=
  eexists; split;
  [ cbn [snd vm_trace]; first [ reflexivity | symmetry; apply app_nil_r ]
  | unfold freed_values, coerced_values; cbn [omap list_omap app];
    repeat match goal with
           | H : ECMA_IS_VALUE_ERROR ?v = _ |- context [ECMA_IS_VALUE_ERROR ?v] =>
               rewrite H
           end;
    cbn [omap list_omap app];
    first [ reflexivity | apply perm_swap ] ].

Lemma do_number_arithmetic_releases op left_value right_value s :
  releases_what_it_coerced s (do_number_arithmetic op left_value right_value s).
Proof.
  destruct s as [rt0 tr0]; cbn [vm_rt vm_trace] in *. unfold releases_what_it_coerced.
  vm_paths. all: vm_released.
Qed.

Lemma opfunc_addition_releases left_value right_value s :
  releases_what_it_coerced s (opfunc_addition left_value right_value s).
Proof.
  destruct s as [rt0 tr0]; cbn [vm_rt vm_trace] in *.
  unfold releases_what_it_coerced.
  vm_paths. all: vm_released.
Qed.

Lemma opfunc_unary_operation_releases value is_plus s :
  releases_what_it_coerced s (opfunc_unary_operation value is_plus s).
Proof.
  destruct s as [rt0 tr0]; cbn [vm_rt vm_trace] in *.
  unfold releases_what_it_coerced.
  vm_paths. all: vm_released.
Qed.

(** Under the contract of the default value, the conversions of the
    handlers are only ever asked of values that are not Objects: the
    conversions' answer on an Object plays no part in a run. *)
Ltac vm_primitive :=
  match goal with
  | H : ecma_is_value_object ?v = false |- ecma_is_value_object ?v = false =>
      exact H
  | Hcontract : default_value_gives_primitive,
    E : object_default_value ?o ?h ?rt = (?v, _)
    |- ecma_is_value_object ?v = false =>
      let X := fresh in
      pose proof (Hcontract o h rt) as X; rewrite E in X; exact X
  end.

Ltac vm_conversions :=
  eexists; split;
  [ cbn [snd vm_trace]; first [ reflexivity | symmetry; apply app_nil_r ]
  | unfold conversions_of_primitives; cbn [app];
    repeat (apply Forall_cons; split; [first [ exact I | vm_primitive ] |]);
    apply Forall_nil_2 ].

Lemma do_number_arithmetic_converts_primitives op left_value right_value s :
  default_value_gives_primitive ->
  exists events,
    vm_trace (do_number_arithmetic op left_value right_value s).2
    = vm_trace s ++ events
    /\ conversions_of_primitives events.
Proof.
  intros Hcontract. destruct s as [rt0 tr0]; cbn [vm_rt vm_trace] in *.
  vm_paths. all: vm_conversions.
Qed.

Lemma opfunc_addition_converts_primitives left_value right_value s :
  default_value_gives_primitive ->
  exists events,
    vm_trace (opfunc_addition left_value right_value s).2 = vm_trace s ++ events
    /\ conversions_of_primitives events.
Proof.
  intros Hcontract. destruct s as [rt0 tr0]; cbn [vm_rt vm_trace] in *.
  vm_paths. all: vm_conversions.
Qed.

Lemma opfunc_unary_operation_converts_primitives value is_plus s :
  default_value_gives_primitive ->
  exists events,
    vm_trace (opfunc_unary_operation value is_plus s).2 = vm_trace s ++ events
    /\ conversions_of_primitives events.
Proof.
  intros Hcontract. destruct s as [rt0 tr0]; cbn [vm_rt vm_trace] in *.
  vm_paths. all: vm_conversions.
Qed.

(** *** BigInt operands of the unary operators *)

Lemma opfunc_unary_plus_bigint value s left_p rt1 :
  let left := ecma_make_bigint_value left_p in
  coerced ECMA_PREFERRED_TYPE_NUMBER value (vm_rt s) = (left, rt1) ->
  opfunc_unary_operation value true s
  = (ECMA_VALUE_ERROR,
     state
       (release value left
          (raise_standard_error_rt ECMA_ERROR_TYPE
             "Unary operation plus is not allowed for BigInt numbers" rt1))
       (vm_trace s
        ++ coercion_events ECMA_PREFERRED_TYPE_NUMBER value left
        ++ release_events value left)).
Proof.
  intros left Hl. subst left.
  destruct s as [rt0 tr0]; cbn [vm_rt vm_trace] in *.
  vm_operand Hl. all: vm_run; reflexivity.
Qed.



End Runs.

(** The sample runtime keeps the contract of the default value. *)
Lemma sample_default_value_primitive :
  @default_value_gives_primitive SampleRuntime.world
    SampleRuntime.sample_collaborators.
Proof.
  intros obj_p hint rt. cbn [object_default_value SampleRuntime.sample_collaborators].
  unfold SampleRuntime.sample_default_value.
  destruct (SampleRuntime.objects
              (rt_world (SampleRuntime.script_called rt)) !! obj_p)
    as [[value | value] |]; [| reflexivity | reflexivity].
  destruct value; reflexivity.
Qed.

End OpcodesFacts.

(** ** Doubles and the macros of ecma-big-uint.h *)

Module NumberFacts.
Import Number.

(** Negation, subtraction, addition and multiplication of doubles. *)
Lemma number_neg_involutive (a : ecma_number_t) : number_neg (number_neg a) = a.
Proof. destruct a; cbn; rewrite ?negb_involutive; reflexivity. Qed.

Lemma number_sub_add_neg (a b : ecma_number_t) :
  number_sub a b = number_add a (number_neg b).
Proof.
  unfold number_sub, number_add, number_neg.
  destruct a as [sa | sa | | sa ma ea], b as [sb | sb | | sb mb eb];
    try reflexivity;
    destruct sa, sb; reflexivity.
Qed.

Lemma number_add_comm (a b : ecma_number_t) : number_add a b = number_add b a.
Proof.
  unfold number_add.
  destruct a as [sa | sa | | sa ma ea], b as [sb | sb | | sb mb eb];
    try reflexivity;
    try (destruct sa, sb; reflexivity).
  cbn [SFadd]. rewrite (Z.min_comm eb ea). rewrite Z.add_comm. reflexivity.
Qed.

Lemma number_mul_comm (a b : ecma_number_t) : number_mul a b = number_mul b a.
Proof.
  unfold number_mul.
  destruct a as [sa | sa | | sa ma ea], b as [sb | sb | | sb mb eb];
    try reflexivity;
    try (destruct sa, sb; reflexivity).
  cbn [SFmul]. rewrite (xorb_comm sb sa), (Pos.mul_comm mb ma), (Z.add_comm eb ea).
  reflexivity.
Qed.
End NumberFacts.

Module MacroFacts.
Import BigUInt BigUIntFacts.

(** A digit moved to the high half fits the two-digit type. *)
Lemma high_digit_spec (digit : Z) :
  0 <= digit < digit_base ->
  ECMA_BIGINT_HIGH_DIGIT digit = digit * digit_base.
Proof.
  intros Hd. unfold ECMA_BIGINT_HIGH_DIGIT. rewrite digit_base_eq in *.
  unfold sizeof_ecma_bigint_digit_t. rewrite Z.shiftl_mul_pow2 by lia.
  change (2 ^ (8 * 4)) with 4294967296. apply Z.mod_small. lia.
Qed.

(** The macro reads bit 2 of the size: bit 0 of the number of digits. *)
Lemma size_is_odd_quarter (size : Z) :
  ECMA_BIGINT_SIZE_IS_ODD size = Z.odd (size / sizeof_ecma_bigint_digit_t).
Proof.
  rewrite size_is_odd_testbit. unfold sizeof_ecma_bigint_digit_t.
  rewrite <- Z.bit0_odd. change 4 with (2 ^ 2).
  rewrite <- Z.shiftr_div_pow2 by lia.
  rewrite Z.shiftr_spec by lia. reflexivity.
Qed.

(** The digits from the byte offset of the digit [n] on. *)
Lemma get_digits_offset (digits : magnitude) (n : nat) :
  ECMA_BIGINT_GET_DIGITS digits (sizeof_ecma_bigint_digit_t * Z.of_nat n)
  = drop n digits.
Proof.
  unfold ECMA_BIGINT_GET_DIGITS, sizeof_ecma_bigint_digit_t.
  rewrite Z.mul_comm, Z.div_mul by lia. rewrite Nat2Z.id. reflexivity.
Qed.

End MacroFacts.

(** ** The Number path and the calls of the handlers *)

Module PathFacts.
Import Opcodes OpcodesFacts.

Section Paths.
Context {W : Type} `{!Collaborators W}.
Implicit Types (s : vm_state W) (rt : runtime W).
Implicit Types (left_value right_value value : ecma_value_t).

(** The Number path of the three handlers, whatever the conversions
    answer. *)
Lemma do_number_arithmetic_number_path op left_value right_value s
    left right rt1 rt2 :
  coerced ECMA_PREFERRED_TYPE_NUMBER left_value (vm_rt s) = (left, rt1) ->
  ECMA_IS_VALUE_ERROR left = false ->
  coerced ECMA_PREFERRED_TYPE_NUMBER right_value rt1 = (right, rt2) ->
  ECMA_IS_VALUE_ERROR right = false ->
  negb (ecma_is_value_bigint left) || negb (ecma_is_value_bigint right) = true ->
  do_number_arithmetic op left_value right_value s
  = match to_number_rt left rt2 with
    | (None, rt3) =>
        finished ECMA_PREFERRED_TYPE_NUMBER left_value right_value left right
          (vm_trace s) [EvToNumber left] ECMA_VALUE_ERROR rt3
    | (Some num_left, rt3) =>
        match to_number_rt right rt3 with
        | (None, rt4) =>
            finished ECMA_PREFERRED_TYPE_NUMBER left_value right_value left right
              (vm_trace s) [EvToNumber left; EvToNumber right]
              ECMA_VALUE_ERROR rt4
        | (Some num_right, rt4) =>
            finished ECMA_PREFERRED_TYPE_NUMBER left_value right_value left right
              (vm_trace s) [EvToNumber left; EvToNumber right]
              (ecma_make_number_value (number_arithmetic op num_left num_right))
              rt4
        end
    end.
Proof.
  intros Hl Hle Hr Hre Hpath. destruct s as [rt0 tr0]; cbn [vm_rt vm_trace] in *.
  vm_operands Hl Hr.
  all: vm_run.
  all: destruct (to_number_rt left rt2) as [[num_left |] rt3];
    [destruct (to_number_rt right rt3) as [[num_right |] rt4] |].
  all: vm_run; reflexivity.
Qed.

Lemma opfunc_addition_number_path left_value right_value s left right rt1 rt2 :
  coerced ECMA_PREFERRED_TYPE_NO left_value (vm_rt s) = (left, rt1) ->
  ECMA_IS_VALUE_ERROR left = false ->
  coerced ECMA_PREFERRED_TYPE_NO right_value rt1 = (right, rt2) ->
  ECMA_IS_VALUE_ERROR right = false ->
  ecma_is_value_string left || ecma_is_value_string right = false ->
  ecma_is_value_bigint left && ecma_is_value_bigint right = false ->
  opfunc_addition left_value right_value s
  = match to_number_rt left rt2 with
    | (None, rt3) =>
        finished ECMA_PREFERRED_TYPE_NO left_value right_value left right
          (vm_trace s) [EvToNumber left] ECMA_VALUE_ERROR rt3
    | (Some num_left, rt3) =>
        match to_number_rt right rt3 with
        | (None, rt4) =>
            finished ECMA_PREFERRED_TYPE_NO left_value right_value left right
              (vm_trace s) [EvToNumber left; EvToNumber right]
              ECMA_VALUE_ERROR rt4
        | (Some num_right, rt4) =>
            finished ECMA_PREFERRED_TYPE_NO left_value right_value left right
              (vm_trace s) [EvToNumber left; EvToNumber right]
              (ecma_make_number_value (number_add num_left num_right)) rt4
        end
    end.
Proof.
  intros Hl Hle Hr Hre Hstr Hbig. destruct s as [rt0 tr0]; cbn [vm_rt vm_trace] in *.
  vm_operands Hl Hr.
  all: vm_run.
  all: destruct (to_number_rt left rt2) as [[num_left |] rt3];
    [destruct (to_number_rt right rt3) as [[num_right |] rt4] |].
  all: vm_run; reflexivity.
Qed.

Lemma opfunc_unary_operation_number_path value is_plus s left rt1 :
  coerced ECMA_PREFERRED_TYPE_NUMBER value (vm_rt s) = (left, rt1) ->
  ECMA_IS_VALUE_ERROR left = false ->
  ecma_is_value_bigint left = false ->
  opfunc_unary_operation value is_plus s
  = match to_number_rt left rt1 with
    | (None, rt2) =>
        (ECMA_VALUE_ERROR,
         state (release value left rt2)
           (vm_trace s
            ++ coercion_events ECMA_PREFERRED_TYPE_NUMBER value left
            ++ [EvToNumber left]
            ++ release_events value left))
    | (Some num_var_value, rt2) =>
        (ecma_make_number_value
           (if is_plus then num_var_value else number_neg num_var_value),
         state (release value left rt2)
           (vm_trace s
            ++ coercion_events ECMA_PREFERRED_TYPE_NUMBER value left
            ++ [EvToNumber left]
            ++ release_events value left))
    end.
Proof.
  intros Hl Hle Hbig. destruct s as [rt0 tr0]; cbn [vm_rt vm_trace] in *.
  vm_operand Hl.
  all: vm_run.
  all: destruct (to_number_rt left _) as [[num_left |] rt3].
  all: vm_run; reflexivity.
Qed.


(** One BigInt operand and one primitive that is neither a BigInt nor a
    String: addition takes the Number path, where the conversion of the
    BigInt, or that of a Symbol before it, raises a type error. *)
Lemma opfunc_addition_mixed left_value right_value s left right rt1 rt2 :
  coerced ECMA_PREFERRED_TYPE_NO left_value (vm_rt s) = (left, rt1) ->
  coerced ECMA_PREFERRED_TYPE_NO right_value rt1 = (right, rt2) ->
  ecma_is_value_primitive left = true ->
  ecma_is_value_primitive right = true ->
  ecma_is_value_string left || ecma_is_value_string right = false ->
  xorb (ecma_is_value_bigint left) (ecma_is_value_bigint right) = true ->
  exists msg conversions,
    opfunc_addition left_value right_value s
    = finished ECMA_PREFERRED_TYPE_NO left_value right_value left right
        (vm_trace s) conversions ECMA_VALUE_ERROR
        (raise_standard_error_rt ECMA_ERROR_TYPE msg rt2)
    /\ (conversions = [EvToNumber left]
        \/ conversions = [EvToNumber left; EvToNumber right]).
Proof.
  intros Hl Hr Hlp Hrp Hstr Hx.
  pose proof (primitive_not_error left Hlp) as Hle.
  pose proof (primitive_not_error right Hrp) as Hre.
  assert (Hbig : ecma_is_value_bigint left && ecma_is_value_bigint right = false).
  { destruct (ecma_is_value_bigint left), (ecma_is_value_bigint right);
      try reflexivity; discriminate Hx. }
  rewrite (opfunc_addition_number_path left_value right_value s left right
             rt1 rt2 Hl Hle Hr Hre Hstr Hbig).
  destruct (ecma_is_value_bigint left) eqn:Hlb.
  - rewrite (to_number_rt_bigint left rt2 Hlb).
    eexists _, _. split; [reflexivity | left; reflexivity].
  - assert (Hrb : ecma_is_value_bigint right = true)
      by (destruct (ecma_is_value_bigint right); [reflexivity | discriminate Hx]).
    destruct (to_number_rt_primitive left rt2 Hlp) as [[num Hnl] | [msg Hnl]];
      rewrite Hnl.
    + rewrite (to_number_rt_bigint right rt2 Hrb).
      eexists _, _. split; [reflexivity | right; reflexivity].
    + eexists _, _. split; [reflexivity | left; reflexivity].
Qed.

(** Number operands: the handlers convert them without changing the
    runtime. *)
Lemma opfunc_addition_numbers num_left num_right s :
  opfunc_addition (ecma_make_number_value num_left)
    (ecma_make_number_value num_right) s
  = (ecma_make_number_value (number_add num_left num_right),
     state (vm_rt s)
       (vm_trace s ++ [EvToNumber (ecma_make_number_value num_left);
                       EvToNumber (ecma_make_number_value num_right)])).
Proof.
  rewrite (opfunc_addition_number_path _ _ s
             (ecma_make_number_value num_left)
             (ecma_make_number_value num_right) (vm_rt s) (vm_rt s));
    reflexivity.
Qed.

Lemma opfunc_unary_operation_number num is_plus s :
  opfunc_unary_operation (ecma_make_number_value num) is_plus s
  = (ecma_make_number_value (if is_plus then num else number_neg num),
     state (vm_rt s) (vm_trace s ++ [EvToNumber (ecma_make_number_value num)])).
Proof.
  rewrite (opfunc_unary_operation_number_path _ is_plus s
             (ecma_make_number_value num) (vm_rt s));
    reflexivity.
Qed.

(** Taking a reference of a BigInt primitive and giving one back leaves the
    runtime as it was. *)
Lemma free_after_ref value_p prim rt :
  rt_heap rt !! value_p = Some prim ->
  1 <= refs prim ->
  free_value_rt (ecma_make_bigint_value value_p)
    (ref_extended_primitive_rt value_p rt) = rt.
Proof.
  intros Hheap Hrefs. unfold ecma_extended_primitive_ptr in *.
  destruct rt as [world heap error]. cbn [rt_heap] in Hheap.
  cbn [free_value_rt]. unfold ecma_deref_bigint, ref_extended_primitive_rt.
  unfold set_heap. cbn [rt_heap rt_world rt_error].
  unfold ecma_extended_primitive_ptr in *.
  rewrite lookup_alter_eq, Hheap. cbn [fmap option_fmap option_map].
  cbn [add_refs refs].
  destruct (refs prim + 1 <=? 1) eqn:Hle; [apply Z.leb_le in Hle; lia |].
  f_equal. apply map_eq. intros i.
  destruct (decide (i = value_p)) as [-> | Hne].
  - rewrite lookup_insert_eq, Hheap. f_equal.
    destruct prim as [r sign digits]. unfold add_refs.
    cbn [refs bigint_sign bigint_digits]. f_equal. lia.
  - rewrite lookup_insert_ne, lookup_alter_ne by congruence. reflexivity.
Qed.

(** Unary minus on an Object whose default value is a BigInt of size
    zero. *)
Lemma opfunc_unary_minus_zero_bigint_object obj_p s left_p prim rt1 :
  object_default_value obj_p ECMA_PREFERRED_TYPE_NUMBER (vm_rt s)
    = (ecma_make_bigint_value left_p, rt1) ->
  rt_heap rt1 !! left_p = Some prim ->
  ECMA_BIGINT_GET_SIZE prim = 0 ->
  opfunc_unary_operation (ecma_make_object_value obj_p) false s
  = (ecma_make_bigint_value left_p,
     state
       (free_value_rt (ecma_make_bigint_value left_p)
          (ref_extended_primitive_rt left_p rt1))
       (vm_trace s
        ++ [EvDefaultValue obj_p ECMA_PREFERRED_TYPE_NUMBER
              (ecma_make_bigint_value left_p);
            EvRefExtendedPrimitive left_p;
            EvFreeValue (ecma_make_bigint_value left_p)])).
Proof.
  intros Hl Hheap Hsize.
  destruct s as [rt0 tr0]; cbn [vm_rt vm_trace] in *.
  vm_run. unfold heap_get. rewrite Hheap. cbn [from_option id].
  rewrite Hsize. change (0 =? 0) with true. cbv beta iota.
  vm_run. reflexivity.
Qed.


(** *** What the handlers ask of their collaborators *)

(** The tests a path went through, read as facts about the operands. *)
Ltac vm_bigints :=
  repeat match goal with
         | E : negb _ || negb _ = false |- _ =>
             apply orb_false_elim in E; destruct E
         | E : negb _ = false |- _ => apply negb_false_iff in E
         | E : _ && _ = true |- _ => apply andb_prop in E; destruct E
         end.

Ltac vm_engine :=
  eexists; split;
  [ cbn [snd vm_trace]; first [ reflexivity | symmetry; apply app_nil_r ]
  | unfold engine_called_properly, engine_calls, converted_to_number;
    cbn [omap list_omap app engine_operands length];
    split; [lia | split; [| first [left; reflexivity | right; reflexivity]]];
    first [ apply Forall_nil_2
          | apply Forall_cons; split; [| apply Forall_nil_2];
            vm_bigints; split; assumption ] ].


Lemma do_number_arithmetic_engine_calls op left_value right_value s :
  exists events,
    vm_trace (do_number_arithmetic op left_value right_value s).2
    = vm_trace s ++ events
    /\ engine_called_properly events.
Proof.
  destruct s as [rt0 tr0]; cbn [vm_rt vm_trace] in *.
  vm_paths. all: vm_engine.
Qed.

Lemma opfunc_addition_engine_calls left_value right_value s :
  exists events,
    vm_trace (opfunc_addition left_value right_value s).2 = vm_trace s ++ events
    /\ engine_called_properly events.
Proof.
  destruct s as [rt0 tr0]; cbn [vm_rt vm_trace] in *.
  vm_paths. all: vm_engine.
Qed.

Ltac vm_hints :=
  eexists; split;
  [ cbn [snd vm_trace]; first [ reflexivity | symmetry; apply app_nil_r ]
  | unfold coercion_hints; cbn [omap list_omap app length];
    split; [lia | repeat (apply Forall_cons; split; [reflexivity |]);
                  apply Forall_nil_2 ] ].

Lemma do_number_arithmetic_hints op left_value right_value s :
  exists events,
    vm_trace (do_number_arithmetic op left_value right_value s).2
    = vm_trace s ++ events
    /\ (length (coercion_hints events) <= 2)%nat
    /\ Forall (eq ECMA_PREFERRED_TYPE_NUMBER) (coercion_hints events).
Proof.
  destruct s as [rt0 tr0]; cbn [vm_rt vm_trace] in *.
  vm_paths. all: vm_hints.
Qed.

Lemma opfunc_addition_hints left_value right_value s :
  exists events,
    vm_trace (opfunc_addition left_value right_value s).2 = vm_trace s ++ events
    /\ (length (coercion_hints events) <= 2)%nat
    /\ Forall (eq ECMA_PREFERRED_TYPE_NO) (coercion_hints events).
Proof.
  destruct s as [rt0 tr0]; cbn [vm_rt vm_trace] in *.
  vm_paths. all: vm_hints.
Qed.

Lemma opfunc_unary_operation_hints value is_plus s :
  exists events,
    vm_trace (opfunc_unary_operation value is_plus s).2 = vm_trace s ++ events
    /\ (length (coercion_hints events) <= 1)%nat
    /\ Forall (eq ECMA_PREFERRED_TYPE_NUMBER) (coercion_hints events).
Proof.
  destruct s as [rt0 tr0]; cbn [vm_rt vm_trace] in *.
  vm_paths. all: vm_hints.
Qed.

(** *** The values the handlers return *)

(** The kind of value a path returns. *)
Ltac vm_error_value :=
  repeat match goal with
         | E : ECMA_IS_VALUE_ERROR ?v = true |- _ =>
             is_var v; destruct v; try discriminate E; clear E
         end.

Ltac vm_kind :=
  first [ reflexivity
        | eexists; reflexivity
        | unfold engine_calls; cbn [omap list_omap app engine_operands];
          discriminate ].

Ltac vm_kinds := first [ vm_kind | left; vm_kind | right; vm_kinds ].

Ltac vm_result :=
  vm_error_value; eexists; split;
  [ cbn [snd vm_trace]; first [ reflexivity | symmetry; apply app_nil_r ]
  | cbn [fst]; vm_kinds ].

Lemma do_number_arithmetic_result op left_value right_value s :
  exists events,
    vm_trace (do_number_arithmetic op left_value right_value s).2
    = vm_trace s ++ events
    /\ ((do_number_arithmetic op left_value right_value s).1 = ECMA_VALUE_ERROR
        \/ (exists num,
              (do_number_arithmetic op left_value right_value s).1
              = ecma_make_number_value num)
        \/ engine_calls events <> []).
Proof.
  destruct s as [rt0 tr0]; cbn [vm_rt vm_trace] in *.
  vm_paths. all: vm_result.
Qed.

Lemma opfunc_addition_result left_value right_value s :
  exists events,
    vm_trace (opfunc_addition left_value right_value s).2 = vm_trace s ++ events
    /\ ((opfunc_addition left_value right_value s).1 = ECMA_VALUE_ERROR
        \/ (exists num,
              (opfunc_addition left_value right_value s).1
              = ecma_make_number_value num)
        \/ (exists string_p,
              (opfunc_addition left_value right_value s).1
              = ecma_make_string_value string_p)
        \/ engine_calls events <> []).
Proof.
  destruct s as [rt0 tr0]; cbn [vm_rt vm_trace] in *.
  vm_paths. all: vm_result.
Qed.

Lemma opfunc_unary_plus_result value s :
  (opfunc_unary_operation value true s).1 = ECMA_VALUE_ERROR
  \/ (exists num,
        (opfunc_unary_operation value true s).1 = ecma_make_number_value num).
Proof.
  destruct s as [rt0 tr0]; cbn [vm_rt vm_trace] in *.
  vm_paths. all: vm_error_value; cbn [fst]; vm_kinds.
Qed.
End Paths.
End PathFacts.

(** ** The dispatcher's contract *)

Import Opcodes SampleRuntime.

(** C1. A BigInt operand paired with a primitive that is not a BigInt
    (a String included), given as such or as the default value of an
    Object, makes [do_number_arithmetic] return the error signal with a
    TypeError pending, for every operation. The operands go the Number
    path: between the to-primitive steps and the releases, the to-number
    conversions are the only calls made (the BigInt engine is not called
    and no number is computed), and the conversion of the BigInt, or of a
    Symbol before it, raises the TypeError. *)
Theorem C1_mixed_bigint_operands_raise_type_error
    {W : Type} `{!Collaborators W} (op : number_arithmetic_op)
    (left_value right_value : ecma_value_t) (s : vm_state W)
    (left right : ecma_value_t) (rt1 rt2 : runtime W) :
  coerced ECMA_PREFERRED_TYPE_NUMBER left_value (vm_rt s) = (left, rt1) ->
  coerced ECMA_PREFERRED_TYPE_NUMBER right_value rt1 = (right, rt2) ->
  ecma_is_value_primitive left = true ->
  ecma_is_value_primitive right = true ->
  xorb (ecma_is_value_bigint left) (ecma_is_value_bigint right) = true ->
  let run := do_number_arithmetic op left_value right_value s in
  run.1 = ECMA_VALUE_ERROR
  /\ (exists msg,
        pending_error run = Some (ecma_standard_error ECMA_ERROR_TYPE msg)
        /\ vm_rt run.2
           = release right_value right
               (release left_value left
                  (raise_standard_error_rt ECMA_ERROR_TYPE msg rt2)))
  /\ (exists conversions,
        vm_trace run.2
        = vm_trace s
          ++ coercion_events ECMA_PREFERRED_TYPE_NUMBER left_value left
          ++ coercion_events ECMA_PREFERRED_TYPE_NUMBER right_value right
          ++ conversions
          ++ release_events left_value left
          ++ release_events right_value right
        /\ (conversions = [EvToNumber left]
            \/ conversions = [EvToNumber left; EvToNumber right])).
Proof.
  intros Hl Hr Hlp Hrp Hx run.
  destruct (OpcodesFacts.do_number_arithmetic_mixed op left_value right_value s
              left right rt1 rt2 Hl Hr Hlp Hrp Hx)
    as (msg & conversions & Hrun & Hconversions).
  subst run. rewrite Hrun. unfold finished, pending_error, state.
  cbn [fst snd vm_rt vm_trace].
  split; [reflexivity | split].
  - exists msg. split; [| reflexivity].
    rewrite !OpcodesFacts.rt_error_release. reflexivity.
  - exists conversions. split; [reflexivity | exact Hconversions].
Qed.

(** Object 2 gives the BigInt 0n: 0n - 2 is a type error. *)
Lemma C1_mixed_bigint_operands_raise_type_error_witness :
  let s := sample_state in
  let left_value := ecma_make_object_value 2%N in
  let right_value := ecma_make_number_value (ecma_number_of_Z 2) in
  let left := ecma_make_bigint_value 0%N in
  let rt1 := (coerced ECMA_PREFERRED_TYPE_NUMBER left_value (vm_rt s)).2 in
  let run :=
    do_number_arithmetic NUMBER_ARITHMETIC_SUBTRACTION left_value right_value s in
  run.1 = ECMA_VALUE_ERROR
  /\ (exists msg,
        pending_error run = Some (ecma_standard_error ECMA_ERROR_TYPE msg)
        /\ vm_rt run.2
           = release right_value right_value
               (release left_value left
                  (raise_standard_error_rt ECMA_ERROR_TYPE msg rt1)))
  /\ (exists conversions,
        vm_trace run.2
        = vm_trace s
          ++ coercion_events ECMA_PREFERRED_TYPE_NUMBER left_value left
          ++ coercion_events ECMA_PREFERRED_TYPE_NUMBER right_value right_value
          ++ conversions
          ++ release_events left_value left
          ++ release_events right_value right_value
        /\ (conversions = [EvToNumber left]
            \/ conversions = [EvToNumber left; EvToNumber right_value])).
Proof.
  intros s left_value right_value left rt1.
  apply (C1_mixed_bigint_operands_raise_type_error
           NUMBER_ARITHMETIC_SUBTRACTION left_value right_value s
           left right_value rt1 rt1); reflexivity.
Defined.

(** C2. Operands that are both BigInt after the to-primitive step go to the
    BigInt engine: subtraction calls [ecma_bigint_add_sub] with the flag
    false, multiplication calls [ecma_bigint_mul], division and remainder
    call [ecma_bigint_div_mod] with [is_mod] false and true, and addition
    calls [ecma_bigint_add_sub] with the flag true. The handler's result is
    the engine's, and the call log holds that one call between the
    coercions and the releases. The arithmetic operators coerce with the
    Number hint and addition with no hint: each handler is routed by what
    its own to-primitive steps gave. *)
Theorem C2_bigint_operands_go_to_the_engine {W : Type} `{!Collaborators W} :
  (forall (left_value right_value : ecma_value_t) (s : vm_state W)
          (left_p right_p : ecma_extended_primitive_ptr) (rt1 rt2 : runtime W),
      let left := ecma_make_bigint_value left_p in
      let right := ecma_make_bigint_value right_p in
      coerced ECMA_PREFERRED_TYPE_NUMBER left_value (vm_rt s) = (left, rt1) ->
      coerced ECMA_PREFERRED_TYPE_NUMBER right_value rt1 = (right, rt2) ->
      do_number_arithmetic NUMBER_ARITHMETIC_SUBTRACTION left_value right_value s
      = (let out := bigint_add_sub left right false rt2 in
         finished ECMA_PREFERRED_TYPE_NUMBER left_value right_value left right
           (vm_trace s) [EvBigintAddSub left right false] out.1 out.2)
      /\ do_number_arithmetic NUMBER_ARITHMETIC_MULTIPLICATION
           left_value right_value s
         = (let out := bigint_mul left right rt2 in
            finished ECMA_PREFERRED_TYPE_NUMBER left_value right_value left right
              (vm_trace s) [EvBigintMul left right] out.1 out.2)
      /\ do_number_arithmetic NUMBER_ARITHMETIC_DIVISION left_value right_value s
         = (let out := bigint_div_mod left right false rt2 in
            finished ECMA_PREFERRED_TYPE_NUMBER left_value right_value left right
              (vm_trace s) [EvBigintDivMod left right false] out.1 out.2)
      /\ do_number_arithmetic NUMBER_ARITHMETIC_REMAINDER left_value right_value s
         = (let out := bigint_div_mod left right true rt2 in
            finished ECMA_PREFERRED_TYPE_NUMBER left_value right_value left right
              (vm_trace s) [EvBigintDivMod left right true] out.1 out.2))
  /\ (forall (left_value right_value : ecma_value_t) (s : vm_state W)
             (left_p right_p : ecma_extended_primitive_ptr)
             (rt1 rt2 : runtime W),
      let left := ecma_make_bigint_value left_p in
      let right := ecma_make_bigint_value right_p in
      coerced ECMA_PREFERRED_TYPE_NO left_value (vm_rt s) = (left, rt1) ->
      coerced ECMA_PREFERRED_TYPE_NO right_value rt1 = (right, rt2) ->
      opfunc_addition left_value right_value s
      = (let out := bigint_add_sub left right true rt2 in
         finished ECMA_PREFERRED_TYPE_NO left_value right_value left right
           (vm_trace s) [EvBigintAddSub left right true] out.1 out.2)).
Proof.
  split.
  - intros left_value right_value s left_p right_p rt1 rt2 left right Hl Hr.
    repeat split.
    + apply (OpcodesFacts.do_number_arithmetic_bigint
               NUMBER_ARITHMETIC_SUBTRACTION _ _ _ _ _ _ _ Hl Hr).
    + apply (OpcodesFacts.do_number_arithmetic_bigint
               NUMBER_ARITHMETIC_MULTIPLICATION _ _ _ _ _ _ _ Hl Hr).
    + apply (OpcodesFacts.do_number_arithmetic_bigint
               NUMBER_ARITHMETIC_DIVISION _ _ _ _ _ _ _ Hl Hr).
    + apply (OpcodesFacts.do_number_arithmetic_bigint
               NUMBER_ARITHMETIC_REMAINDER _ _ _ _ _ _ _ Hl Hr).
  - intros left_value right_value s left_p right_p rt1 rt2 left right Hl Hr.
    apply (OpcodesFacts.opfunc_addition_bigint _ _ _ _ _ _ _ Hl Hr).
Qed.

(** Object 2 gives the BigInt 0n and primitive 1 is 5n: their difference
    and their sum are the engine's. *)
Lemma C2_bigint_operands_go_to_the_engine_witness :
  let s := sample_state in
  let left_value := ecma_make_object_value 2%N in
  let right_value := ecma_make_bigint_value 1%N in
  let left := ecma_make_bigint_value 0%N in
  let right := ecma_make_bigint_value 1%N in
  let rt1 := (coerced ECMA_PREFERRED_TYPE_NUMBER left_value (vm_rt s)).2 in
  let rt1' := (coerced ECMA_PREFERRED_TYPE_NO left_value (vm_rt s)).2 in
  do_number_arithmetic NUMBER_ARITHMETIC_SUBTRACTION left_value right_value s
  = (let out := bigint_add_sub left right false rt1 in
     finished ECMA_PREFERRED_TYPE_NUMBER left_value right_value left right
       (vm_trace s) [EvBigintAddSub left right false] out.1 out.2)
  /\ opfunc_addition left_value right_value s
     = (let out := bigint_add_sub left right true rt1' in
        finished ECMA_PREFERRED_TYPE_NO left_value right_value left right
          (vm_trace s) [EvBigintAddSub left right true] out.1 out.2).
Proof.
  intros s left_value right_value left right rt1 rt1'. split.
  - refine (proj1 (proj1 (@C2_bigint_operands_go_to_the_engine
                            world sample_collaborators)
                     left_value right_value s 0%N 1%N rt1 rt1 _ _));
      reflexivity.
  - refine (proj2 (@C2_bigint_operands_go_to_the_engine
                     world sample_collaborators)
              left_value right_value s 0%N 1%N rt1' rt1' _ _);
      reflexivity.
Defined.

(** C3. The to-primitive steps of the three handlers. The left operand is
    coerced first; if that gives the error signal, the handler returns it
    at once: the call log holds this one call, so the right operand was not
    coerced, and the runtime is as the failed coercion left it. If the left
    step succeeded and the right operand's coercion gives the error
    signal, the left intermediate is released, if there is one, and then
    the error is returned. And on every path through a handler, whatever
    the operands and the collaborators do, the values released are exactly
    the intermediates that the to-primitive steps produced, each one
    once. *)
Theorem C3_coercion_order_and_release {W : Type} `{!Collaborators W} :
  (forall op obj_p right_value (s : vm_state W) rt1,
      object_default_value obj_p ECMA_PREFERRED_TYPE_NUMBER (vm_rt s)
        = (ECMA_VALUE_ERROR, rt1) ->
      do_number_arithmetic op (ecma_make_object_value obj_p) right_value s
      = (ECMA_VALUE_ERROR,
         state rt1
           (vm_trace s
            ++ [EvDefaultValue obj_p ECMA_PREFERRED_TYPE_NUMBER ECMA_VALUE_ERROR])))
  /\ (forall obj_p right_value (s : vm_state W) rt1,
      object_default_value obj_p ECMA_PREFERRED_TYPE_NO (vm_rt s)
        = (ECMA_VALUE_ERROR, rt1) ->
      opfunc_addition (ecma_make_object_value obj_p) right_value s
      = (ECMA_VALUE_ERROR,
         state rt1
           (vm_trace s
            ++ [EvDefaultValue obj_p ECMA_PREFERRED_TYPE_NO ECMA_VALUE_ERROR])))
  /\ (forall obj_p is_plus (s : vm_state W) rt1,
      object_default_value obj_p ECMA_PREFERRED_TYPE_NUMBER (vm_rt s)
        = (ECMA_VALUE_ERROR, rt1) ->
      opfunc_unary_operation (ecma_make_object_value obj_p) is_plus s
      = (ECMA_VALUE_ERROR,
         state rt1
           (vm_trace s
            ++ [EvDefaultValue obj_p ECMA_PREFERRED_TYPE_NUMBER ECMA_VALUE_ERROR])))
  /\ (forall op left_value obj_p (s : vm_state W) left rt1 rt2,
      coerced ECMA_PREFERRED_TYPE_NUMBER left_value (vm_rt s) = (left, rt1) ->
      ECMA_IS_VALUE_ERROR left = false ->
      object_default_value obj_p ECMA_PREFERRED_TYPE_NUMBER rt1
        = (ECMA_VALUE_ERROR, rt2) ->
      do_number_arithmetic op left_value (ecma_make_object_value obj_p) s
      = (ECMA_VALUE_ERROR,
         state (release left_value left rt2)
           (vm_trace s
            ++ coercion_events ECMA_PREFERRED_TYPE_NUMBER left_value left
            ++ [EvDefaultValue obj_p ECMA_PREFERRED_TYPE_NUMBER ECMA_VALUE_ERROR]
            ++ release_events left_value left)))
  /\ (forall left_value obj_p (s : vm_state W) left rt1 rt2,
      coerced ECMA_PREFERRED_TYPE_NO left_value (vm_rt s) = (left, rt1) ->
      ECMA_IS_VALUE_ERROR left = false ->
      object_default_value obj_p ECMA_PREFERRED_TYPE_NO rt1
        = (ECMA_VALUE_ERROR, rt2) ->
      opfunc_addition left_value (ecma_make_object_value obj_p) s
      = (ECMA_VALUE_ERROR,
         state (release left_value left rt2)
           (vm_trace s
            ++ coercion_events ECMA_PREFERRED_TYPE_NO left_value left
            ++ [EvDefaultValue obj_p ECMA_PREFERRED_TYPE_NO ECMA_VALUE_ERROR]
            ++ release_events left_value left)))
  /\ (forall op left_value right_value (s : vm_state W),
      releases_what_it_coerced s
        (do_number_arithmetic op left_value right_value s))
  /\ (forall left_value right_value (s : vm_state W),
      releases_what_it_coerced s (opfunc_addition left_value right_value s))
  /\ (forall value is_plus (s : vm_state W),
      releases_what_it_coerced s (opfunc_unary_operation value is_plus s)).
Proof.
  repeat split.
  - apply OpcodesFacts.do_number_arithmetic_left_fails.
  - apply OpcodesFacts.opfunc_addition_left_fails.
  - apply OpcodesFacts.opfunc_unary_operation_fails.
  - apply OpcodesFacts.do_number_arithmetic_right_fails.
  - apply OpcodesFacts.opfunc_addition_right_fails.
  - apply OpcodesFacts.do_number_arithmetic_releases.
  - apply OpcodesFacts.opfunc_addition_releases.
  - apply OpcodesFacts.opfunc_unary_operation_releases.
Qed.

(** Object 0 gives the number 7 and object 1 throws: the 7 is released
    once the second coercion has failed. *)
Lemma C3_coercion_order_and_release_witness :
  let s := sample_state in
  let seven := ecma_make_number_value (ecma_number_of_Z 7) in
  let rt1 :=
    (object_default_value 0%N ECMA_PREFERRED_TYPE_NUMBER (vm_rt s)).2 in
  let rt2 := (object_default_value 1%N ECMA_PREFERRED_TYPE_NUMBER rt1).2 in
  do_number_arithmetic NUMBER_ARITHMETIC_SUBTRACTION
    (ecma_make_object_value 0%N) (ecma_make_object_value 1%N) s
  = (ECMA_VALUE_ERROR,
     state rt2
       (vm_trace s
        ++ [EvDefaultValue 0%N ECMA_PREFERRED_TYPE_NUMBER seven]
        ++ [EvDefaultValue 1%N ECMA_PREFERRED_TYPE_NUMBER ECMA_VALUE_ERROR]
        ++ [EvFreeValue seven])).
Proof.
  intros s seven rt1 rt2.
  apply (proj1 (proj2 (proj2 (proj2 (@C3_coercion_order_and_release
                                       world sample_collaborators))))
           NUMBER_ARITHMETIC_SUBTRACTION (ecma_make_object_value 0%N) 1%N
           s seven rt1 rt2); reflexivity.
Defined.

(** C4. Addition with a String among the coerced operands: both operands
    are converted to String, left first, and the result is the
    concatenation of the two strings as a String value. If the left
    conversion fails the error signal is returned with the coerced
    operands released; if the right one fails, the string already built for
    the left operand is released as well. The error that the failed
    conversion left pending is the one that is propagated. For example,
    with a number-to-string conversion that prints 5.0 as "5",
    adding the string "x" and the number 5.0 gives the string "x5". *)
Theorem C4_addition_concatenates_strings {W : Type} `{!Collaborators W} :
  (forall left_value right_value (s : vm_state W) left right rt1 rt2,
      coerced ECMA_PREFERRED_TYPE_NO left_value (vm_rt s) = (left, rt1) ->
      ECMA_IS_VALUE_ERROR left = false ->
      coerced ECMA_PREFERRED_TYPE_NO right_value rt1 = (right, rt2) ->
      ECMA_IS_VALUE_ERROR right = false ->
      ecma_is_value_string left || ecma_is_value_string right = true ->
      let run := opfunc_addition left_value right_value s in
      (forall string1 rt3 string2 rt4,
          to_string_rt left rt2 = (Some string1, rt3) ->
          to_string_rt right rt3 = (Some string2, rt4) ->
          run = finished ECMA_PREFERRED_TYPE_NO left_value right_value left right
                  (vm_trace s)
                  [EvToString left (Some string1);
                   EvToString right (Some string2);
                   EvConcatStrings string1 string2;
                   EvDerefString string2]
                  (ecma_make_string_value (string1 +:+ string2)) rt4)
      /\ (forall rt3,
          to_string_rt left rt2 = (None, rt3) ->
          run = (ECMA_VALUE_ERROR,
                 state (release right_value right (release left_value left rt3))
                   (vm_trace s
                    ++ coercion_events ECMA_PREFERRED_TYPE_NO left_value left
                    ++ coercion_events ECMA_PREFERRED_TYPE_NO right_value right
                    ++ [EvToString left None]
                    ++ release_events left_value left
                    ++ release_events right_value right))
          /\ pending_error run = rt_error rt3)
      /\ (forall string1 rt3 rt4,
          to_string_rt left rt2 = (Some string1, rt3) ->
          to_string_rt right rt3 = (None, rt4) ->
          run = (ECMA_VALUE_ERROR,
                 state (release left_value left (release right_value right rt4))
                   (vm_trace s
                    ++ coercion_events ECMA_PREFERRED_TYPE_NO left_value left
                    ++ coercion_events ECMA_PREFERRED_TYPE_NO right_value right
                    ++ [EvToString left (Some string1); EvToString right None]
                    ++ release_events right_value right
                    ++ release_events left_value left
                    ++ [EvDerefString string1]))
          /\ pending_error run = rt_error rt4))
  /\ (forall (s : vm_state W),
      ecma_number_to_string (ecma_number_of_Z 5) = "5"%string ->
      (opfunc_addition (ecma_make_string_value "x")
         (ecma_make_number_value (ecma_number_of_Z 5)) s).1
      = ecma_make_string_value "x5").
Proof.
  split.
  - intros left_value right_value s left right rt1 rt2 Hl Hle Hr Hre Hstr run.
    pose proof (OpcodesFacts.opfunc_addition_string left_value right_value s
                  left right rt1 rt2 Hl Hle Hr Hre Hstr) as Hrun.
    fold run in Hrun. split; [| split].
    + intros string1 rt3 string2 rt4 H1 H2. rewrite Hrun, H1, H2. reflexivity.
    + intros rt3 H1. rewrite Hrun, H1. split; [reflexivity |].
      unfold pending_error, state. cbn [snd vm_rt].
      rewrite !OpcodesFacts.rt_error_release. reflexivity.
    + intros string1 rt3 rt4 H1 H2. rewrite Hrun, H1, H2.
      split; [reflexivity |].
      unfold pending_error, state. cbn [snd vm_rt].
      rewrite !OpcodesFacts.rt_error_release. reflexivity.
  - intros s Hfive.
    rewrite (OpcodesFacts.opfunc_addition_string _ _ s
               (ecma_make_string_value "x")
               (ecma_make_number_value (ecma_number_of_Z 5))
               (vm_rt s) (vm_rt s)); try reflexivity.
    cbn [to_string_rt]. rewrite Hfive. reflexivity.
Qed.

Lemma C4_addition_concatenates_strings_witness :
  (opfunc_addition (ecma_make_string_value "x")
     (ecma_make_number_value (ecma_number_of_Z 5)) sample_state).1
  = ecma_make_string_value "x5".
Proof.
  apply (proj2 (@C4_addition_concatenates_strings world sample_collaborators)
           sample_state).
  reflexivity.
Defined.

(** C5. Operands that are not BigInt after the to-primitive step are both
    converted to Number, left first, and the result is the Number value of
    the double arithmetic: [a - b], [a * b], [a / b], the remainder, or the
    power. On Number operands the conversions change nothing and raise
    nothing: a division by zero is no error. A finite non-zero number
    divided by a zero is an infinity whose sign is the XOR of the signs,
    zero divided by zero is NaN, and a remainder by zero is NaN. So 1.0 / 0.0
    is +Infinity and 5.0 % 0.0 is NaN. *)
Theorem C5_number_operands_use_double_arithmetic {W : Type} `{!Collaborators W} :
  (forall op left_value right_value (s : vm_state W)
          left right rt1 rt2 num_left num_right rt3 rt4,
      coerced ECMA_PREFERRED_TYPE_NUMBER left_value (vm_rt s) = (left, rt1) ->
      ECMA_IS_VALUE_ERROR left = false ->
      coerced ECMA_PREFERRED_TYPE_NUMBER right_value rt1 = (right, rt2) ->
      ECMA_IS_VALUE_ERROR right = false ->
      ecma_is_value_bigint left = false ->
      ecma_is_value_bigint right = false ->
      to_number_rt left rt2 = (Some num_left, rt3) ->
      to_number_rt right rt3 = (Some num_right, rt4) ->
      do_number_arithmetic op left_value right_value s
      = finished ECMA_PREFERRED_TYPE_NUMBER left_value right_value left right
          (vm_trace s) [EvToNumber left; EvToNumber right]
          (ecma_make_number_value (number_arithmetic op num_left num_right))
          rt4)
  /\ (forall op num_left num_right (s : vm_state W),
      do_number_arithmetic op (ecma_make_number_value num_left)
        (ecma_make_number_value num_right) s
      = (ecma_make_number_value (number_arithmetic op num_left num_right),
         state (vm_rt s)
           (vm_trace s ++ [EvToNumber (ecma_make_number_value num_left);
                           EvToNumber (ecma_make_number_value num_right)])))
  /\ (forall a b,
      number_arithmetic NUMBER_ARITHMETIC_SUBTRACTION a b = SFsub prec emax a b
      /\ number_arithmetic NUMBER_ARITHMETIC_MULTIPLICATION a b
         = SFmul prec emax a b
      /\ number_arithmetic NUMBER_ARITHMETIC_DIVISION a b = SFdiv prec emax a b
      /\ number_arithmetic NUMBER_ARITHMETIC_REMAINDER a b
         = ecma_op_number_remainder a b)
  /\ (forall sign m e sign',
      number_div (S754_finite sign m e) (S754_zero sign')
      = ecma_number_make_infinity (xorb sign sign'))
  /\ (forall sign sign',
      number_div (S754_zero sign) (S754_zero sign') = ecma_number_make_nan)
  /\ (forall a sign,
      ecma_op_number_remainder a (S754_zero sign) = ecma_number_make_nan)
  /\ (forall (s : vm_state W),
      (do_number_arithmetic NUMBER_ARITHMETIC_DIVISION
         (ecma_make_number_value (ecma_number_of_Z 1))
         (ecma_make_number_value (ecma_number_of_Z 0)) s).1
      = ecma_make_number_value (ecma_number_make_infinity false)
      /\ (do_number_arithmetic NUMBER_ARITHMETIC_REMAINDER
            (ecma_make_number_value (ecma_number_of_Z 5))
            (ecma_make_number_value (ecma_number_of_Z 0)) s).1
         = ecma_make_number_value ecma_number_make_nan).
Proof.
  split; [| split; [| split; [| split; [| split; [| split]]]]].
  - intros. eapply OpcodesFacts.do_number_arithmetic_number; eassumption.
  - apply OpcodesFacts.do_number_arithmetic_numbers.
  - intros a b. repeat split.
  - reflexivity.
  - reflexivity.
  - intros a sign. destruct a; reflexivity.
  - intros s. rewrite !OpcodesFacts.do_number_arithmetic_numbers.
    split; reflexivity.
Qed.

Lemma C5_number_operands_use_double_arithmetic_witness :
  let s := sample_state in
  let seven := ecma_make_number_value (ecma_number_of_Z 7) in
  let two := ecma_make_number_value (ecma_number_of_Z 2) in
  let rt1 :=
    (object_default_value 0%N ECMA_PREFERRED_TYPE_NUMBER (vm_rt s)).2 in
  do_number_arithmetic NUMBER_ARITHMETIC_SUBTRACTION
    (ecma_make_object_value 0%N) two s
  = finished ECMA_PREFERRED_TYPE_NUMBER (ecma_make_object_value 0%N) two
      seven two (vm_trace s) [EvToNumber seven; EvToNumber two]
      (ecma_make_number_value (ecma_number_of_Z 5)) rt1.
Proof.
  intros s seven two rt1.
  apply (proj1 (@C5_number_operands_use_double_arithmetic
                  world sample_collaborators)
           NUMBER_ARITHMETIC_SUBTRACTION (ecma_make_object_value 0%N) two s
           seven two rt1 rt1 (ecma_number_of_Z 7) (ecma_number_of_Z 2) rt1 rt1);
    reflexivity.
Defined.

(** C6, as the code has it. With two BigInt operands, exponentiation calls
    no engine operation and computes nothing: it raises the common error
    (class [ECMA_ERROR_COMMON], the plain Error of the language, not the
    TypeError) with the message "Not supported BigInt operation", returns
    the error signal and releases the coerced operands. *)
Theorem C6_bigint_exponentiation_raises_common_error
    {W : Type} `{!Collaborators W}
    (left_value right_value : ecma_value_t) (s : vm_state W)
    (left_p right_p : ecma_extended_primitive_ptr) (rt1 rt2 : runtime W) :
  let left := ecma_make_bigint_value left_p in
  let right := ecma_make_bigint_value right_p in
  coerced ECMA_PREFERRED_TYPE_NUMBER left_value (vm_rt s) = (left, rt1) ->
  coerced ECMA_PREFERRED_TYPE_NUMBER right_value rt1 = (right, rt2) ->
  let run :=
    do_number_arithmetic NUMBER_ARITHMETIC_EXPONENTIATION left_value right_value s in
  run = finished ECMA_PREFERRED_TYPE_NUMBER left_value right_value left right
          (vm_trace s) [] ECMA_VALUE_ERROR
          (raise_standard_error_rt ECMA_ERROR_COMMON
             "Not supported BigInt operation" rt2)
  /\ run.1 = ECMA_VALUE_ERROR
  /\ pending_error run
     = Some (ecma_standard_error ECMA_ERROR_COMMON "Not supported BigInt operation").
Proof.
  intros left right Hl Hr run.
  pose proof (OpcodesFacts.do_number_arithmetic_bigint
                NUMBER_ARITHMETIC_EXPONENTIATION _ _ _ _ _ _ _ Hl Hr) as Hrun.
  cbn iota in Hrun. fold run in Hrun. rewrite Hrun.
  split; [reflexivity | split; [reflexivity |]].
  unfold pending_error, finished, state. cbn [snd vm_rt].
  rewrite !OpcodesFacts.rt_error_release. reflexivity.
Qed.

Lemma C6_bigint_exponentiation_raises_common_error_witness :
  let run :=
    do_number_arithmetic NUMBER_ARITHMETIC_EXPONENTIATION
      (ecma_make_bigint_value 1%N) (ecma_make_bigint_value 2%N) sample_state in
  run = finished ECMA_PREFERRED_TYPE_NUMBER
          (ecma_make_bigint_value 1%N) (ecma_make_bigint_value 2%N)
          (ecma_make_bigint_value 1%N) (ecma_make_bigint_value 2%N)
          (vm_trace sample_state) [] ECMA_VALUE_ERROR
          (raise_standard_error_rt ECMA_ERROR_COMMON
             "Not supported BigInt operation" (vm_rt sample_state))
  /\ run.1 = ECMA_VALUE_ERROR
  /\ pending_error run
     = Some (ecma_standard_error ECMA_ERROR_COMMON "Not supported BigInt operation").
Proof.
  apply (C6_bigint_exponentiation_raises_common_error
           (ecma_make_bigint_value 1%N) (ecma_make_bigint_value 2%N)
           sample_state 1%N 2%N (vm_rt sample_state) (vm_rt sample_state));
    reflexivity.
Defined.

(** C6, as the claim has it, fails: 5n ** -7n leaves an error of the common
    class pending, which is not a TypeError. *)
Lemma C6_bigint_exponentiation_not_a_type_error :
  let run :=
    do_number_arithmetic NUMBER_ARITHMETIC_EXPONENTIATION
      (ecma_make_bigint_value 1%N) (ecma_make_bigint_value 2%N) sample_state in
  run.1 = ECMA_VALUE_ERROR
  /\ ~ (exists msg,
          pending_error run = Some (ecma_standard_error ECMA_ERROR_TYPE msg)).
Proof.
  split; [reflexivity |].
  intros [msg Hmsg]. vm_compute in Hmsg. discriminate Hmsg.
Qed.

(** C7. Unary plus on a BigInt, given as such or as the default value of an
    Object, raises the TypeError "Unary operation plus is not allowed for
    BigInt numbers" and returns the error signal; no engine operation is
    called and the coerced operand is released. *)
Theorem C7_unary_plus_on_bigint_raises_type_error
    {W : Type} `{!Collaborators W} (value : ecma_value_t) (s : vm_state W)
    (left_p : ecma_extended_primitive_ptr) (rt1 : runtime W) :
  let left := ecma_make_bigint_value left_p in
  coerced ECMA_PREFERRED_TYPE_NUMBER value (vm_rt s) = (left, rt1) ->
  let run := opfunc_unary_operation value true s in
  run.1 = ECMA_VALUE_ERROR
  /\ pending_error run
     = Some (ecma_standard_error ECMA_ERROR_TYPE
               "Unary operation plus is not allowed for BigInt numbers")
  /\ vm_trace run.2
     = vm_trace s
       ++ coercion_events ECMA_PREFERRED_TYPE_NUMBER value left
       ++ release_events value left
  /\ vm_rt run.2
     = release value left
         (raise_standard_error_rt ECMA_ERROR_TYPE
            "Unary operation plus is not allowed for BigInt numbers" rt1).
Proof.
  intros left Hl run. subst run.
  rewrite (OpcodesFacts.opfunc_unary_plus_bigint value s left_p rt1 Hl).
  split; [reflexivity | split; [| split; reflexivity]].
  unfold pending_error, state. cbn [snd vm_rt].
  rewrite OpcodesFacts.rt_error_release. reflexivity.
Qed.

Lemma C7_unary_plus_on_bigint_raises_type_error_witness :
  let s := sample_state in
  let value := ecma_make_object_value 2%N in
  let left := ecma_make_bigint_value 0%N in
  let rt1 := (coerced ECMA_PREFERRED_TYPE_NUMBER value (vm_rt s)).2 in
  let run := opfunc_unary_operation value true s in
  run.1 = ECMA_VALUE_ERROR
  /\ pending_error run
     = Some (ecma_standard_error ECMA_ERROR_TYPE
               "Unary operation plus is not allowed for BigInt numbers")
  /\ vm_trace run.2
     = vm_trace s
       ++ coercion_events ECMA_PREFERRED_TYPE_NUMBER value left
       ++ release_events value left
  /\ vm_rt run.2
     = release value left
         (raise_standard_error_rt ECMA_ERROR_TYPE
            "Unary operation plus is not allowed for BigInt numbers" rt1).
Proof.
  intros s value left rt1.
  apply (C7_unary_plus_on_bigint_raises_type_error value s 0%N rt1).
  reflexivity.
Defined.



(** ** The size bound of the BigUInt engine *)

(** C9. No operation of the engine returns a magnitude of more than
    [ECMA_BIGINT_MAX_SIZE] (0x10000) bytes, whatever its operands. The
    operations that may grow a magnitude (extend, multiply by a digit, add,
    multiply, shift left), on operands with proper digits, either return
    the magnitude of the exact result, so that nothing wrapped around and
    no digit was cut off, or fail with the resource error; and they fail
    with it whenever the exact result is too large for
    [ECMA_BIGINT_MAX_SIZE] bytes. *)
Theorem C9_magnitudes_stay_within_max_size :
  BigUInt.ECMA_BIGINT_MAX_SIZE = 0x10000
  /\ (forall size, BigUInt.within_max_size (BigUInt.ecma_bigint_create size))
  /\ (forall value digit,
        BigUInt.within_max_size (BigUInt.ecma_big_uint_extend value digit))
  /\ (forall value mul add,
        BigUInt.within_max_size (BigUInt.ecma_big_uint_mul_digit value mul add))
  /\ (forall left_value right_value,
        BigUInt.within_max_size (BigUInt.ecma_big_uint_add left_value right_value))
  /\ (forall left_value right_value,
        BigUInt.within_max_size (BigUInt.ecma_big_uint_sub left_value right_value))
  /\ (forall left_value right_value,
        BigUInt.within_max_size (BigUInt.ecma_big_uint_mul left_value right_value))
  /\ (forall dividend_value divisor_value is_mod,
        BigUInt.within_max_size
          (BigUInt.ecma_big_uint_div_mod dividend_value divisor_value is_mod))
  /\ (forall left_value right_value,
        BigUInt.within_max_size
          (BigUInt.ecma_big_uint_shift_left left_value right_value))
  /\ (forall left_value right_value,
        BigUInt.within_max_size
          (BigUInt.ecma_big_uint_shift_right left_value right_value))
  /\ (forall value digit,
        BigUInt.digits_ok value -> 0 <= digit < BigUInt.digit_base ->
        BigUInt.grows_to (BigUInt.ecma_big_uint_extend value digit)
          (BigUInt.to_Z value
           + BigUInt.digit_base ^ Z.of_nat (length value) * digit))
  /\ (forall value mul add,
        BigUInt.digits_ok value ->
        0 <= mul < BigUInt.digit_base -> 0 <= add < BigUInt.digit_base ->
        BigUInt.grows_to (BigUInt.ecma_big_uint_mul_digit value mul add)
          (BigUInt.to_Z value * mul + add))
  /\ (forall left_value right_value,
        BigUInt.digits_ok left_value -> BigUInt.digits_ok right_value ->
        BigUInt.grows_to (BigUInt.ecma_big_uint_add left_value right_value)
          (BigUInt.to_Z left_value + BigUInt.to_Z right_value))
  /\ (forall left_value right_value,
        BigUInt.digits_ok left_value -> BigUInt.digits_ok right_value ->
        BigUInt.grows_to (BigUInt.ecma_big_uint_mul left_value right_value)
          (BigUInt.to_Z left_value * BigUInt.to_Z right_value))
  /\ (forall left_value right_value,
        BigUInt.digits_ok left_value -> 0 <= right_value ->
        BigUInt.grows_to (BigUInt.ecma_big_uint_shift_left left_value right_value)
          (BigUInt.to_Z left_value * 2 ^ right_value)).
Proof.
  split; [reflexivity |].
  split; [exact BigUIntFacts.create_within |].
  split; [exact BigUIntFacts.extend_within_max_size |].
  split; [exact BigUIntFacts.mul_digit_within_max_size |].
  split; [exact BigUIntFacts.add_within_max_size |].
  split; [exact BigUIntFacts.sub_within_max_size |].
  split; [exact BigUIntFacts.mul_within_max_size |].
  split; [exact BigUIntFacts.div_mod_within_max_size |].
  split; [exact BigUIntFacts.shift_left_within_max_size |].
  split; [exact BigUIntFacts.shift_right_within_max_size |].
  split; [exact BigUIntFacts.extend_grows |].
  split; [exact BigUIntFacts.mul_digit_grows |].
  split; [exact BigUIntFacts.add_grows |].
  split; [exact BigUIntFacts.mul_grows |].
  exact BigUIntFacts.shift_left_grows.
Qed.

(** The sum of 2^64 - 1 and 1 takes a third digit. *)
Lemma C9_magnitudes_stay_within_max_size_witness :
  BigUInt.grows_to
    (BigUInt.ecma_big_uint_add [4294967295; 4294967295] [1])
    (BigUInt.to_Z [4294967295; 4294967295] + BigUInt.to_Z [1]).
Proof.
  apply (proj1 (proj2 (proj2 (proj2 (proj2 (proj2 (proj2 (proj2 (proj2
           (proj2 (proj2 (proj2 (proj2
              C9_magnitudes_stay_within_max_size))))))))))))
           [4294967295; 4294967295] [1]).
  - repeat constructor; vm_compute; congruence.
  - repeat constructor; vm_compute; congruence.
Defined.

(** ** Further properties of the handlers *)

(** A failed conversion to Number ends [do_number_arithmetic]. If the
    conversion of the left operand fails, the right operand is not
    converted; if the left one succeeds and the right one fails, nothing is
    computed either. In both cases the handler returns the error signal,
    releases the coerced operands, left first, and leaves pending the error
    that the failed conversion raised. *)
Theorem number_conversion_failure_ends_arithmetic
    {W : Type} `{!Collaborators W} (op : number_arithmetic_op)
    (left_value right_value : ecma_value_t) (s : vm_state W)
    (left right : ecma_value_t) (rt1 rt2 : runtime W) :
  coerced ECMA_PREFERRED_TYPE_NUMBER left_value (vm_rt s) = (left, rt1) ->
  ECMA_IS_VALUE_ERROR left = false ->
  coerced ECMA_PREFERRED_TYPE_NUMBER right_value rt1 = (right, rt2) ->
  ECMA_IS_VALUE_ERROR right = false ->
  negb (ecma_is_value_bigint left) || negb (ecma_is_value_bigint right) = true ->
  let run := do_number_arithmetic op left_value right_value s in
  (forall rt3,
      to_number_rt left rt2 = (None, rt3) ->
      run = finished ECMA_PREFERRED_TYPE_NUMBER left_value right_value
              left right (vm_trace s) [EvToNumber left] ECMA_VALUE_ERROR rt3
      /\ pending_error run = rt_error rt3)
  /\ (forall num_left rt3 rt4,
      to_number_rt left rt2 = (Some num_left, rt3) ->
      to_number_rt right rt3 = (None, rt4) ->
      run = finished ECMA_PREFERRED_TYPE_NUMBER left_value right_value
              left right (vm_trace s) [EvToNumber left; EvToNumber right]
              ECMA_VALUE_ERROR rt4
      /\ pending_error run = rt_error rt4).
Proof.
  intros Hl Hle Hr Hre Hpath run.
  pose proof (PathFacts.do_number_arithmetic_number_path op left_value
                right_value s left right rt1 rt2 Hl Hle Hr Hre Hpath) as Hrun.
  fold run in Hrun. split.
  - intros rt3 H1. rewrite Hrun, H1. split; [reflexivity |].
    unfold pending_error, finished, state. cbn [snd vm_rt].
    rewrite !OpcodesFacts.rt_error_release. reflexivity.
  - intros num_left rt3 rt4 H1 H2. rewrite Hrun, H1, H2. split; [reflexivity |].
    unfold pending_error, finished, state. cbn [snd vm_rt].
    rewrite !OpcodesFacts.rt_error_release. reflexivity.
Qed.

(** Object 3 gives a symbol, which has no conversion to Number: 2 times it
    is a type error, and the symbol is the only value converted. *)
Lemma number_conversion_failure_ends_arithmetic_witness :
  let s := sample_state in
  let left_value := ecma_make_number_value (ecma_number_of_Z 2) in
  let right_value := ecma_make_object_value 3%N in
  let right := ecma_make_symbol_value 0%N in
  let rt2 := (coerced ECMA_PREFERRED_TYPE_NUMBER right_value (vm_rt s)).2 in
  let rt4 := (to_number_rt right rt2).2 in
  let run :=
    do_number_arithmetic NUMBER_ARITHMETIC_MULTIPLICATION left_value right_value s in
  run = finished ECMA_PREFERRED_TYPE_NUMBER left_value right_value
          left_value right (vm_trace s)
          [EvToNumber left_value; EvToNumber right] ECMA_VALUE_ERROR rt4
  /\ pending_error run = rt_error rt4.
Proof.
  intros s left_value right_value right rt2 rt4.
  refine (proj2 (number_conversion_failure_ends_arithmetic
                   NUMBER_ARITHMETIC_MULTIPLICATION left_value right_value s
                   left_value right (vm_rt s) rt2 _ _ _ _ _)
            (ecma_number_of_Z 2) rt2 rt4 _ _); reflexivity.
Defined.

(** Addition of operands that hold no String and are not both BigInt after
    the to-primitive step: both are converted to Number, left first, and
    the result is the Number value of the double sum. A failed conversion
    ends the handler as it ends [do_number_arithmetic]: the right operand
    is not converted after a failure of the left one, the coerced operands
    are released and the conversion's error stays pending. *)
Theorem addition_without_strings_adds_numbers
    {W : Type} `{!Collaborators W}
    (left_value right_value : ecma_value_t) (s : vm_state W)
    (left right : ecma_value_t) (rt1 rt2 : runtime W) :
  coerced ECMA_PREFERRED_TYPE_NO left_value (vm_rt s) = (left, rt1) ->
  ECMA_IS_VALUE_ERROR left = false ->
  coerced ECMA_PREFERRED_TYPE_NO right_value rt1 = (right, rt2) ->
  ECMA_IS_VALUE_ERROR right = false ->
  ecma_is_value_string left || ecma_is_value_string right = false ->
  ecma_is_value_bigint left && ecma_is_value_bigint right = false ->
  let run := opfunc_addition left_value right_value s in
  (forall num_left rt3 num_right rt4,
      to_number_rt left rt2 = (Some num_left, rt3) ->
      to_number_rt right rt3 = (Some num_right, rt4) ->
      run = finished ECMA_PREFERRED_TYPE_NO left_value right_value left right
              (vm_trace s) [EvToNumber left; EvToNumber right]
              (ecma_make_number_value (number_add num_left num_right)) rt4)
  /\ (forall rt3,
      to_number_rt left rt2 = (None, rt3) ->
      run = finished ECMA_PREFERRED_TYPE_NO left_value right_value left right
              (vm_trace s) [EvToNumber left] ECMA_VALUE_ERROR rt3
      /\ pending_error run = rt_error rt3)
  /\ (forall num_left rt3 rt4,
      to_number_rt left rt2 = (Some num_left, rt3) ->
      to_number_rt right rt3 = (None, rt4) ->
      run = finished ECMA_PREFERRED_TYPE_NO left_value right_value left right
              (vm_trace s) [EvToNumber left; EvToNumber right]
              ECMA_VALUE_ERROR rt4
      /\ pending_error run = rt_error rt4).
Proof.
  intros Hl Hle Hr Hre Hstr Hbig run.
  pose proof (PathFacts.opfunc_addition_number_path left_value right_value s
                left right rt1 rt2 Hl Hle Hr Hre Hstr Hbig) as Hrun.
  fold run in Hrun. split; [| split].
  - intros num_left rt3 num_right rt4 H1 H2. rewrite Hrun, H1, H2. reflexivity.
  - intros rt3 H1. rewrite Hrun, H1. split; [reflexivity |].
    unfold pending_error, finished, state. cbn [snd vm_rt].
    rewrite !OpcodesFacts.rt_error_release. reflexivity.
  - intros num_left rt3 rt4 H1 H2. rewrite Hrun, H1, H2. split; [reflexivity |].
    unfold pending_error, finished, state. cbn [snd vm_rt].
    rewrite !OpcodesFacts.rt_error_release. reflexivity.
Qed.

(** Object 0 gives the number 7, and [true] converts to 1: their sum
    is 8. *)
Lemma addition_without_strings_adds_numbers_witness :
  let s := sample_state in
  let left_value := ecma_make_object_value 0%N in
  let seven := ecma_make_number_value (ecma_number_of_Z 7) in
  let rt1 := (coerced ECMA_PREFERRED_TYPE_NO left_value (vm_rt s)).2 in
  opfunc_addition left_value ECMA_VALUE_TRUE s
  = finished ECMA_PREFERRED_TYPE_NO left_value ECMA_VALUE_TRUE
      seven ECMA_VALUE_TRUE (vm_trace s)
      [EvToNumber seven; EvToNumber ECMA_VALUE_TRUE]
      (ecma_make_number_value (ecma_number_of_Z 8)) rt1.
Proof.
  intros s left_value seven rt1.
  refine (proj1 (addition_without_strings_adds_numbers
                   left_value ECMA_VALUE_TRUE s seven ECMA_VALUE_TRUE rt1 rt1
                   _ _ _ _ _ _)
            (ecma_number_of_Z 7) rt1 (ecma_number_of_Z 1) rt1 _ _);
    reflexivity.
Defined.

(** The unary operators on an operand that is not a BigInt after the
    to-primitive step: the operand is converted to Number and the result
    is that number for unary plus, its negation for unary minus. If the
    conversion fails, the handler returns the error signal with the
    conversion's error pending. Either way the coerced operand is released
    after the conversion, and nothing else is called. *)
Theorem unary_operation_converts_to_number
    {W : Type} `{!Collaborators W} (value : ecma_value_t) (is_plus : bool)
    (s : vm_state W) (left : ecma_value_t) (rt1 : runtime W) :
  coerced ECMA_PREFERRED_TYPE_NUMBER value (vm_rt s) = (left, rt1) ->
  ECMA_IS_VALUE_ERROR left = false ->
  ecma_is_value_bigint left = false ->
  let run := opfunc_unary_operation value is_plus s in
  let trace :=
    vm_trace s
    ++ coercion_events ECMA_PREFERRED_TYPE_NUMBER value left
    ++ [EvToNumber left]
    ++ release_events value left in
  (forall num_var_value rt2,
      to_number_rt left rt1 = (Some num_var_value, rt2) ->
      run = (ecma_make_number_value
               (if is_plus then num_var_value else number_neg num_var_value),
             state (release value left rt2) trace))
  /\ (forall rt2,
      to_number_rt left rt1 = (None, rt2) ->
      run = (ECMA_VALUE_ERROR, state (release value left rt2) trace)
      /\ pending_error run = rt_error rt2).
Proof.
  intros Hl Hle Hbig run trace.
  pose proof (PathFacts.opfunc_unary_operation_number_path value is_plus s
                left rt1 Hl Hle Hbig) as Hrun.
  fold run in Hrun. split.
  - intros num_var_value rt2 H1. rewrite Hrun, H1. reflexivity.
  - intros rt2 H1. rewrite Hrun, H1. split; [reflexivity |].
    unfold pending_error, state. cbn [snd vm_rt].
    apply OpcodesFacts.rt_error_release.
Qed.

(** Object 0 gives the number 7: minus it is -7. *)
Lemma unary_operation_converts_to_number_witness :
  let s := sample_state in
  let value := ecma_make_object_value 0%N in
  let seven := ecma_make_number_value (ecma_number_of_Z 7) in
  let rt1 := (coerced ECMA_PREFERRED_TYPE_NUMBER value (vm_rt s)).2 in
  opfunc_unary_operation value false s
  = (ecma_make_number_value (ecma_number_of_Z (-7)),
     state rt1
       (vm_trace s
        ++ [EvDefaultValue 0%N ECMA_PREFERRED_TYPE_NUMBER seven]
        ++ [EvToNumber seven]
        ++ [EvFreeValue seven])).
Proof.
  intros s value seven rt1.
  refine (proj1 (unary_operation_converts_to_number value false s seven rt1
                   _ _ _)
            (ecma_number_of_Z 7) rt1 _); reflexivity.
Defined.

(** Addition of a BigInt and a primitive that is neither a BigInt nor a
    String, given as such or as default values of Objects: the handler
    returns the error signal with a TypeError pending. The operands go the
    Number path: the conversions to Number are the only calls between the
    to-primitive steps and the releases, so the BigInt engine is not
    called, and the conversion of the BigInt, or of a Symbol before it,
    raises the TypeError. *)
Theorem addition_of_bigint_and_number_raises_type_error
    {W : Type} `{!Collaborators W}
    (left_value right_value : ecma_value_t) (s : vm_state W)
    (left right : ecma_value_t) (rt1 rt2 : runtime W) :
  coerced ECMA_PREFERRED_TYPE_NO left_value (vm_rt s) = (left, rt1) ->
  coerced ECMA_PREFERRED_TYPE_NO right_value rt1 = (right, rt2) ->
  ecma_is_value_primitive left = true ->
  ecma_is_value_primitive right = true ->
  ecma_is_value_string left || ecma_is_value_string right = false ->
  xorb (ecma_is_value_bigint left) (ecma_is_value_bigint right) = true ->
  let run := opfunc_addition left_value right_value s in
  run.1 = ECMA_VALUE_ERROR
  /\ (exists msg,
        pending_error run = Some (ecma_standard_error ECMA_ERROR_TYPE msg))
  /\ (exists conversions,
        vm_trace run.2
        = vm_trace s
          ++ coercion_events ECMA_PREFERRED_TYPE_NO left_value left
          ++ coercion_events ECMA_PREFERRED_TYPE_NO right_value right
          ++ conversions
          ++ release_events left_value left
          ++ release_events right_value right
        /\ (conversions = [EvToNumber left]
            \/ conversions = [EvToNumber left; EvToNumber right])).
Proof.
  intros Hl Hr Hlp Hrp Hstr Hx run.
  destruct (PathFacts.opfunc_addition_mixed left_value right_value s
              left right rt1 rt2 Hl Hr Hlp Hrp Hstr Hx)
    as (msg & conversions & Hrun & Hconversions).
  subst run. rewrite Hrun. unfold finished, pending_error, state.
  cbn [fst snd vm_rt vm_trace].
  split; [reflexivity | split].
  - exists msg. rewrite !OpcodesFacts.rt_error_release. reflexivity.
  - exists conversions. split; [reflexivity | exact Hconversions].
Qed.

(** Primitive 1 is 5n: 5n + 2 is a type error. *)
Lemma addition_of_bigint_and_number_raises_type_error_witness :
  let s := sample_state in
  let left_value := ecma_make_bigint_value 1%N in
  let right_value := ecma_make_number_value (ecma_number_of_Z 2) in
  let run := opfunc_addition left_value right_value s in
  run.1 = ECMA_VALUE_ERROR
  /\ (exists msg,
        pending_error run = Some (ecma_standard_error ECMA_ERROR_TYPE msg))
  /\ (exists conversions,
        vm_trace run.2
        = vm_trace s
          ++ coercion_events ECMA_PREFERRED_TYPE_NO left_value left_value
          ++ coercion_events ECMA_PREFERRED_TYPE_NO right_value right_value
          ++ conversions
          ++ release_events left_value left_value
          ++ release_events right_value right_value
        /\ (conversions = [EvToNumber left_value]
            \/ conversions = [EvToNumber left_value; EvToNumber right_value])).
Proof.
  intros s left_value right_value.
  apply (addition_of_bigint_and_number_raises_type_error
           left_value right_value s left_value right_value (vm_rt s) (vm_rt s));
    reflexivity.
Defined.

(** Whatever the operands and the collaborators do, a run of
    [do_number_arithmetic] or of [opfunc_addition] calls the signed BigInt
    operations at most once, only on two BigInt values, and never in a run
    that converts an operand to Number. *)
Theorem engine_is_called_on_bigints_only {W : Type} `{!Collaborators W} :
  (forall op left_value right_value (s : vm_state W),
      exists events,
        vm_trace (do_number_arithmetic op left_value right_value s).2
        = vm_trace s ++ events
        /\ engine_called_properly events)
  /\ (forall left_value right_value (s : vm_state W),
      exists events,
        vm_trace (opfunc_addition left_value right_value s).2
        = vm_trace s ++ events
        /\ engine_called_properly events).
Proof.
  split.
  - apply PathFacts.do_number_arithmetic_engine_calls.
  - apply PathFacts.opfunc_addition_engine_calls.
Qed.

(** The kind of value the handlers return, on every path. A run of
    [do_number_arithmetic] returns the error signal or a Number, unless it
    called the BigInt engine, whose result it then returns; a run of
    [opfunc_addition] returns the error signal, a Number or a String,
    unless it called the engine. Unary plus returns the error signal or a
    Number, whatever its operand. *)
Theorem results_of_the_handlers {W : Type} `{!Collaborators W} :
  (forall op left_value right_value (s : vm_state W),
      let run := do_number_arithmetic op left_value right_value s in
      exists events,
        vm_trace run.2 = vm_trace s ++ events
        /\ (run.1 = ECMA_VALUE_ERROR
            \/ (exists num, run.1 = ecma_make_number_value num)
            \/ engine_calls events <> []))
  /\ (forall left_value right_value (s : vm_state W),
      let run := opfunc_addition left_value right_value s in
      exists events,
        vm_trace run.2 = vm_trace s ++ events
        /\ (run.1 = ECMA_VALUE_ERROR
            \/ (exists num, run.1 = ecma_make_number_value num)
            \/ (exists string_p, run.1 = ecma_make_string_value string_p)
            \/ engine_calls events <> []))
  /\ (forall value (s : vm_state W),
      let run := opfunc_unary_operation value true s in
      run.1 = ECMA_VALUE_ERROR
      \/ (exists num, run.1 = ecma_make_number_value num)).
Proof.
  split; [| split].
  - intros op left_value right_value s.
    apply PathFacts.do_number_arithmetic_result.
  - intros left_value right_value s. apply PathFacts.opfunc_addition_result.
  - intros value s. apply PathFacts.opfunc_unary_plus_result.
Qed.

(** The hints of the to-primitive steps. On every path, the arithmetic
    operators and the unary operators ask for the default value of an
    Object with the Number hint and addition asks with no hint; a run asks
    at most once per operand. *)
Theorem coercion_hints_of_the_handlers {W : Type} `{!Collaborators W} :
  (forall op left_value right_value (s : vm_state W),
      exists events,
        vm_trace (do_number_arithmetic op left_value right_value s).2
        = vm_trace s ++ events
        /\ (length (coercion_hints events) <= 2)%nat
        /\ Forall (eq ECMA_PREFERRED_TYPE_NUMBER) (coercion_hints events))
  /\ (forall left_value right_value (s : vm_state W),
      exists events,
        vm_trace (opfunc_addition left_value right_value s).2
        = vm_trace s ++ events
        /\ (length (coercion_hints events) <= 2)%nat
        /\ Forall (eq ECMA_PREFERRED_TYPE_NO) (coercion_hints events))
  /\ (forall value is_plus (s : vm_state W),
      exists events,
        vm_trace (opfunc_unary_operation value is_plus s).2
        = vm_trace s ++ events
        /\ (length (coercion_hints events) <= 1)%nat
        /\ Forall (eq ECMA_PREFERRED_TYPE_NUMBER) (coercion_hints events)).
Proof.
  split; [| split].
  - apply PathFacts.do_number_arithmetic_hints.
  - apply PathFacts.opfunc_addition_hints.
  - apply PathFacts.opfunc_unary_operation_hints.
Qed.

(** The unary operators on a Number. Unary plus returns the number as it
    is; unary minus returns the number with its sign flipped, and applying
    it to its own result gives the first number back. No run changes the
    runtime: nothing is raised and the heap is not touched. *)
Theorem unary_operators_on_numbers
    {W : Type} `{!Collaborators W} (num : ecma_number_t) (s : vm_state W) :
  let plus := opfunc_unary_operation (ecma_make_number_value num) true s in
  let minus := opfunc_unary_operation (ecma_make_number_value num) false s in
  let back := opfunc_unary_operation minus.1 false minus.2 in
  plus.1 = ecma_make_number_value num
  /\ vm_rt plus.2 = vm_rt s
  /\ minus.1 = ecma_make_number_value (SFopp num)
  /\ vm_rt minus.2 = vm_rt s
  /\ back.1 = ecma_make_number_value num
  /\ vm_rt back.2 = vm_rt s.
Proof.
  intros plus minus back. subst plus minus back.
  rewrite !PathFacts.opfunc_unary_operation_number. cbn [fst snd].
  rewrite PathFacts.opfunc_unary_operation_number. cbn [fst snd state vm_rt].
  rewrite NumberFacts.number_neg_involutive. repeat split.
Qed.

(** The three handlers agree on Numbers: subtracting a number is adding
    its negation, as [opfunc_unary_operation] computes it. *)
Theorem subtraction_is_addition_of_the_negation
    {W : Type} `{!Collaborators W} (a b : ecma_number_t) (s : vm_state W) :
  let negated := opfunc_unary_operation (ecma_make_number_value b) false s in
  (opfunc_addition (ecma_make_number_value a) negated.1 negated.2).1
  = (do_number_arithmetic NUMBER_ARITHMETIC_SUBTRACTION
       (ecma_make_number_value a) (ecma_make_number_value b) s).1.
Proof.
  intros negated. subst negated.
  rewrite PathFacts.opfunc_unary_operation_number. cbn [fst snd].
  rewrite PathFacts.opfunc_addition_numbers.
  rewrite OpcodesFacts.do_number_arithmetic_numbers. cbn [fst number_arithmetic].
  rewrite NumberFacts.number_sub_add_neg. reflexivity.
Qed.

(** On Numbers, the results of addition and of multiplication do not
    depend on the order of the operands. *)
Theorem addition_and_multiplication_commute_on_numbers
    {W : Type} `{!Collaborators W} (a b : ecma_number_t) (s : vm_state W) :
  (opfunc_addition (ecma_make_number_value a) (ecma_make_number_value b) s).1
  = (opfunc_addition (ecma_make_number_value b) (ecma_make_number_value a) s).1
  /\ (do_number_arithmetic NUMBER_ARITHMETIC_MULTIPLICATION
        (ecma_make_number_value a) (ecma_make_number_value b) s).1
     = (do_number_arithmetic NUMBER_ARITHMETIC_MULTIPLICATION
          (ecma_make_number_value b) (ecma_make_number_value a) s).1.
Proof.
  rewrite !PathFacts.opfunc_addition_numbers.
  rewrite !OpcodesFacts.do_number_arithmetic_numbers.
  cbn [fst number_arithmetic].
  rewrite (NumberFacts.number_add_comm a b), (NumberFacts.number_mul_comm a b).
  split; reflexivity.
Qed.

(** Unary minus on an Object whose default value is a BigInt of size zero,
    held with at least one reference. The result is that BigInt. The
    handler takes a reference for the result before it releases the
    coerced operand, so the primitive is not freed in between, and the
    runtime ends as the to-primitive step left it: the reference that the
    step produced has passed to the result. *)
Theorem unary_minus_on_object_with_zero_bigint
    {W : Type} `{!Collaborators W} (obj_p : ecma_object_t) (s : vm_state W)
    (left_p : ecma_extended_primitive_ptr) (prim : ecma_extended_primitive_t)
    (rt1 : runtime W) :
  object_default_value obj_p ECMA_PREFERRED_TYPE_NUMBER (vm_rt s)
    = (ecma_make_bigint_value left_p, rt1) ->
  rt_heap rt1 !! left_p = Some prim ->
  ECMA_BIGINT_GET_SIZE prim = 0 ->
  1 <= refs prim ->
  let run := opfunc_unary_operation (ecma_make_object_value obj_p) false s in
  run.1 = ecma_make_bigint_value left_p
  /\ vm_rt run.2 = rt1
  /\ vm_trace run.2
     = vm_trace s
       ++ [EvDefaultValue obj_p ECMA_PREFERRED_TYPE_NUMBER
             (ecma_make_bigint_value left_p);
           EvRefExtendedPrimitive left_p;
           EvFreeValue (ecma_make_bigint_value left_p)].
Proof.
  intros Hl Hheap Hsize Hrefs run. subst run.
  rewrite (PathFacts.opfunc_unary_minus_zero_bigint_object obj_p s left_p prim
             rt1 Hl Hheap Hsize).
  cbn [fst snd state vm_rt vm_trace].
  rewrite (PathFacts.free_after_ref left_p prim rt1 Hheap Hrefs).
  repeat split.
Qed.

(** Object 2 gives the BigInt 0n. *)
Lemma unary_minus_on_object_with_zero_bigint_witness :
  let s := sample_state in
  let rt1 :=
    (object_default_value 2%N ECMA_PREFERRED_TYPE_NUMBER (vm_rt s)).2 in
  let run := opfunc_unary_operation (ecma_make_object_value 2%N) false s in
  run.1 = ecma_make_bigint_value 0%N
  /\ vm_rt run.2 = rt1
  /\ vm_trace run.2
     = vm_trace s
       ++ [EvDefaultValue 2%N ECMA_PREFERRED_TYPE_NUMBER
             (ecma_make_bigint_value 0%N);
           EvRefExtendedPrimitive 0%N;
           EvFreeValue (ecma_make_bigint_value 0%N)].
Proof.
  intros s rt1.
  apply (unary_minus_on_object_with_zero_bigint 2%N s 0%N
           {| refs := 2; bigint_sign := false; bigint_digits := [] |} rt1);
    [reflexivity | reflexivity | reflexivity | vm_compute; discriminate].
Defined.

(** ** Further properties of the macros of ecma-big-uint.h *)

(** [ECMA_BIGINT_SIZE_IS_ODD] alternates with the number of digits. A size
    that is one digit larger has the opposite flag, whatever the size; the
    byte size of a magnitude has the flag exactly when the number of its
    digits is odd, so extending a magnitude by a digit flips it. *)
Theorem size_is_odd_alternates :
  (forall size,
      BigUInt.ECMA_BIGINT_SIZE_IS_ODD (size + BigUInt.sizeof_ecma_bigint_digit_t)
      = negb (BigUInt.ECMA_BIGINT_SIZE_IS_ODD size))
  /\ (forall digits,
      BigUInt.ECMA_BIGINT_SIZE_IS_ODD (BigUInt.byte_size digits)
      = Nat.odd (length digits))
  /\ (forall digits digit,
      BigUInt.ECMA_BIGINT_SIZE_IS_ODD (BigUInt.byte_size (digits ++ [digit]))
      = negb (BigUInt.ECMA_BIGINT_SIZE_IS_ODD (BigUInt.byte_size digits))).
Proof.
  assert (Hstep : forall size,
             BigUInt.ECMA_BIGINT_SIZE_IS_ODD
               (size + BigUInt.sizeof_ecma_bigint_digit_t)
             = negb (BigUInt.ECMA_BIGINT_SIZE_IS_ODD size)).
  { intros size. rewrite !MacroFacts.size_is_odd_quarter.
    unfold BigUInt.sizeof_ecma_bigint_digit_t.
    replace (size + 4) with (size + 1 * 4) by lia.
    rewrite Z.div_add by lia.
    rewrite Z.add_1_r, Z.odd_succ, Z.negb_odd. reflexivity. }
  split; [exact Hstep | split].
  - intros digits. rewrite MacroFacts.size_is_odd_quarter.
    rewrite BigUIntFacts.byte_size_length.
    induction digits as [| d ds IH]; [reflexivity |].
    cbn [length]. rewrite Nat2Z.inj_succ, Z.odd_succ, Nat.odd_succ.
    rewrite <- Z.negb_odd, IH, Nat.negb_odd. reflexivity.
  - intros digits digit.
    rewrite <- Hstep. f_equal. unfold BigUInt.byte_size.
    rewrite length_app. cbn [length]. lia.
Qed.

(** [ECMA_BIGINT_HIGH_DIGIT] of a digit is the digit times the digit base:
    nothing is lost in the 64-bit two-digit type. Joined with a low digit
    it is a two-digit value below [2 ^ 64] from which a shift by the width
    of a digit gives the high digit back and the mask of a digit gives the
    low one. *)
Theorem high_digit_joins_two_digits (high low : Z) :
  0 <= high < BigUInt.digit_base ->
  0 <= low < BigUInt.digit_base ->
  let two_digits := Z.lor (BigUInt.ECMA_BIGINT_HIGH_DIGIT high) low in
  BigUInt.ECMA_BIGINT_HIGH_DIGIT high = high * BigUInt.digit_base
  /\ two_digits = high * BigUInt.digit_base + low
  /\ 0 <= two_digits < 2 ^ 64
  /\ Z.shiftr two_digits BigUInt.digit_bits = high
  /\ Z.land two_digits (BigUInt.digit_base - 1) = low.
Proof.
  intros Hhigh Hlow two_digits.
  pose proof (MacroFacts.high_digit_spec high Hhigh) as Hspec.
  rewrite BigUIntFacts.digit_base_eq in *.
  assert (Hland : Z.land (high * 4294967296) low = 0).
  { change 4294967296 with (2 ^ 32). rewrite <- Z.shiftl_mul_pow2 by lia.
    apply Z.bits_inj'. intros n Hn. rewrite Z.land_spec, Z.bits_0.
    destruct (Z.lt_ge_cases n 32) as [Hlt | Hge].
    - rewrite Z.shiftl_spec_low by exact Hlt. reflexivity.
    - rewrite <- (Z.mod_small low (2 ^ 32)) by lia.
      rewrite Z.mod_pow2_bits_high by lia. apply andb_false_r. }
  assert (Hsum : two_digits = high * 4294967296 + low).
  { subst two_digits. rewrite Hspec.
    rewrite <- (Z.lxor_lor _ _ Hland). symmetry.
    apply Z.add_nocarry_lxor. exact Hland. }
  split; [exact Hspec | split; [exact Hsum | split; [lia | split]]].
  - rewrite Hsum. unfold BigUInt.digit_bits, BigUInt.sizeof_ecma_bigint_digit_t.
    rewrite Z.shiftr_div_pow2 by lia. change (2 ^ (8 * 4)) with 4294967296.
    rewrite Z.add_comm, Z.div_add by lia. rewrite Z.div_small by lia. lia.
  - rewrite Hsum. change (4294967296 - 1) with (Z.ones 32).
    rewrite Z.land_ones by lia. change (2 ^ 32) with 4294967296.
    rewrite Z.add_comm, Z.mod_add by lia. apply Z.mod_small. lia.
Qed.

(** The largest digit above the digit 7. *)
Lemma high_digit_joins_two_digits_witness :
  let two_digits := Z.lor (BigUInt.ECMA_BIGINT_HIGH_DIGIT 4294967295) 7 in
  BigUInt.ECMA_BIGINT_HIGH_DIGIT 4294967295 = 4294967295 * BigUInt.digit_base
  /\ two_digits = 4294967295 * BigUInt.digit_base + 7
  /\ 0 <= two_digits < 2 ^ 64
  /\ Z.shiftr two_digits BigUInt.digit_bits = 4294967295
  /\ Z.land two_digits (BigUInt.digit_base - 1) = 7.
Proof.
  apply (high_digit_joins_two_digits 4294967295 7); vm_compute; split; congruence.
Defined.

(** [ECMA_BIGINT_GET_LAST_DIGIT (value_p, size)] on the first [n] digits of
    a magnitude, [size] being their byte size: what
    [ECMA_BIGINT_GET_DIGITS] points to at the offset of one digit less
    starts with that digit and goes on with what it points to at [size];
    the digit is the one of index [n - 1]. At offset 0 the pointer is to
    all the digits, and at the byte size of the magnitude to none. *)
Theorem last_digit_of_a_magnitude (digits : BigUInt.magnitude) (n : nat) :
  (0 < n <= length digits)%nat ->
  let size := BigUInt.sizeof_ecma_bigint_digit_t * Z.of_nat n in
  BigUInt.ECMA_BIGINT_GET_DIGITS digits
    (size - BigUInt.sizeof_ecma_bigint_digit_t)
  = BigUInt.ECMA_BIGINT_GET_LAST_DIGIT digits size
    :: BigUInt.ECMA_BIGINT_GET_DIGITS digits size
  /\ digits !! (n - 1)%nat = Some (BigUInt.ECMA_BIGINT_GET_LAST_DIGIT digits size)
  /\ BigUInt.ECMA_BIGINT_GET_DIGITS digits 0 = digits
  /\ BigUInt.ECMA_BIGINT_GET_DIGITS digits (BigUInt.byte_size digits) = [].
Proof.
  intros Hn size. subst size.
  assert (Hlast : BigUInt.ECMA_BIGINT_GET_LAST_DIGIT digits
                    (BigUInt.sizeof_ecma_bigint_digit_t * Z.of_nat n)
                  = nth (n - 1) digits 0).
  { unfold BigUInt.ECMA_BIGINT_GET_LAST_DIGIT, BigUInt.sizeof_ecma_bigint_digit_t.
    rewrite Z.mul_comm, Z.div_mul by lia. f_equal. lia. }
  assert (Hlookup : digits !! (n - 1)%nat = Some (nth (n - 1) digits 0)).
  { destruct (lookup_lt_is_Some_2 digits (n - 1)) as [x Hx]; [lia |].
    rewrite (nth_lookup_Some _ _ 0 _ Hx). exact Hx. }
  rewrite Hlast. split; [| split; [exact Hlookup | split]].
  - replace (BigUInt.sizeof_ecma_bigint_digit_t * Z.of_nat n
             - BigUInt.sizeof_ecma_bigint_digit_t)
      with (BigUInt.sizeof_ecma_bigint_digit_t * Z.of_nat (n - 1))
      by (unfold BigUInt.sizeof_ecma_bigint_digit_t; lia).
    rewrite !MacroFacts.get_digits_offset.
    rewrite (drop_S digits (nth (n - 1) digits 0) (n - 1) Hlookup).
    do 2 f_equal. lia.
  - reflexivity.
  - unfold BigUInt.byte_size. rewrite MacroFacts.get_digits_offset.
    apply drop_all.
Qed.

(** The last of the three digits 5, 6, 7 is at size 12. *)
Lemma last_digit_of_a_magnitude_witness :
  BigUInt.ECMA_BIGINT_GET_DIGITS [5; 6; 7] (12 - 4)
  = BigUInt.ECMA_BIGINT_GET_LAST_DIGIT [5; 6; 7] 12
    :: BigUInt.ECMA_BIGINT_GET_DIGITS [5; 6; 7] 12
  /\ [5; 6; 7] !! 2%nat = Some (BigUInt.ECMA_BIGINT_GET_LAST_DIGIT [5; 6; 7] 12)
  /\ BigUInt.ECMA_BIGINT_GET_DIGITS [5; 6; 7] 0 = [5; 6; 7]
  /\ BigUInt.ECMA_BIGINT_GET_DIGITS [5; 6; 7] (BigUInt.byte_size [5; 6; 7]) = [].
Proof.
  apply (last_digit_of_a_magnitude [5; 6; 7] 3). simpl. lia.
Defined.
